(** * Runtime coverage aggregation across replicas (package [coverage])

    A shallow embedding of the Go package [github.com/compashka/coverage]:
    the identity provider ([hostname]), the peer collector
    ([requestOtherProfile] with [write]), the peer reset broadcaster
    ([resetOtherProfile]), the report aggregator
    ([calculateTotalCoverage]) and the HTTP handlers.

    Conventions.
    - A Go [error] is a value of [error] below; [nil] is [None] in
      [option error], and a Go pair [(v, err)] is a [result].
    - Go [int] and [time.Duration] are [Z]; no arithmetic that could wrap
      is performed on them by the package.
    - Go [string] and [[]byte] are [string] (sequences of 8-bit bytes).
    - [float64] is the kernel's binary64 ([PrimFloat.float]).
    - The outside world (clock, network, operating system, external tools)
      is an explicit script that the functions consume; the state they
      change (file system, response writer) is passed explicitly. *)

From Stdlib Require Import ZArith String Ascii List Bool Lia.
From Stdlib Require Import DecimalString Floats Uint63.
From stdpp Require Import gmap strings list.

#[local] Open Scope Z_scope.
#[local] Open Scope string_scope.
#[local] Open Scope list_scope.
Set Warnings "-clear-no-such-hyp".

(** ** Errors *)

(** [New] is an error with a fixed or library-provided text
    ([errors.New], [fmt.Errorf] without an operand, or an error handed
    back by the runtime); [Wrap prefix cause] is
    [fmt.Errorf(prefix + "%v", cause)] (or ["%w"]). *)
Inductive error : Type :=
| New (text : string)
| Wrap (prefix : string) (cause : error).

(** [err.Error()]. *)
Fixpoint Error (e : error) : string :=
  match e with
  | New text => text
  | Wrap prefix cause => prefix +:+ Error cause
  end.

Inductive result (A : Type) : Type :=
| Ok (a : A)
| Err (e : error).
Arguments Ok {A} a.
Arguments Err {A} e.

(** ** Bytes and strings *)

Module GoStrings.

Definition byte_in (lo hi : ascii) (c : ascii) : bool :=
  (N_of_ascii lo <=? N_of_ascii c)%N && (N_of_ascii c <=? N_of_ascii hi)%N.

Definition isLower (c : ascii) : bool := byte_in "a" "z" c.
Definition isUpper (c : ascii) : bool := byte_in "A" "Z" c.
Definition isDigit (c : ascii) : bool := byte_in "0" "9" c.

Definition toUpper (c : ascii) : ascii :=
  if isLower c then ascii_of_N (N_of_ascii c - 32) else c.
Definition toLower (c : ascii) : ascii :=
  if isUpper c then ascii_of_N (N_of_ascii c + 32) else c.

Fixpoint forallb_string (p : ascii -> bool) (s : string) : bool :=
  match s with
  | EmptyString => true
  | String c s' => p c && forallb_string p s'
  end.

Fixpoint existsb_string (p : ascii -> bool) (s : string) : bool :=
  match s with
  | EmptyString => false
  | String c s' => p c || existsb_string p s'
  end.

(** [strings.HasPrefix(s, prefix)]. *)
Fixpoint HasPrefix (s prefix : string) {struct prefix} : bool :=
  match prefix, s with
  | EmptyString, _ => true
  | String p prefix', String c s' => Ascii.eqb p c && HasPrefix s' prefix'
  | String _ _, EmptyString => false
  end.

(** [strings.Contains(s, substr)]. *)
Fixpoint Contains (s substr : string) : bool :=
  HasPrefix s substr ||
  match s with
  | EmptyString => false
  | String _ s' => Contains s' substr
  end.

Fixpoint rev_onto (acc s : string) : string :=
  match s with
  | EmptyString => acc
  | String c s' => rev_onto (String c acc) s'
  end.

(** The reversal of a string, used to read an accumulator back. *)
Definition rev (s : string) : string := rev_onto EmptyString s.

(** [strings.Split(s, sep)] for a non-empty [sep]: the pieces between
    the non-overlapping occurrences of [sep], found left to right.
    [skip] counts the bytes of a separator still to be passed over and
    [cur] is the current piece, reversed. *)
Fixpoint split_from (sep : string) (skip : nat) (cur : string) (s : string)
  : list string :=
  match s with
  | EmptyString => [rev cur]
  | String c s' =>
      match skip with
      | S k => split_from sep k cur s'
      | O =>
          if HasPrefix s sep
          then rev cur :: split_from sep (String.length sep - 1) EmptyString s'
          else split_from sep O (String c cur) s'
      end
  end.

(** [strings.Split(s, sep)]; an empty [sep] splits after each byte
    sequence of one UTF-8 character and is not used by the package. *)
Definition Split (s sep : string) : list string := split_from sep O EmptyString s.

(** The six ASCII bytes of [unicode.IsSpace]: tab, line feed, vertical
    tab, form feed, carriage return and space. *)
Definition asciiSpace (c : ascii) : bool :=
  let n := N_of_ascii c in
  ((9 <=? n)%N && (n <=? 13)%N) || (n =? 32)%N.

Definition bytes (l : list N) : string :=
  fold_right (fun n s => String (ascii_of_N n) s) EmptyString l.

(** The UTF-8 encodings of the other characters of [unicode.IsSpace]:
    U+0085, U+00A0, U+1680, U+2000 to U+200A, U+2028, U+2029, U+202F,
    U+205F and U+3000. *)
Definition unicodeSpaces : list string :=
  map bytes
    [ [194; 133]; [194; 160]; [225; 154; 128];
      [226; 128; 128]; [226; 128; 129]; [226; 128; 130]; [226; 128; 131];
      [226; 128; 132]; [226; 128; 133]; [226; 128; 134]; [226; 128; 135];
      [226; 128; 136]; [226; 128; 137]; [226; 128; 138];
      [226; 128; 168]; [226; 128; 169]; [226; 128; 175];
      [226; 129; 159]; [227; 128; 128] ]%N.

(** The byte length of the white-space pattern of [pats] that [s]
    starts with, [0] when there is none. *)
Fixpoint spaceLen (pats : list string) (s : string) : nat :=
  match pats with
  | [] => O
  | p :: pats' => if HasPrefix s p then String.length p else spaceLen pats' s
  end.

(** Drops leading white space: ASCII space bytes and the multi-byte
    patterns [pats]; [skip] counts the bytes of a pattern still to be
    dropped. *)
Fixpoint trimLeft_from (pats : list string) (skip : nat) (s : string) : string :=
  match s with
  | EmptyString => EmptyString
  | String c s' =>
      match skip with
      | S k => trimLeft_from pats k s'
      | O =>
          if asciiSpace c then trimLeft_from pats O s'
          else
            match spaceLen pats s with
            | O => s
            | S k => trimLeft_from pats k s'
            end
      end
  end.

(** [strings.TrimSpace(s)]: leading and trailing white space, as
    defined by Unicode, removed. A trailing character is recognised on
    the reversed string by its reversed encoding. *)
Definition TrimSpace (s : string) : string :=
  rev (trimLeft_from (map rev unicodeSpaces) O
         (rev (trimLeft_from unicodeSpaces O s))).

(** [bufio.MaxScanTokenSize]. *)
Definition MaxScanTokenSize : N := 65536.

(** [bufio.ErrTooLong]. *)
Definition ErrTooLong : error := New "bufio.Scanner: token too long".

(** [dropCR] of [bufio.ScanLines], on the reversed line. *)
Definition dropCR_rev (cur : string) : string :=
  match cur with
  | String c cur' => if Ascii.eqb c "013" then cur' else cur
  | EmptyString => cur
  end.

(** A [bufio.Scanner] with the default buffer and [bufio.ScanLines]
    over an in-memory reader, run to the end: the tokens [Scan]
    delivers, in order, and [scanner.Err()] afterwards. A line is
    delivered without its line feed and without one carriage return
    before it; a last line without line feed is delivered when it is
    not empty; a line whose bytes before the line feed fill the buffer
    ([MaxScanTokenSize] bytes or more) stops the scan with
    [ErrTooLong]. [cur] is the current line, reversed, and [n] its
    length. *)
Fixpoint scan_from (cur : string) (n : N) (s : string) : list string * option error :=
  match s with
  | EmptyString =>
      match cur with
      | EmptyString => ([], None)
      | String _ _ =>
          if (MaxScanTokenSize <=? n)%N then ([], Some ErrTooLong)
          else ([rev (dropCR_rev cur)], None)
      end
  | String c s' =>
      if Ascii.eqb c "010" then
        if (MaxScanTokenSize <=? n)%N then ([], Some ErrTooLong)
        else
          let (ls, e) := scan_from EmptyString 0%N s' in
          (rev (dropCR_rev cur) :: ls, e)
      else scan_from (String c cur) (n + 1)%N s'
  end.

Definition ScanLines (s : string) : list string * option error :=
  scan_from EmptyString 0%N s.

(** Go's [%d] of an [int]. *)
Definition Sprintf_d (n : Z) : string := NilZero.string_of_int (Z.to_int n).

End GoStrings.
Import GoStrings.

(** ** HTTP headers ([net/http.Header]) *)

Abbreviation Header := (gmap string (list string)).

Module Http.

(** [validHeaderFieldByte] of [net/textproto]: the bytes of an RFC 7230
    token. *)
Definition validHeaderFieldByte (c : ascii) : bool :=
  isLower c || isUpper c || isDigit c
  || existsb_string (Ascii.eqb c) "!#$%&'*+-.^_`|~".

Fixpoint canon_from (upper : bool) (s : string) : string :=
  match s with
  | EmptyString => EmptyString
  | String c s' =>
      let c' := if upper then toUpper c else toLower c in
      String c' (canon_from (Ascii.eqb c' "-") s')
  end.

(** [textproto.CanonicalMIMEHeaderKey]: the first letter and every
    letter after a hyphen in upper case, the others in lower case; a
    key with a byte that is not a token byte is left as it is. *)
Definition CanonicalMIMEHeaderKey (s : string) : string :=
  if forallb_string validHeaderFieldByte s then canon_from true s else s.

(** [h.Get(key)]: the first value of the key, [""] when there is none. *)
Definition Get (h : Header) (key : string) : string :=
  match h !! CanonicalMIMEHeaderKey key with
  | Some (v :: _) => v
  | _ => EmptyString
  end.

(** [h.Set(key, value)]. *)
Definition Set_ (h : Header) (key value : string) : Header :=
  <[CanonicalMIMEHeaderKey key := [value]]> h.

Definition StatusOK : Z := 200.
Definition StatusInternalServerError : Z := 500.

End Http.

(** ** Package state *)

(** The [logger] interface; the package only stores the value. *)
Inductive logger : Type :=
| defaultLogger
| customLogger (id : nat).

(** The package-level variables. *)
Record Globals : Type := mkGlobals {
  numberPods : Z;
  hostname : string;
  covLogger : logger
}.

Definition hostnameHeader : string := "x-hostname".
Definition filenameHeader : string := "x-filename".

(** The initialiser of the variable [hostname], given what
    [os.Hostname()] returned and the value [rand.Int()] would return. *)
Definition hostname_init (lookup : result string) (rnd : Z) : string :=
  match lookup with
  | Err _ => "generated-hostname-" +:+ Sprintf_d rnd
  | Ok h => h
  end.

(** Package initialisation: the variable initialisers, then [init]. *)
Definition init (lookup : result string) (rnd : Z) : Globals :=
  {| numberPods := 1;
     hostname := hostname_init lookup rnd;
     covLogger := defaultLogger |}.

Definition SetNumberPods (n : Z) (g : Globals) : Globals :=
  {| numberPods := n; hostname := hostname g; covLogger := covLogger g |}.

Definition SetLogger (l : logger) (g : Globals) : Globals :=
  {| numberPods := numberPods g; hostname := hostname g; covLogger := l |}.

(** ** The operating system and the coverage runtime *)

(** A directory made by [os.MkdirTemp]. Go names it by a path string
    ending in random digits; here it is named by its position in the
    list of directories made so far, which is as unique. [dparent] is
    the directory it was made in ([None]: the default directory for
    temporary files), [dpattern] the pattern of its name, [dfiles] its
    regular files (name and contents) in the order of [os.ReadDir], by
    name. *)
Record Dir : Type := mkDir {
  dparent : option nat;
  dpattern : string;
  dfiles : list (string * string);
  dremoved : bool
}.

(** A directory path held in a Go string variable: [None] is the empty
    string, [Some i] the path of the [i]-th directory. *)
Abbreviation DirRef := (option nat).

(** The state the package works on: the temporary directories, the
    failures the operating system and the runtime are going to report
    (one entry per call that reaches them, [None] for no failure, and no
    failure once the list is used up), the meta-data file and the counter
    file the coverage runtime emits, and the number of times the
    counters were cleared. *)
Record OS : Type := mkOS {
  fs : list Dir;
  faults : list (option error);
  metaFile : string * string;
  counterFile : string * string;
  clears : nat
}.

Definition set_fs (os : OS) (d : list Dir) : OS :=
  {| fs := d; faults := faults os; metaFile := metaFile os;
     counterFile := counterFile os; clears := clears os |}.

(** Computations on the operating system; [None] when a call names a
    path outside the directories modelled here. *)
Definition M (A : Type) : Type := OS -> option (A * OS).

Definition ret {A : Type} (a : A) : M A := fun os => Some (a, os).

Definition bind {A B : Type} (m : M A) (k : A -> M B) : M B :=
  fun os =>
    match m os with
    | Some (a, os') => k a os'
    | None => None
    end.

Notation "x <- m ;; k" := (bind m (fun x => k))
  (at level 100, m at next level, right associativity).

(** The next failure the environment reports. *)
Definition fault : M (option error) :=
  fun os =>
    match faults os with
    | [] => Some (None, os)
    | f :: rest =>
        Some (f, {| fs := fs os; faults := rest; metaFile := metaFile os;
                    counterFile := counterFile os; clears := clears os |})
    end.

Definition get_fs : M (list Dir) := fun os => Some (fs os, os).
Definition put_fs (d : list Dir) : M unit := fun os => Some (tt, set_fs os d).

Module Os.

Definition ErrPatternHasSeparator : error := New "pattern contains path separator".
Definition ENOENT : error := New "no such file or directory".
Definition EISDIR : error := New "is a directory".

Definition hasSeparator (s : string) : bool := existsb_string (Ascii.eqb "/") s.

(** The directory [i] exists. *)
Definition live (d : list Dir) (i : nat) : bool :=
  match d !! i with
  | Some x => negb (dremoved x)
  | None => false
  end.

(** [os.MkdirTemp(dir, pattern)]: a new, empty directory in [dir] with
    a name made from [pattern], or the empty path and an error. *)
Definition MkdirTemp (dir : DirRef) (pattern : string) : M (DirRef * option error) :=
  if hasSeparator pattern then ret (None, Some ErrPatternHasSeparator)
  else
    d <- get_fs ;;
    if match dir with Some i => live d i | None => true end then
      f <- fault ;;
      match f with
      | Some e => ret (None, Some e)
      | None =>
          _ <- put_fs (d ++ [mkDir dir pattern [] false])%list ;;
          ret (Some (length d), None)
      end
    else ret (None, Some ENOENT).

(** Creates or replaces the file [name] in a listing kept in the order
    of the names. *)
Fixpoint putFile (name data : string) (files : list (string * string))
  : list (string * string) :=
  match files with
  | [] => [(name, data)]
  | (n, x) :: rest =>
      match String.compare name n with
      | Eq => (name, data) :: rest
      | Lt => (name, data) :: files
      | Gt => (n, x) :: putFile name data rest
      end
  end.

Definition hasFile (name : string) (files : list (string * string)) : bool :=
  existsb (fun f => String.eqb (fst f) name) files.

Definition withFiles (x : Dir) (files : list (string * string)) : Dir :=
  mkDir (dparent x) (dpattern x) files (dremoved x).

(** The file system with the file [name] of directory [i] set to [data]. *)
Definition store (d : list Dir) (i : nat) (name data : string) : list Dir :=
  match d !! i with
  | Some x => <[i := withFiles x (putFile name data (dfiles x))]> d
  | None => d
  end.

(** A path as [filepath.Join(dir, name)] makes it: a directory, a file
    directly in a modelled directory, or a path that leaves it. A name
    with a path separator or the name [".."] makes a path [POther]: in
    the source [os.Create] then acts wherever that path leads (a file
    of the parent directory for ["../x"], of a sibling directory, or
    nowhere when a directory on the way does not exist). Directories
    have no names here, so where such a path leads is not described:
    [Create] has no result on [POther], and the properties that depend
    on what [write] does to the file system are stated for file names
    without separator other than [".."]. *)
Inductive Path : Type :=
| PDir (dir : DirRef)
| PFile (i : nat) (name : string)
| POther.

(** [filepath.Join(dir, name)]: empty elements are ignored and the
    result is cleaned, so an empty [name] or ["."] gives [dir] itself. *)
Definition Join (dir : DirRef) (name : string) : Path :=
  if String.eqb name "" then PDir dir
  else
    match dir with
    | None => POther
    | Some i =>
        if String.eqb name "." then PDir dir
        else if hasSeparator name || String.eqb name ".." then POther
        else PFile i name
    end.

(** An open file: its directory and name. *)
Definition File : Type := nat * string.

(** [os.Create(path)]: the file created or truncated, open for
    writing. A directory cannot be opened for writing. The package
    creates files only in a directory it has just made, which has no
    sub-directory a file name could collide with. *)
Definition Create (path : Path) : M (result File) :=
  match path with
  | PDir None => ret (Err ENOENT)
  | PDir (Some i) =>
      d <- get_fs ;;
      ret (Err (if live d i then EISDIR else ENOENT))
  | PFile i name =>
      d <- get_fs ;;
      if live d i then
        f <- fault ;;
        match f with
        | Some e => ret (Err e)
        | None =>
            _ <- put_fs (store d i name "") ;;
            ret (Ok (i, name))
        end
      else ret (Err ENOENT)
  | POther => fun _ => None
  end.

(** [f.Write(p)] on a file just created. *)
Definition Write (f : File) (p : string) : M (option error) :=
  e <- fault ;;
  match e with
  | Some e => ret (Some e)
  | None =>
      d <- get_fs ;;
      _ <- put_fs (store d (fst f) (snd f) p) ;;
      ret None
  end.

(** An entry of [os.ReadDir]. *)
Inductive DirEntry : Type :=
| EFile (name : string)
| EDir (i : nat).

Definition IsDir (e : DirEntry) : bool :=
  match e with EDir _ => true | EFile _ => false end.

(** The directories made in directory [i], oldest first, from
    position [k] on. *)
Fixpoint children_from (i k : nat) (d : list Dir) : list nat :=
  match d with
  | [] => []
  | x :: rest =>
      if negb (dremoved x) && bool_decide (dparent x = Some i)
      then k :: children_from i (S k) rest
      else children_from i (S k) rest
  end.

Definition children (d : list Dir) (i : nat) : list nat := children_from i O d.

(** [os.ReadDir(dir)]. The package never looks at how the names of
    sub-directories and of files interleave; files come first here. *)
Definition ReadDir (dir : DirRef) : M (result (list DirEntry)) :=
  match dir with
  | None => ret (Err ENOENT)
  | Some i =>
      d <- get_fs ;;
      match d !! i with
      | Some x =>
          if dremoved x then ret (Err ENOENT)
          else
            f <- fault ;;
            match f with
            | Some e => ret (Err e)
            | None => ret (Ok (map (fun f => EFile (fst f)) (dfiles x)
                                 ++ map EDir (children d i))%list)
            end
      | None => ret (Err ENOENT)
      end
  end.

(** [os.ReadFile] of the file [name] in directory [i]. *)
Definition ReadFile (i : nat) (name : string) : M (result string) :=
  d <- get_fs ;;
  match d !! i with
  | Some x =>
      match find (fun f => String.eqb (fst f) name) (dfiles x) with
      | Some (_, data) =>
          f <- fault ;;
          match f with
          | Some e => ret (Err e)
          | None => ret (Ok data)
          end
      | None => ret (Err ENOENT)
      end
  | None => ret (Err ENOENT)
  end.

(** [os.RemoveAll(dir)] of a directory made by [MkdirTemp]; the error
    is never looked at. *)
Definition RemoveAll (dir : DirRef) : M unit :=
  match dir with
  | None => ret tt
  | Some i =>
      d <- get_fs ;;
      match d !! i with
      | Some x => put_fs (<[i := mkDir (dparent x) (dpattern x) [] true]> d)
      | None => ret tt
      end
  end.

End Os.

(** [runtime/coverage]. *)
Module Coverage.

Definition ErrInaccessible : error :=
  New "output directory inaccessible; no coverage data written".

(** [coverage.WriteMetaDir(dir)]: the meta-data file of the program is
    written to [dir] unless it is there already. *)
Definition WriteMetaDir (dir : DirRef) : M (option error) :=
  f <- fault ;;
  match f with
  | Some e => ret (Some e)
  | None =>
      match dir with
      | None => ret (Some ErrInaccessible)
      | Some i =>
          fun os =>
            let d := fs os in
            if Os.live d i then
              match d !! i with
              | Some x =>
                  if Os.hasFile (fst (metaFile os)) (dfiles x) then Some (None, os)
                  else Some (None, set_fs os (Os.store d i (fst (metaFile os)) (snd (metaFile os))))
              | None => Some (Some ErrInaccessible, os)
              end
            else Some (Some ErrInaccessible, os)
      end
  end.

(** [coverage.WriteCountersDir(dir)]: the counters of the program are
    written to a file of [dir]. *)
Definition WriteCountersDir (dir : DirRef) : M (option error) :=
  f <- fault ;;
  match f with
  | Some e => ret (Some e)
  | None =>
      match dir with
      | None => ret (Some ErrInaccessible)
      | Some i =>
          fun os =>
            let d := fs os in
            if Os.live d i
            then Some (None, set_fs os (Os.store d i (fst (counterFile os)) (snd (counterFile os))))
            else Some (Some ErrInaccessible, os)
      end
  end.

(** [coverage.ClearCounters()]. *)
Definition ClearCounters : M (option error) :=
  f <- fault ;;
  match f with
  | Some e => ret (Some e)
  | None =>
      fun os =>
        Some (None, {| fs := fs os; faults := faults os; metaFile := metaFile os;
                       counterFile := counterFile os; clears := S (clears os) |})
  end.

End Coverage.

(** ** The network and the clock *)

(** An inbound or outbound request: its headers, its [Host] and whether
    it came over TLS ([r.TLS != nil]). *)
Record Request : Type := mkRequest {
  reqHeader : Header;
  reqHost : string;
  reqTLS : bool;
  reqURL : string
}.

(** What a client gets back: the response headers and what
    [io.ReadAll(resp.Body)] returns. *)
Record Response : Type := mkResponse {
  rHeader : Header;
  rBody : result string
}.

(** What the world holds for one iteration of a polling loop: the value
    of [time.Since(now)] at the budget check, in nanoseconds; the error
    of [http.NewRequestWithContext], if any; and what
    [http.DefaultClient.Do] does with the request (an error stands for a
    connection failure or the expiry of the per-request deadline). *)
Record Step : Type := mkStep {
  sElapsed : Z;
  sNewRequest : option error;
  sDo : Request -> result Response
}.

Definition Second : Z := 1000000000.
Definition reqTimeout : Z := 3 * Second.
Definition allReqTimeout : Z := 15 * Second.

Definition ErrTimeoutExceeded : error := New "requests timeout exceeded".

(** The request a polling loop sends: a GET of [url] without body,
    carrying the local identity. *)
Definition pollRequest (g : Globals) (url : string) : Request :=
  {| reqHeader := Http.Set_ ∅ hostnameHeader (hostname g);
     reqHost := EmptyString;
     reqTLS := false;
     reqURL := url |}.

(** ** The peer collector *)

(** [write(p, parentDir, dirName, fileName)]. The error of [MkdirTemp]
    is dropped, as in the source. *)
Definition write (p : string) (parentDir : DirRef) (dirName fileName : string)
  : M (option error) :=
  r <- Os.MkdirTemp parentDir dirName ;;
  let tmpCov := fst r in
  err <- Coverage.WriteMetaDir tmpCov ;;
  match err with
  | Some e => ret (Some (Wrap "error writing meta coverage data: " e))
  | None =>
      r <- Os.Create (Os.Join tmpCov fileName) ;;
      match r with
      | Err e => ret (Some (Wrap "error creating file: " e))
      | Ok f =>
          err <- Os.Write f p ;;
          match err with
          | Some e => ret (Some (Wrap "error writing to file: " e))
          | None => ret None
          end
      end
  end.

(** The result of one iteration of a polling loop: go round again,
    return, or leave the modelled file system. *)
Inductive Iter : Type :=
| Continue (hosts : gset string) (os : OS)
| Return (err : option error) (hosts : gset string) (os : OS)
| IterOutside.

(** The body of the loop of [requestOtherProfile], entered with
    [len(hosts) < numberPods]. *)
Definition requestIter (g : Globals) (parentDir : DirRef) (profileURL : string)
    (st : Step) (hosts : gset string) (os : OS) : Iter :=
  if (allReqTimeout <? sElapsed st)%Z then Return (Some ErrTimeoutExceeded) hosts os
  else
    match sNewRequest st with
    | Some e => Return (Some e) hosts os
    | None =>
        match sDo st (pollRequest g profileURL) with
        | Err e => Return (Some (Wrap "failed to perform request: " e)) hosts os
        | Ok resp =>
            let responseHostname := Http.Get (rHeader resp) hostnameHeader in
            let filename := Http.Get (rHeader resp) filenameHeader in
            if bool_decide (responseHostname ∈ hosts) then Continue hosts os
            else
              let hosts := {[responseHostname]} ∪ hosts in
              match rBody resp with
              | Err e => Return (Some (Wrap "failed to read response body: " e)) hosts os
              | Ok body =>
                  match write body parentDir responseHostname filename os with
                  | None => IterOutside
                  | Some (Some e, os) =>
                      Return (Some (Wrap "failed to write response to file: " e)) hosts os
                  | Some (None, os) => Continue hosts os
                  end
              end
        end
    end.

(** How a polling loop ends: it returns (with the set of hosts, the
    state of the system and the part of the script it did not use), or
    the script ends while it is still polling, or it leaves the modelled
    file system. *)
Inductive Outcome : Type :=
| Returned (err : option error) (hosts : gset string) (os : OS) (rest : list Step)
| Blocked (hosts : gset string) (os : OS)
| Outside.

(** The loop [for len(hosts) < numberPods] of [requestOtherProfile]. *)
Fixpoint requestLoop (g : Globals) (parentDir : DirRef) (profileURL : string)
    (script : list Step) (hosts : gset string) (os : OS) {struct script} : Outcome :=
  if bool_decide (Z.of_nat (size hosts) < numberPods g) then
    match script with
    | [] => Blocked hosts os
    | st :: rest =>
        match requestIter g parentDir profileURL st hosts os with
        | Continue hosts os => requestLoop g parentDir profileURL rest hosts os
        | Return err hosts os => Returned err hosts os rest
        | IterOutside => Outside
        end
    end
  else Returned None hosts os script.

(** [requestOtherProfile(parentDir, profileURL)]; the set [hosts] is
    handed back with the error so that it can be spoken about. *)
Definition requestOtherProfile (g : Globals) (parentDir : DirRef) (profileURL : string)
    (script : list Step) (os : OS) : Outcome :=
  requestLoop g parentDir profileURL script {[hostname g]} os.

(** ** The peer reset broadcaster *)

(** The body of the loop of [resetOtherProfile]. *)
Definition resetIter (g : Globals) (resetURL : string)
    (st : Step) (hosts : gset string) (os : OS) : Iter :=
  if (allReqTimeout <? sElapsed st)%Z then Return (Some ErrTimeoutExceeded) hosts os
  else
    match sNewRequest st with
    | Some e => Return (Some e) hosts os
    | None =>
        match sDo st (pollRequest g resetURL) with
        | Err e => Return (Some (Wrap "failed to perform request: " e)) hosts os
        | Ok resp =>
            let responseHostname := Http.Get (rHeader resp) hostnameHeader in
            if bool_decide (responseHostname ∈ hosts) then Continue hosts os
            else Continue ({[responseHostname]} ∪ hosts) os
        end
    end.

(** The loop of [resetOtherProfile]. *)
Fixpoint resetLoop (g : Globals) (resetURL : string)
    (script : list Step) (hosts : gset string) (os : OS) {struct script} : Outcome :=
  if bool_decide (Z.of_nat (size hosts) < numberPods g) then
    match script with
    | [] => Blocked hosts os
    | st :: rest =>
        match resetIter g resetURL st hosts os with
        | Continue hosts os => resetLoop g resetURL rest hosts os
        | Return err hosts os => Returned err hosts os rest
        | IterOutside => Outside
        end
    end
  else Returned None hosts os script.

(** [resetOtherProfile(resetURL)]. *)
Definition resetOtherProfile (g : Globals) (resetURL : string)
    (script : list Step) (os : OS) : Outcome :=
  resetLoop g resetURL script {[hostname g]} os.

(** ** The coverage aggregator *)

Definition tab : string := String "009" EmptyString.
Definition newline : string := String "010" EmptyString.

(** [float64(n)] for an [int] that is not negative. *)
Definition float64_of_int (n : Z) : float := PrimFloat.of_uint63 (Uint63.of_Z n).

Section Aggregator.

(** [strconv.ParseFloat(s, 64)], which is not part of the package. *)
Variable ParseFloat : string -> result float.

(** The number of packages named before the marker, added to
    [packageCount]: the loop [for _, pkg := range packages]. *)
Definition countPackages (packages : list string) (packageCount : Z) : Z :=
  fold_left
    (fun count pkg => if String.eqb (TrimSpace pkg) "" then count else count + 1)
    packages packageCount.

(** The loop [for scanner.Scan()] of [calculateTotalCoverage] over the
    lines the scanner delivers. *)
Fixpoint scanLoop (lines : list string) (totalCoverage : float) (packageCount : Z)
  : result (float * Z) :=
  match lines with
  | [] => Ok (totalCoverage, packageCount)
  | line :: rest =>
      if Contains line "coverage:" then
        let parts := Split line "coverage:" in
        if negb (length parts =? 2)%nat then scanLoop rest totalCoverage packageCount
        else
          let coveragePart := TrimSpace (nth 1 parts EmptyString) in
          let coverageValue := nth 0 (Split coveragePart "%") EmptyString in
          let coverageValue := TrimSpace coverageValue in
          match ParseFloat coverageValue with
          | Err e => Err (Wrap "failed to parse coverage value: " e)
          | Ok coverage =>
              let packages := Split (nth 0 parts EmptyString) tab in
              let packageCount := countPackages packages packageCount in
              scanLoop rest (totalCoverage + coverage)%float packageCount
          end
      else scanLoop rest totalCoverage packageCount
  end.

Definition ErrNoCoverageData : error := New "no coverage data found in the output".

(** [calculateTotalCoverage(output)]. *)
Definition calculateTotalCoverage (output : string) : result float :=
  let (lines, scanErr) := ScanLines output in
  match scanLoop lines 0%float 0 with
  | Err e => Err e
  | Ok (totalCoverage, packageCount) =>
      match scanErr with
      | Some e => Err (Wrap "error reading output: " e)
      | None =>
          if (packageCount =? 0)%Z then Err ErrNoCoverageData
          else Ok (totalCoverage / float64_of_int packageCount)%float
      end
  end.

End Aggregator.

(** A decimal numeral without exponent: an optional sign, digits, and
    optionally a point and more digits. [parseDigits] reads digits into
    [acc] and counts them. *)
Fixpoint parseDigits (s : string) (acc : Z) (n : nat) : Z * nat * string :=
  match s with
  | String c s' =>
      if isDigit c
      then parseDigits s' (10 * acc + Z.of_N (N_of_ascii c - 48)) (S n)
      else (acc, n, s)
  | EmptyString => (acc, n, s)
  end.

(** An instance of [strconv.ParseFloat(s, 64)] for the inputs on which
    one division of binary64 numbers gives the correctly rounded value:
    decimal numerals without exponent of at most 15 digits. Every other
    string is refused here, which [strconv] does not do for all of them;
    the instance serves to run the package on concrete reports. *)
Definition parseFloatDecimal (s : string) : result float :=
  let syntax := Err (New ("strconv.ParseFloat: parsing " +:+ s +:+ ": invalid syntax")) in
  let '(neg, body) :=
    match s with
    | String "-" s' => (true, s')
    | String "+" s' => (false, s')
    | _ => (false, s)
    end in
  let '(ip, ni, rest) := parseDigits body 0 O in
  let '(m, nf, rest) :=
    match rest with
    | String "." rest' => parseDigits rest' ip O
    | _ => (ip, O, rest)
    end in
  if negb (String.eqb rest "") || (ni + nf =? 0)%nat || (15 <? ni + nf)%nat then syntax
  else
    let v := (float64_of_int m / float64_of_int (10 ^ Z.of_nat nf))%float in
    Ok (if neg then (- v)%float else v).

(** ** The HTTP handlers *)

(** An [http.ResponseWriter]: the header map [w.Header()], the status
    line once it is sent together with the headers sent with it, and the
    body written so far. *)
Record ResponseWriter : Type := mkWriter {
  wHeader : Header;
  wStatus : option Z;
  wSent : Header;
  wBody : string
}.

Definition newWriter : ResponseWriter := mkWriter ∅ None ∅ EmptyString.

(** An external command the package runs. *)
Inductive Cmd : Type :=
| CovdataMerge (inputs : list nat) (output : DirRef)
| CovdataPercent (input : DirRef).

(** The state a handler works on: its response writer, the operating
    system, the script of the network for its outbound polling, the
    results of the external commands it is going to run (combined output
    and error, one per command), the commands it ran, and the lines it
    logged and printed. *)
Record HState : Type := mkHState {
  hw : ResponseWriter;
  hos : OS;
  hnet : list Step;
  hexec : list (string * option error);
  hran : list Cmd;
  hlog : list string;
  hout : list string
}.

(** How a handler ends: it returns, or the scripts of its environment
    end before it does, or it leaves the modelled file system. *)
Inductive HRes (A : Type) : Type :=
| HVal (a : A) (s : HState)
| HBlocked
| HOutside.
Arguments HVal {A} a s.
Arguments HBlocked {A}.
Arguments HOutside {A}.

Definition H (A : Type) : Type := HState -> HRes A.

Definition retH {A : Type} (a : A) : H A := fun s => HVal a s.

Definition bindH {A B : Type} (m : H A) (k : A -> H B) : H B :=
  fun s =>
    match m s with
    | HVal a s' => k a s'
    | HBlocked => HBlocked
    | HOutside => HOutside
    end.

Notation "x <~ m ;; k" := (bindH m (fun x => k))
  (at level 100, m at next level, right associativity).

Definition with_os (s : HState) (os : OS) : HState :=
  mkHState (hw s) os (hnet s) (hexec s) (hran s) (hlog s) (hout s).

Definition with_w (s : HState) (w : ResponseWriter) : HState :=
  mkHState w (hos s) (hnet s) (hexec s) (hran s) (hlog s) (hout s).

(** A computation on the operating system, run by a handler. *)
Definition liftM {A : Type} (m : M A) : H A :=
  fun s =>
    match m (hos s) with
    | Some (a, os) => HVal a (with_os s os)
    | None => HOutside
    end.

(** A polling loop, run by a handler on its script of the network. *)
Definition liftLoop (loop : list Step -> OS -> Outcome) : H (option error) :=
  fun s =>
    match loop (hnet s) (hos s) with
    | Returned err _ os rest =>
        HVal err (mkHState (hw s) os rest (hexec s) (hran s) (hlog s) (hout s))
    | Blocked _ _ => HBlocked
    | Outside => HOutside
    end.

(** [exec.Command(...).CombinedOutput()]. *)
Definition CombinedOutput (cmd : Cmd) : H (string * option error) :=
  fun s =>
    match hexec s with
    | [] => HBlocked
    | r :: rest =>
        HVal r (mkHState (hw s) (hos s) (hnet s) rest (hran s ++ [cmd])%list (hlog s) (hout s))
    end.

(** [covLogger.Errorf] and [covLogger.Infof]. *)
Definition Errorf (msg : string) : H unit :=
  fun s =>
    HVal tt (mkHState (hw s) (hos s) (hnet s) (hexec s) (hran s)
               (hlog s ++ ["ERROR: " +:+ msg])%list (hout s)).

Definition Infof (msg : string) : H unit :=
  fun s =>
    HVal tt (mkHState (hw s) (hos s) (hnet s) (hexec s) (hran s)
               (hlog s ++ ["INFO: " +:+ msg])%list (hout s)).

(** [fmt.Printf]. *)
Definition Printf (msg : string) : H unit :=
  fun s =>
    HVal tt (mkHState (hw s) (hos s) (hnet s) (hexec s) (hran s) (hlog s)
               (hout s ++ [msg])%list).

Module Writer.

(** [w.WriteHeader(code)]: the status line and the headers set so far
    are sent; a second call changes nothing. *)
Definition sendHeader (code : Z) (w : ResponseWriter) : ResponseWriter :=
  match wStatus w with
  | Some _ => w
  | None => mkWriter (wHeader w) (Some code) (wHeader w) (wBody w)
  end.

Definition WriteHeader (code : Z) : H unit :=
  fun s => HVal tt (with_w s (sendHeader code (hw s))).

(** [w.Write(data)]: status 200 is sent first if none was. *)
Definition Write (data : string) : H unit :=
  fun s =>
    let w := sendHeader Http.StatusOK (hw s) in
    HVal tt (with_w s (mkWriter (wHeader w) (wStatus w) (wSent w) (wBody w +:+ data))).

(** [w.Header().Set(key, value)]. *)
Definition HeaderSet (key value : string) : H unit :=
  fun s =>
    let w := hw s in
    HVal tt (with_w s (mkWriter (Http.Set_ (wHeader w) key value) (wStatus w) (wSent w) (wBody w))).

(** What the client receives once the handler has returned: status 200
    if none was sent, the headers sent with the status line, and the
    body. The headers the server adds of its own ([Date],
    [Content-Length], [Content-Type]) are not read by the package. *)
Definition deliver (w : ResponseWriter) : Response :=
  mkResponse (wSent (sendHeader Http.StatusOK w)) (Ok (wBody w)).

End Writer.

(** [writeBinCoverage()]. *)
Definition writeBinCoverage (g : Globals) : M (DirRef * option error) :=
  r <- Os.MkdirTemp None "coverage" ;;
  match snd r with
  | Some e => ret (None, Some (Wrap "error creating temporary directory: " e))
  | None =>
      let tmpDir := fst r in
      r <- Os.MkdirTemp tmpDir (hostname g) ;;
      match snd r with
      | Some e => ret (None, Some (Wrap "error creating temporary directory: " e))
      | None =>
          let tmpCov := fst r in
          err <- Coverage.WriteMetaDir tmpCov ;;
          match err with
          | Some e => ret (None, Some (Wrap "error writing meta coverage data: " e))
          | None =>
              err <- Coverage.WriteCountersDir tmpCov ;;
              match err with
              | Some e => ret (None, Some (Wrap "error writing coverage data: " e))
              | None => ret (tmpDir, None)
              end
          end
      end
  end.

(** The sub-directories among the entries of a directory: the loop of
    [mergeProfiles]. *)
Definition subdirs (entries : list Os.DirEntry) : list nat :=
  flat_map (fun e => match e with Os.EDir i => [i] | Os.EFile _ => [] end) entries.

(** [mergeProfiles(tmpDir)]. *)
Definition mergeProfiles (tmpDir : DirRef) : H (DirRef * option error) :=
  r <~ liftM (Os.ReadDir tmpDir) ;;
  match r with
  | Err e => retH (None, Some e)
  | Ok entries =>
      let dirs := subdirs entries in
      r <~ liftM (Os.MkdirTemp tmpDir "merged") ;;
      match snd r with
      | Some e => retH (None, Some e)
      | None =>
          let mergedDir := fst r in
          r <~ CombinedOutput (CovdataMerge dirs mergedDir) ;;
          match snd r with
          | Some e =>
              retH (None, Some (Wrap "error running merging coverage data: "
                                  (New (Error e +:+ newline +:+ fst r))))
          | None => retH (mergedDir, None)
          end
      end
  end.

(** [getURL(r, isReset)]. *)
Definition getURL (r : Request) (isReset : bool) : string :=
  let scheme := if reqTLS r then "https" else "http" in
  let path := if isReset then "/debug/coverage/reset" else "/debug/coverage/profile" in
  scheme +:+ "://" +:+ reqHost r +:+ path.

Section Handlers.

Variable ParseFloat : string -> result float.

(** [fmt.Sprintf("%.2f", x)], which is not part of the package. *)
Variable Sprintf_2f : float -> string.

Variable g : Globals.

(** [CovPercentHandler(w, r)]. After each of its first three steps the
    source reports a failure and goes on. *)
Definition CovPercentHandler (r : Request) : H unit :=
  res <~ liftM (writeBinCoverage g) ;;
  let tmpDir := fst res in
  _ <~ match snd res with
       | Some err =>
           _ <~ Writer.WriteHeader Http.StatusInternalServerError ;;
           Errorf (Error err)
       | None => retH tt
       end ;;
  err <~ liftLoop (requestOtherProfile g tmpDir (getURL r false)) ;;
  _ <~ match err with
       | Some err =>
           _ <~ Writer.WriteHeader Http.StatusInternalServerError ;;
           Errorf (Error err)
       | None => retH tt
       end ;;
  res <~ mergeProfiles tmpDir ;;
  let mergedDir := fst res in
  _ <~ match snd res with
       | Some err =>
           _ <~ Writer.WriteHeader Http.StatusInternalServerError ;;
           Errorf (Error err)
       | None => retH tt
       end ;;
  res <~ CombinedOutput (CovdataPercent mergedDir) ;;
  let output := fst res in
  match snd res with
  | Some err =>
      _ <~ Errorf ("error running merging coverage data: " +:+ Error err +:+ newline) ;;
      Writer.WriteHeader Http.StatusInternalServerError
  | None =>
      match calculateTotalCoverage ParseFloat output with
      | Err err =>
          _ <~ Errorf ("error calculating total coverage data: " +:+ Error err +:+ newline) ;;
          Writer.WriteHeader Http.StatusInternalServerError
      | Ok totalCoverage =>
          _ <~ Writer.HeaderSet "Content-Type" "text/plain" ;;
          Writer.Write ("Total Average Coverage: " +:+ Sprintf_2f totalCoverage
                        +:+ "%" +:+ newline)
      end
  end.

(** [CovResetHandler(w, r)] after the check of the identity header. *)
Definition resetAll (r : Request) : H unit :=
  err <~ liftM Coverage.ClearCounters ;;
  match err with
  | Some err =>
      _ <~ Errorf ("error clearing counters: " +:+ Error err) ;;
      Writer.WriteHeader Http.StatusInternalServerError
  | None =>
      err <~ liftLoop (resetOtherProfile g (getURL r true)) ;;
      match err with
      | Some err =>
          _ <~ Errorf ("error resetting other profiles: " +:+ Error err) ;;
          Writer.WriteHeader Http.StatusInternalServerError
      | None => Writer.Write "Coverage counters have been reset"
      end
  end.

(** [CovResetHandler(w, r)]. *)
Definition CovResetHandler (r : Request) : H unit :=
  if String.eqb (Http.Get (reqHeader r) hostnameHeader) (hostname g) then
    Writer.WriteHeader Http.StatusOK
  else resetAll r.

(** The loop [for _, f := range files] of [CovBinProfileHandler]. A
    sub-directory is passed over whatever its name: it cannot be read
    as a file. *)
Fixpoint sendCounters (tmpDir : nat) (files : list Os.DirEntry) : H unit :=
  match files with
  | [] => retH tt
  | Os.EDir _ :: rest => sendCounters tmpDir rest
  | Os.EFile name :: rest =>
      if negb (HasPrefix name "covcounters") then sendCounters tmpDir rest
      else
        r <~ liftM (Os.ReadFile tmpDir name) ;;
        match r with
        | Err err =>
            _ <~ Printf ("Failed to read file " +:+ name +:+ ": " +:+ Error err +:+ newline) ;;
            sendCounters tmpDir rest
        | Ok data =>
            _ <~ Writer.HeaderSet "Content-Type" "application/octet-stream" ;;
            _ <~ Writer.HeaderSet filenameHeader name ;;
            _ <~ Writer.HeaderSet hostnameHeader (hostname g) ;;
            _ <~ Writer.Write data ;;
            sendCounters tmpDir rest
        end
  end.

(** [CovBinProfileHandler(w, r)] after the check of the identity
    header; [os.RemoveAll(tmpDir)] is deferred from the creation of
    [tmpDir] on. *)
Definition serveProfile : H unit :=
  r <~ liftM (Os.MkdirTemp None "coverage") ;;
  match snd r with
  | Some err =>
      _ <~ Errorf ("error creating temporary directory: " +:+ Error err) ;;
      Writer.WriteHeader Http.StatusInternalServerError
  | None =>
      let tmpDir := fst r in
      _ <~ (err <~ liftM (Coverage.WriteMetaDir tmpDir) ;;
            match err with
            | Some err =>
                _ <~ Errorf ("error writing meta data: " +:+ Error err) ;;
                Writer.WriteHeader Http.StatusInternalServerError
            | None =>
                err <~ liftM (Coverage.WriteCountersDir tmpDir) ;;
                match err with
                | Some err =>
                    _ <~ Errorf ("error writing counters data: " +:+ Error err) ;;
                    Writer.WriteHeader Http.StatusInternalServerError
                | None =>
                    _ <~ Printf ("Convert the binary coverage data to text format" +:+ newline) ;;
                    r <~ liftM (Os.ReadDir tmpDir) ;;
                    match r with
                    | Err err =>
                        _ <~ Errorf ("error reading temporary directory: " +:+ Error err) ;;
                        Writer.WriteHeader Http.StatusInternalServerError
                    | Ok files =>
                        match tmpDir with
                        | Some i => sendCounters i files
                        | None => retH tt
                        end
                    end
                end
            end) ;;
      liftM (Os.RemoveAll tmpDir)
  end.

(** [CovBinProfileHandler(w, r)]. *)
Definition CovBinProfileHandler (r : Request) : H unit :=
  if String.eqb (Http.Get (reqHeader r) hostnameHeader) (hostname g) then
    Writer.WriteHeader Http.StatusOK
  else serveProfile.

End Handlers.

(** ** Calls on a running process *)

(** What a program can do with the package once it is initialised: set
    the number of pods, set the logger, or have a handler serve a
    request. The handlers read the package variables and assign none. *)
Inductive Call : Type :=
| CallSetNumberPods (n : Z)
| CallSetLogger (l : logger)
| CallServe (r : Request).

Definition call (c : Call) (g : Globals) : Globals :=
  match c with
  | CallSetNumberPods n => SetNumberPods n g
  | CallSetLogger l => SetLogger l g
  | CallServe _ => g
  end.

Definition calls (cs : list Call) (g : Globals) : Globals :=
  fold_left (fun g c => call c g) cs g.

(** A decimal integer: digits, with or without a minus sign before them. *)
Definition isInteger (s : string) : bool :=
  match s with
  | String "-" (String c s') => forallb_string isDigit (String c s')
  | String c s' => forallb_string isDigit (String c s')
  | EmptyString => false
  end.

(** [Some rest] when [s] is [prefix] followed by [rest]. *)
Fixpoint stripPrefix (prefix s : string) : option string :=
  match prefix, s with
  | EmptyString, _ => Some s
  | String p prefix', String c s' =>
      if Ascii.eqb p c then stripPrefix prefix' s' else None
  | String _ _, EmptyString => None
  end.

(** The pattern [generated-hostname-<integer>]. *)
Definition isGeneratedHostname (s : string) : bool :=
  match stripPrefix "generated-hostname-" s with
  | Some rest => isInteger rest
  | None => false
  end.

(** ** Vocabulary of the properties *)

(** The identity and the file name a response announces. *)
Definition identity (resp : Response) : string :=
  Http.Get (rHeader resp) hostnameHeader.

Definition artifactName (resp : Response) : string :=
  Http.Get (rHeader resp) filenameHeader.

(** The step is answered: the budget is not exceeded when it is
    checked, the request can be built and the transport delivers a
    response. *)
Definition answered (g : Globals) (url : string) (st : Step) : bool :=
  (sElapsed st <=? allReqTimeout)%Z
  && match sNewRequest st with None => true | Some _ => false end
  && match sDo st (pollRequest g url) with Ok _ => true | Err _ => false end.

(** The response is what a peer serving its profile sends: a body that
    can be read, an identity that can name a directory, and the name of
    a counter file. *)
Definition storable (resp : Response) : bool :=
  match rBody resp with Ok _ => true | Err _ => false end
  && negb (Os.hasSeparator (identity resp))
  && HasPrefix (artifactName resp) "covcounters"
  && negb (Os.hasSeparator (artifactName resp)).

(** The step is answered by a peer serving its profile. *)
Definition served (g : Globals) (url : string) (st : Step) : bool :=
  answered g url st
  && match sDo st (pollRequest g url) with Ok resp => storable resp | Err _ => false end.


(** The names of the meta-data file and of the counter file are those
    the coverage runtime gives them. *)
Definition runtimeNames (os : OS) : bool :=
  HasPrefix (fst (metaFile os)) "covmeta"
  && HasPrefix (fst (counterFile os)) "covcounters".

(** Every directory was made in a directory made before it. *)
Fixpoint wf_from (k : nat) (d : list Dir) : bool :=
  match d with
  | [] => true
  | x :: rest =>
      match dparent x with Some j => (j <? k)%nat | None => true end
      && wf_from (S k) rest
  end.

Definition wf (d : list Dir) : bool := wf_from O d.

(** The directory holds one counter file and the meta-data file [meta]. *)
Definition artifactDir (meta : string * string) (x : Dir) : bool :=
  match dfiles x with
  | [(cname, _); (mname, mdata)] =>
      HasPrefix cname "covcounters"
      && String.eqb mname (fst meta) && String.eqb mdata (snd meta)
  | _ => false
  end.


(** Every sub-directory of directory [p] is an artifact directory. *)
Definition subdirsAreArtifacts (meta : string * string) (d : list Dir) (p : nat) : bool :=
  forallb (fun i => match d !! i with Some x => artifactDir meta x | None => false end)
    (Os.children d p).

(** The system after the artifact of a response was stored in a new
    sub-directory of directory [p]. *)
Definition stored (p : nat) (resp : Response) (body : string) (os : OS) : OS :=
  set_fs os (fs os ++ [mkDir (Some p) (identity resp)
                         [(artifactName resp, body); metaFile os] false]).

(** The environment of a collection that nothing disturbs: the
    operating system reports no failure, the scratch directory [p]
    exists, and the meta-data file has the name the runtime gives it. *)
Definition Base (p : nat) (os : OS) : Prop :=
  faults os = [] /\ Os.live (fs os) p = true /\
  HasPrefix (fst (metaFile os)) "covmeta" = true.


(** What the process answers when a request for its profile comes
    to itself: the response of [CovBinProfileHandler], run in the state
    [s] with a new response writer. *)
Definition selfResponse (g : Globals) (s : HState) (r : Request) : result Response :=
  match CovBinProfileHandler g r (with_w s newWriter) with
  | HVal _ s' => Ok (Writer.deliver (hw s'))
  | HBlocked => Err (New "no response")
  | HOutside => Err (New "no response")
  end.

(** The state a handler leaves, when it returns. *)
Definition finalState {A : Type} (r : HRes A) : option HState :=
  match r with
  | HVal _ s => Some s
  | HBlocked => None
  | HOutside => None
  end.

(** The report, read the way the description of the aggregator reads
    it. A line of the report that counts is a line with one marker: the
    text before the marker names the units, the text after it gives the
    percentage. *)
Definition coverageLine (line : string) : option (string * string) :=
  if Contains line "coverage:" then
    match Split line "coverage:" with
    | [before; after] => Some (before, after)
    | _ => None
    end
  else None.

(** The percentage token: what stands after the marker and before the
    first [%], trimmed. *)
Definition percentToken (after : string) : string :=
  TrimSpace (nth 0 (Split (TrimSpace after) "%") EmptyString).

(** The units of a line: the tab-separated tokens before the marker
    that are not empty once trimmed. *)
Definition units (before : string) : nat :=
  length (List.filter (fun tok => negb (String.eqb (TrimSpace tok) "")) (Split before tab)).

(** The lines of the report that count, in order. *)
Definition coverageLines (lines : list string) : list (string * string) :=
  omap coverageLine lines.

(** The number of units of the report. *)
Definition unitCount (cls : list (string * string)) : Z :=
  Z.of_nat (list_sum (map (fun cl => units (fst cl)) cls)).

(** The mean of the description: the percentages added up in the order
    of the lines, divided by the number of units. *)
Definition mean (values : list float) (n : Z) : float :=
  (fold_left PrimFloat.add values 0 / float64_of_int n)%float.

(** The headers a pod sends with its profile: the content type, the
    name of its counter file and its identity. *)
Definition profileHeader (g : Globals) (os : OS) : Header :=
  Http.Set_
    (Http.Set_ (Http.Set_ ∅ "Content-Type" "application/octet-stream")
       filenameHeader (fst (counterFile os)))
    hostnameHeader (hostname g).

(** What the process answers when a request to reset comes to itself. *)
Definition selfResetResponse (g : Globals) (s : HState) (r : Request) : result Response :=
  match CovResetHandler g r (with_w s newWriter) with
  | HVal _ s' => Ok (Writer.deliver (hw s'))
  | HBlocked => Err (New "no response")
  | HOutside => Err (New "no response")
  end.

(** ** Vocabulary of the properties that hold in every environment *)

(** What [write] leaves of the file system it found: every directory
    that was there, unchanged, and at most one new directory, made in
    [parent] with the pattern [pattern]. *)
Definition addsAtMostOne (parent : DirRef) (pattern : string) (os os' : OS) : Prop :=
  metaFile os' = metaFile os /\ counterFile os' = counterFile os /\ clears os' = clears os /\
  (fs os' = fs os \/
   exists x, fs os' = fs os ++ [x] /\ dparent x = parent /\ dpattern x = pattern
             /\ dremoved x = false).

(** The runtime's files and the count of clearings are the same in
    both states. *)
Definition sameRuntime (os os' : OS) : Prop :=
  metaFile os' = metaFile os /\ counterFile os' = counterFile os /\ clears os' = clears os.

(** The state holds the directories [d] and, after them, one directory
    made in [parent] with the pattern [pattern]. *)
Definition lastMade (d : list Dir) (parent : DirRef) (pattern : string) (os : OS) : Prop :=
  exists files, fs os = d ++ [mkDir parent pattern files false].

(** From the hosts and the system a polling loop started with to those
    it has reached: no host is forgotten, the runtime is the same, the
    directories that were there are unchanged, and the new directories
    were made in [parent], at most one for each new host. *)
Definition grew (parent : DirRef) (hosts : gset string) (os : OS)
    (hosts' : gset string) (os' : OS) : Prop :=
  hosts ⊆ hosts' /\ sameRuntime os os' /\
  exists more, fs os' = fs os ++ more /\
               Forall (fun x => dparent x = parent /\ dremoved x = false) more /\
               (length more + size hosts <= size hosts')%nat.

(** The state a loop ends in, when it does not leave the model. *)
Definition endsIn (o : Outcome) (P : option (option error) -> gset string -> OS -> list Step -> Prop)
  : Prop :=
  match o with
  | Returned err h os rest => P (Some err) h os rest
  | Blocked h os => P None h os []
  | Outside => True
  end.

(** The handler state apart from the operating system, the network
    script and the command script: the response writer and what was
    logged and printed. *)
Definition sameResponse (s s' : HState) : Prop :=
  hw s' = hw s /\ hlog s' = hlog s /\ hout s' = hout s.

(** The response writer after status 500 was sent first. *)
Definition failedWriter : ResponseWriter := mkWriter ∅ (Some 500) ∅ EmptyString.

(** Where a handler that started with a new writer stands: nothing has
    failed, nothing was logged and nothing was sent; or status 500 was
    sent without header and body and something was logged. *)
Definition standing (s0 s : HState) : Prop :=
  (hw s = newWriter /\ hlog s = hlog s0) \/
  (hw s = failedWriter /\ (length (hlog s0) < length (hlog s))%nat).

(** What a pod answers to the request [r] for its profile, in the
    state [sp]. *)
Definition peerResponse (gp : Globals) (sp : HState) (r : Request) : result Response :=
  selfResponse gp sp r.

(** No byte of the string is a line feed. *)
Definition oneLine (s : string) : bool :=
  forallb_string (fun c => negb (Ascii.eqb c "010")) s.

(** [n] bytes that are not a line feed. *)
Definition fill (n : N) : string := N.iter n (String "x") EmptyString.

(** A file name that stays in the directory it is joined to: it holds
    no path separator and is not [".."]. *)
Definition plainName (name : string) : bool :=
  negb (Os.hasSeparator name) && negb (String.eqb name "..").

(** The response of the step, if there is one, announces a plain file
    name. *)
Definition plainAnswer (g : Globals) (url : string) (st : Step) : bool :=
  match sDo st (pollRequest g url) with
  | Ok resp => plainName (artifactName resp)
  | Err _ => true
  end.




(** The computation stays in the directories described here, in every
    state. *)
Definition defined {A : Type} (m : M A) : Prop :=
  forall os, exists a os', m os = Some (a, os').

(** ** Sample inputs *)

Definition demoGlobals : Globals := mkGlobals 3 "pod-a" defaultLogger.

Definition demoOS : OS :=
  mkOS [] [] ("covmeta.9f3a", "META") ("covcounters.9f3a.17.1", "SELF") O.

Definition demoHeader (host file : string) : Header :=
  Http.Set_ (Http.Set_ ∅ hostnameHeader host) filenameHeader file.

(** A step answered at time [t] by the peer [host]. *)
Definition demoStep (t : Z) (host file body : string) : Step :=
  mkStep t None (fun _ => Ok (mkResponse (demoHeader host file) (Ok body))).

(** A step whose request fails in the transport. *)
Definition demoFailure (t : Z) : Step :=
  mkStep t None (fun _ => Err (New "connection refused")).

(** A script for three pods: a peer answers twice, the collector's own
    identity and a second peer answer, and a pod too many is left over. *)
Definition demoScript : list Step :=
  [ demoStep 1 "pod-b" "covcounters.9f3a.21.5" "B";
    demoStep 2 "pod-b" "covcounters.9f3a.21.6" "B";
    demoStep 3 "pod-a" "covcounters.9f3a.17.7" "A";
    demoStep 4 "pod-c" "covcounters.9f3a.33.8" "C";
    demoStep 5 "pod-d" "covcounters.9f3a.40.9" "D" ].

(** Two pods, and the system after [writeBinCoverage]. *)
Definition demoPair : Globals := mkGlobals 2 "pod-a" defaultLogger.

Definition demoScratch : OS :=
  set_fs demoOS
    [ mkDir None "coverage" [] false;
      mkDir (Some O) "pod-a" [counterFile demoOS; metaFile demoOS] false ].

Definition demoHState : HState := mkHState newWriter demoOS [] [] [] [] [].

(** A request of the collector that the load balancer routes back to
    the process that sent it. *)
Definition demoLoopback : Step := mkStep 1 None (selfResponse demoPair demoHState).

Definition demoRequest : Request := mkRequest ∅ "svc:8080" false "/debug/coverage/".

Definition demoReport : string :=
  "pkg/a" +:+ tab +:+ "pkg/b" +:+ tab +:+ "coverage: 50.0% of statements" +:+ newline
  +:+ "pkg/c" +:+ tab +:+ "coverage: 100.0% of statements" +:+ newline.

(** The percent endpoint is asked while the only peer cannot be
    reached; the external commands then work. *)
Definition demoPercentState : HState :=
  mkHState newWriter demoOS [demoFailure 1] [(EmptyString, None); (demoReport, None)] [] [] [].



(** One pod alone. *)
Definition demoSingle : Globals := mkGlobals 1 "pod-a" defaultLogger.

(** The peer of [demoGlobals] that answers in [demoAnswer]. *)
Definition demoPeer : Globals := mkGlobals 3 "pod-b" defaultLogger.

Definition demoPeerState : HState :=
  mkHState newWriter
    (mkOS [] [] ("covmeta.9f3a", "META") ("covcounters.9f3a.21.5", "PEER") O) [] [] [] [] [].

Definition demoAnswer : Step := mkStep 1 None (peerResponse demoPeer demoPeerState).

(** A pod asked for the percentage while it is alone; the external
    commands work. *)
Definition demoAloneState : HState :=
  mkHState newWriter demoOS [] [(EmptyString, None); (demoReport, None)] [] [] [].

(** A pod asked to merge its scratch directory. *)
Definition demoMergeState : HState :=
  mkHState newWriter demoScratch [] [(EmptyString, None)] [] [] [].

(** A pod of two asked to reset, with a peer that answers. *)
Definition demoResetState : HState :=
  mkHState newWriter demoOS [demoStep 1 "pod-b" "" ""] [] [] [] [].

(** A reset request that comes back to the pod that sent it. *)
Definition demoResetLoopback : Step := mkStep 1 None (selfResetResponse demoPair demoHState).

Definition demoSprintf (x : float) : string := "50.00".

(** A pod of two asked for the percentage; its peer answers and the
    external commands work. *)
Definition demoCollectState : HState :=
  mkHState newWriter demoOS [demoStep 1 "pod-b" "covcounters.9f3a.21.5" "B"]
    [(EmptyString, None); (demoReport, None)] [] [] [].

(** * Properties *)

(** ** The identity provider *)

Lemma string_of_uint_digits (d : Decimal.uint) :
  forallb_string isDigit (NilEmpty.string_of_uint d) = true.
Proof. induction d; simpl; auto. Qed.

Lemma NilZero_uint_integer (d : Decimal.uint) :
  isInteger (NilZero.string_of_uint d) = true.
Proof.
  destruct d; try reflexivity;
    simpl; apply (string_of_uint_digits d).
Qed.

Lemma Sprintf_d_integer (n : Z) : isInteger (Sprintf_d n) = true.
Proof.
  unfold Sprintf_d, NilZero.string_of_int.
  destruct (Z.to_int n) as [d | d].
  - apply NilZero_uint_integer.
  - destruct d; try reflexivity; simpl; apply (string_of_uint_digits d).
Qed.

Lemma calls_hostname (cs : list Call) (g : Globals) :
  hostname (calls cs g) = hostname g.
Proof.
  revert g. induction cs as [| c cs IH]; intros g; [reflexivity |].
  unfold calls in *. simpl. rewrite IH. destruct c; reflexivity.
Qed.

(** C8. When [os.Hostname] fails, the identity the package is
    initialised with has the form [generated-hostname-<integer>]; and
    whatever [os.Hostname] returned, the identity is computed once, at
    initialisation, and stays the same string over every later call on
    the process (setting the number of pods, setting the logger, serving
    requests). *)
Theorem hostname_generated_and_stable :
  forall (lookup : result string) (e : error) (rnd : Z) (cs : list Call),
    isGeneratedHostname (hostname (init (Err e) rnd)) = true /\
    hostname (calls cs (init lookup rnd)) = hostname (init lookup rnd).
Proof.
  intros lookup e rnd cs. split.
  - unfold isGeneratedHostname. simpl. apply Sprintf_d_integer.
  - apply calls_hostname.
Qed.

(** ** The polling loops *)

Lemma size_hostname_set (h : string) : size ({[h]} : gset string) = 1%nat.
Proof. apply size_singleton. Qed.

(** The loops do not start when the target is met already. *)
Lemma requestLoop_met g parentDir url script hosts os :
  numberPods g <= Z.of_nat (size hosts) ->
  requestLoop g parentDir url script hosts os = Returned None hosts os script.
Proof.
  intros Hn. destruct script; simpl; rewrite bool_decide_eq_false_2 by lia; reflexivity.
Qed.

Lemma resetLoop_met g url script hosts os :
  numberPods g <= Z.of_nat (size hosts) ->
  resetLoop g url script hosts os = Returned None hosts os script.
Proof.
  intros Hn. destruct script; simpl; rewrite bool_decide_eq_false_2 by lia; reflexivity.
Qed.

(** One turn of the loops, while the target is not met. *)
Lemma requestLoop_step g parentDir url st rest hosts os :
  Z.of_nat (size hosts) < numberPods g ->
  requestLoop g parentDir url (st :: rest) hosts os =
  match requestIter g parentDir url st hosts os with
  | Continue hosts os => requestLoop g parentDir url rest hosts os
  | Return err hosts os => Returned err hosts os rest
  | IterOutside => Outside
  end.
Proof. intros Hn. simpl. rewrite bool_decide_eq_true_2 by lia. reflexivity. Qed.

Lemma resetLoop_step g url st rest hosts os :
  Z.of_nat (size hosts) < numberPods g ->
  resetLoop g url (st :: rest) hosts os =
  match resetIter g url st hosts os with
  | Continue hosts os => resetLoop g url rest hosts os
  | Return err hosts os => Returned err hosts os rest
  | IterOutside => Outside
  end.
Proof. intros Hn. simpl. rewrite bool_decide_eq_true_2 by lia. reflexivity. Qed.

(** A loop that used up a script while still polling goes on with what
    follows the script. *)
Lemma requestLoop_app g parentDir url pre more hosts os hosts' os' :
  requestLoop g parentDir url pre hosts os = Blocked hosts' os' ->
  requestLoop g parentDir url (pre ++ more) hosts os =
  requestLoop g parentDir url more hosts' os'.
Proof.
  revert hosts os. induction pre as [| st pre IH]; intros hosts os H.
  - simpl in H. destruct (bool_decide _) eqn:E in H; [| discriminate].
    injection H as <- <-. reflexivity.
  - simpl in H |- *. destruct (bool_decide _) eqn:E; [| discriminate].
    destruct (requestIter g parentDir url st hosts os) as [h o | err h o |];
      try discriminate.
    apply IH, H.
Qed.

Lemma resetLoop_app g url pre more hosts os hosts' os' :
  resetLoop g url pre hosts os = Blocked hosts' os' ->
  resetLoop g url (pre ++ more) hosts os = resetLoop g url more hosts' os'.
Proof.
  revert hosts os. induction pre as [| st pre IH]; intros hosts os H.
  - simpl in H. destruct (bool_decide _) eqn:E in H; [| discriminate].
    injection H as <- <-. reflexivity.
  - simpl in H |- *. destruct (bool_decide _) eqn:E; [| discriminate].
    destruct (resetIter g url st hosts os) as [h o | err h o |];
      try discriminate.
    apply IH, H.
Qed.

(** A loop is blocked only while the target is not met. *)
Lemma requestLoop_blocked_size g parentDir url pre hosts os hosts' os' :
  requestLoop g parentDir url pre hosts os = Blocked hosts' os' ->
  Z.of_nat (size hosts') < numberPods g.
Proof.
  revert hosts os. induction pre as [| st pre IH]; intros hosts os H; simpl in H.
  - destruct (bool_decide _) eqn:E in H; [| discriminate].
    injection H as <- <-. apply bool_decide_eq_true_1 in E. exact E.
  - destruct (bool_decide _) eqn:E in H; [| discriminate].
    destruct (requestIter g parentDir url st hosts os) as [h o | err h o |];
      try discriminate.
    eapply IH, H.
Qed.

Lemma resetLoop_blocked_size g url pre hosts os hosts' os' :
  resetLoop g url pre hosts os = Blocked hosts' os' ->
  Z.of_nat (size hosts') < numberPods g.
Proof.
  revert hosts os. induction pre as [| st pre IH]; intros hosts os H; simpl in H.
  - destruct (bool_decide _) eqn:E in H; [| discriminate].
    injection H as <- <-. apply bool_decide_eq_true_1 in E. exact E.
  - destruct (bool_decide _) eqn:E in H; [| discriminate].
    destruct (resetIter g url st hosts os) as [h o | err h o |];
      try discriminate.
    eapply IH, H.
Qed.



(** C2. A response from an identity that is in the set of seen hosts
    already changes nothing, in the collector and in the broadcaster:
    the set of hosts is the same (so the response does not count towards
    the target), the file system is the same (no artifact is written),
    and the loop goes on with the next step as if the response had not
    come. *)
Theorem duplicate_identity_is_ignored :
  forall (g : Globals) (parentDir : DirRef) (url : string) (st : Step)
         (rest : list Step) (hosts : gset string) (os : OS) (resp : Response),
    answered g url st = true ->
    sDo st (pollRequest g url) = Ok resp ->
    identity resp ∈ hosts ->
    requestIter g parentDir url st hosts os = Continue hosts os /\
    resetIter g url st hosts os = Continue hosts os /\
    (Z.of_nat (size hosts) < numberPods g ->
     requestLoop g parentDir url (st :: rest) hosts os
       = requestLoop g parentDir url rest hosts os /\
     resetLoop g url (st :: rest) hosts os = resetLoop g url rest hosts os).
Proof.
  intros g parentDir url st rest hosts os resp Ha Hdo Hin.
  unfold answered in Ha.
  apply andb_prop in Ha as [Ha _]. apply andb_prop in Ha as [Ht Hreq].
  assert (Hlt : (allReqTimeout <? sElapsed st)%Z = false) by (apply Z.ltb_ge, Z.leb_le, Ht).
  assert (Hq : requestIter g parentDir url st hosts os = Continue hosts os).
  { unfold requestIter. rewrite Hlt.
    destruct (sNewRequest st); [discriminate |]. rewrite Hdo.
    fold (identity resp). rewrite bool_decide_eq_true_2 by exact Hin. reflexivity. }
  assert (Hr : resetIter g url st hosts os = Continue hosts os).
  { unfold resetIter. rewrite Hlt.
    destruct (sNewRequest st); [discriminate |]. rewrite Hdo.
    fold (identity resp). rewrite bool_decide_eq_true_2 by exact Hin. reflexivity. }
  split; [exact Hq |]. split; [exact Hr |].
  intros Hn. rewrite requestLoop_step, resetLoop_step by exact Hn.
  rewrite Hq, Hr. split; reflexivity.
Qed.

Lemma duplicate_identity_is_ignored_witness :
  requestIter demoGlobals None "u" (demoStep 5 "pod-a" "covcounters.a" "A")
    {[hostname demoGlobals]} demoOS
  = Continue {[hostname demoGlobals]} demoOS.
Proof.
  refine (proj1 (duplicate_identity_is_ignored demoGlobals None "u"
                   (demoStep 5 "pod-a" "covcounters.a" "A") []
                   {[hostname demoGlobals]} demoOS
                   (mkResponse (demoHeader "pod-a" "covcounters.a") (Ok "A")) _ _ _)).
  - reflexivity.
  - reflexivity.
  - vm_compute. reflexivity.
Defined.

(** C4. When the transport fails on a request, at whatever point of the
    polling (after any script the loop has used while still short of
    the target, so also after peers were collected), the collector and
    the broadcaster return at once the transport's error wrapped in
    ["failed to perform request: "]; the set of hosts and the system are
    as they were before the request, and the rest of the script is not
    touched: the request is not sent again and no later step makes up
    for it. *)
Theorem transport_failure_aborts :
  forall (g : Globals) (parentDir : DirRef) (url : string)
         (pre : list Step) (st : Step) (rest : list Step) (os : OS) (e : error),
    (sElapsed st <=? allReqTimeout)%Z = true ->
    sNewRequest st = None ->
    sDo st (pollRequest g url) = Err e ->
    (forall hosts os',
        requestOtherProfile g parentDir url pre os = Blocked hosts os' ->
        requestOtherProfile g parentDir url (pre ++ st :: rest) os
          = Returned (Some (Wrap "failed to perform request: " e)) hosts os' rest) /\
    (forall hosts os',
        resetOtherProfile g url pre os = Blocked hosts os' ->
        resetOtherProfile g url (pre ++ st :: rest) os
          = Returned (Some (Wrap "failed to perform request: " e)) hosts os' rest).
Proof.
  intros g parentDir url pre st rest os e Ht Hreq Hdo.
  assert (Hlt : (allReqTimeout <? sElapsed st)%Z = false) by (apply Z.ltb_ge, Z.leb_le, Ht).
  split; intros hosts os' Hpre.
  - unfold requestOtherProfile in *.
    rewrite (requestLoop_app _ _ _ _ _ _ _ _ _ Hpre).
    rewrite requestLoop_step by (eapply requestLoop_blocked_size, Hpre).
    unfold requestIter. rewrite Hlt, Hreq, Hdo. reflexivity.
  - unfold resetOtherProfile in *.
    rewrite (resetLoop_app _ _ _ _ _ _ _ _ Hpre).
    rewrite resetLoop_step by (eapply resetLoop_blocked_size, Hpre).
    unfold resetIter. rewrite Hlt, Hreq, Hdo. reflexivity.
Qed.

Lemma transport_failure_aborts_witness :
  resetOtherProfile demoGlobals "u"
    ([demoStep 1 "pod-b" "covcounters.b" "B"]
       ++ demoFailure 2 :: [demoStep 3 "pod-c" "covcounters.c" "C"]) demoOS
  = Returned (Some (Wrap "failed to perform request: " (New "connection refused")))
      ({["pod-b"]} ∪ {["pod-a"]}) demoOS [demoStep 3 "pod-c" "covcounters.c" "C"].
Proof.
  refine (proj2 (transport_failure_aborts demoGlobals None "u"
                   [demoStep 1 "pod-b" "covcounters.b" "B"] (demoFailure 2)
                   [demoStep 3 "pod-c" "covcounters.c" "C"] demoOS
                   (New "connection refused") _ _ _) _ _ _).
  - reflexivity.
  - reflexivity.
  - reflexivity.
  - vm_compute. reflexivity.
Defined.

(** ** The file system under the collector *)

Lemma HasPrefix_split (p s : string) :
  HasPrefix s p = true -> exists t, s = p +:+ t.
Proof.
  revert s. induction p as [| c p IH]; intros s H.
  - exists s. reflexivity.
  - destruct s as [| c' s]; simpl in H; [discriminate |].
    apply andb_prop in H as [Hc Hp]. apply Ascii.eqb_eq in Hc. subst c'.
    destruct (IH _ Hp) as [t ->]. exists t. reflexivity.
Qed.

Lemma bind_Some {A B} (m : M A) (k : A -> M B) os a os' :
  m os = Some (a, os') -> bind m k os = k a os'.
Proof. intros H. unfold bind. rewrite H. reflexivity. Qed.

Lemma live_lookup d i : Os.live d i = true <-> exists x, d !! i = Some x /\ dremoved x = false.
Proof.
  unfold Os.live. destruct (d !! i) as [x |]; split.
  - intros H. exists x. split; [reflexivity |]. destruct (dremoved x); [discriminate | reflexivity].
  - intros (y & [= <-] & ->). reflexivity.
  - discriminate.
  - intros (y & Hy & _). discriminate.
Qed.


Lemma MkdirTemp_ok dir pat os :
  faults os = [] -> Os.hasSeparator pat = false ->
  match dir with Some i => Os.live (fs os) i | None => true end = true ->
  Os.MkdirTemp dir pat os
  = Some ((Some (length (fs os)), None), set_fs os (fs os ++ [mkDir dir pat [] false])).
Proof.
  intros Hf Hs Hl. unfold Os.MkdirTemp. rewrite Hs.
  unfold bind, get_fs. rewrite Hl. unfold fault. rewrite Hf. reflexivity.
Qed.

Lemma WriteMetaDir_ok i x os :
  faults os = [] -> fs os !! i = Some x -> dremoved x = false ->
  Os.hasFile (fst (metaFile os)) (dfiles x) = false ->
  Coverage.WriteMetaDir (Some i) os
  = Some (None, set_fs os (<[i := Os.withFiles x (Os.putFile (fst (metaFile os)) (snd (metaFile os)) (dfiles x))]> (fs os))).
Proof.
  intros Hf Hx Hr Hm. unfold Coverage.WriteMetaDir, bind, fault. rewrite Hf.
  assert (Hl : Os.live (fs os) i = true) by (apply live_lookup; eauto).
  rewrite Hl, Hx, Hm. unfold Os.store. rewrite Hx. reflexivity.
Qed.

Lemma WriteCountersDir_ok i x os :
  faults os = [] -> fs os !! i = Some x -> dremoved x = false ->
  Coverage.WriteCountersDir (Some i) os
  = Some (None, set_fs os (<[i := Os.withFiles x (Os.putFile (fst (counterFile os)) (snd (counterFile os)) (dfiles x))]> (fs os))).
Proof.
  intros Hf Hx Hr. unfold Coverage.WriteCountersDir, bind, fault. rewrite Hf.
  assert (Hl : Os.live (fs os) i = true) by (apply live_lookup; eauto).
  rewrite Hl. unfold Os.store. rewrite Hx. reflexivity.
Qed.

Lemma Create_ok i x name os :
  faults os = [] -> fs os !! i = Some x -> dremoved x = false ->
  Os.Create (Os.PFile i name) os
  = Some (Ok (i, name), set_fs os (<[i := Os.withFiles x (Os.putFile name "" (dfiles x))]> (fs os))).
Proof.
  intros Hf Hx Hr. unfold Os.Create, bind, get_fs, fault.
  assert (Hl : Os.live (fs os) i = true) by (apply live_lookup; eauto).
  rewrite Hl, Hf. unfold put_fs, Os.store. rewrite Hx. reflexivity.
Qed.

Lemma Write_ok i x name p os :
  faults os = [] -> fs os !! i = Some x ->
  Os.Write (i, name) p os
  = Some (None, set_fs os (<[i := Os.withFiles x (Os.putFile name p (dfiles x))]> (fs os))).
Proof.
  intros Hf Hx. unfold Os.Write, bind, get_fs, fault. rewrite Hf.
  unfold put_fs, Os.store. simpl. rewrite Hx. reflexivity.
Qed.

Lemma Join_counter i name :
  Os.hasSeparator name = false -> HasPrefix name "covcounters" = true ->
  Os.Join (Some i) name = Os.PFile i name.
Proof.
  intros Hs Hc. apply HasPrefix_split in Hc as [t ->].
  unfold Os.Join. rewrite Hs. reflexivity.
Qed.

Lemma compare_refl s : String.compare s s = Eq.
Proof.
  induction s as [| c s IH]; [reflexivity |]. simpl.
  unfold Ascii.compare. rewrite N.compare_refl. exact IH.
Qed.

Lemma snoc_insert {A} (d : list A) (x y : A) : <[length d := y]> (d ++ [x]) = d ++ [y].
Proof. rewrite insert_app_r_alt by lia. rewrite Nat.sub_diag. reflexivity. Qed.

Lemma snoc_lookup {A} (d : list A) (x : A) : (d ++ [x]) !! length d = Some x.
Proof. rewrite lookup_app_r by lia. rewrite Nat.sub_diag. reflexivity. Qed.

Lemma write_ok body p dirName fileName os :
  faults os = [] -> Os.live (fs os) p = true ->
  Os.hasSeparator dirName = false -> Os.hasSeparator fileName = false ->
  HasPrefix fileName "covcounters" = true ->
  HasPrefix (fst (metaFile os)) "covmeta" = true ->
  write body (Some p) dirName fileName os
  = Some (None, set_fs os (fs os ++ [mkDir (Some p) dirName [(fileName, body); metaFile os] false])).
Proof.
  intros Hf Hl Hd Hn Hc Hm. unfold write.
  erewrite bind_Some by (apply MkdirTemp_ok; assumption). cbn [fst].
  erewrite bind_Some
    by (apply WriteMetaDir_ok with (x := mkDir (Some p) dirName [] false);
        [exact Hf | apply snoc_lookup | reflexivity | reflexivity]).
  cbn [set_fs fs metaFile dfiles Os.putFile Os.withFiles dparent dpattern dremoved].
  rewrite snoc_insert, (Join_counter _ _ Hn Hc).
  erewrite bind_Some
    by (eapply Create_ok; [exact Hf | apply snoc_lookup | reflexivity]).
  cbn [set_fs fs metaFile dfiles Os.withFiles dparent dpattern dremoved].
  rewrite snoc_insert.
  erewrite bind_Some by (eapply Write_ok; [exact Hf | apply snoc_lookup]).
  cbn [set_fs fs metaFile dfiles Os.withFiles dparent dpattern dremoved].
  rewrite snoc_insert. unfold ret, set_fs. cbn [fs faults metaFile counterFile clears].
  apply HasPrefix_split in Hc as [t ->]. apply HasPrefix_split in Hm as [u Hu].
  destruct (metaFile os) as [mname mdata]. cbn [fst snd] in *. subst mname.
  cbn [Os.putFile].
  replace ("covcounters" +:+ t ?= "covmeta" +:+ u) with Lt by reflexivity.
  cbn [Os.putFile]. rewrite compare_refl. reflexivity.
Qed.


Lemma answered_inv g url st :
  answered g url st = true ->
  (allReqTimeout <? sElapsed st)%Z = false /\ sNewRequest st = None /\
  exists resp, sDo st (pollRequest g url) = Ok resp.
Proof.
  unfold answered. intros H.
  apply andb_prop in H as [H Hdo]. apply andb_prop in H as [Ht Hreq].
  split; [apply Z.ltb_ge, Z.leb_le, Ht |].
  split; [destruct (sNewRequest st); [discriminate | reflexivity] |].
  destruct (sDo st (pollRequest g url)) as [resp | e]; [eauto | discriminate].
Qed.

Lemma storable_inv resp :
  storable resp = true ->
  (exists body, rBody resp = Ok body) /\
  Os.hasSeparator (identity resp) = false /\
  HasPrefix (artifactName resp) "covcounters" = true /\
  Os.hasSeparator (artifactName resp) = false.
Proof.
  unfold storable. intros H.
  apply andb_prop in H as [H H4]. apply andb_prop in H as [H H3].
  apply andb_prop in H as [H1 H2].
  apply negb_true_iff in H2, H4.
  repeat split; try assumption.
  destruct (rBody resp) as [body | e]; [eauto | discriminate].
Qed.

Lemma requestIter_served g p url st hosts os resp :
  Base p os -> served g url st = true -> sDo st (pollRequest g url) = Ok resp ->
  (identity resp ∈ hosts /\ requestIter g (Some p) url st hosts os = Continue hosts os) \/
  ((identity resp ∉ hosts) /\ exists body, rBody resp = Ok body /\
   requestIter g (Some p) url st hosts os
   = Continue ({[identity resp]} ∪ hosts) (stored p resp body os)).
Proof.
  intros (Hf & Hl & Hm) Hs Hdo. unfold served in Hs.
  apply andb_prop in Hs as [Ha Hst]. rewrite Hdo in Hst.
  apply answered_inv in Ha as (Ht & Hreq & _).
  apply storable_inv in Hst as ((body & Hb) & Hid & Hc & Hn).
  unfold requestIter. rewrite Ht, Hreq, Hdo. fold (identity resp) (artifactName resp).
  destruct (decide (identity resp ∈ hosts)) as [Hin | Hin].
  - left. rewrite bool_decide_eq_true_2 by exact Hin. auto.
  - right. rewrite bool_decide_eq_false_2 by exact Hin. split; [exact Hin |].
    exists body. split; [exact Hb |]. rewrite Hb.
    rewrite (write_ok _ _ _ _ _ Hf Hl Hid Hn Hc Hm). reflexivity.
Qed.

Section ServedScript.

Variables (g : Globals) (p : nat) (url : string).

(** An invariant of the pair of the seen hosts and the system, kept
    when a new artifact is stored. *)
Variable P : gset string -> OS -> Prop.
Hypothesis P_Base : forall hosts os, P hosts os -> Base p os.
Hypothesis P_stored : forall hosts os resp body,
  P hosts os -> identity resp ∉ hosts -> storable resp = true -> rBody resp = Ok body ->
  P ({[identity resp]} ∪ hosts) (stored p resp body os).


End ServedScript.

Lemma children_from_app i k d x :
  Os.children_from i k (d ++ [x])
  = Os.children_from i k d
    ++ (if negb (dremoved x) && bool_decide (dparent x = Some i)
        then [(k + length d)%nat] else []).
Proof.
  revert k. induction d as [| y d IH]; intros k; simpl.
  - rewrite Nat.add_0_r. reflexivity.
  - rewrite IH. replace (S k + length d)%nat with (k + S (length d))%nat by lia.
    destruct (negb (dremoved y) && bool_decide (dparent y = Some i)); reflexivity.
Qed.


Lemma children_from_wf i k d :
  wf_from k d = true -> (k + length d <= i)%nat -> Os.children_from i k d = [].
Proof.
  revert k. induction d as [| y d IH]; intros k Hwf Hi; simpl in *; [reflexivity |].
  apply andb_prop in Hwf as [Hy Hwf].
  rewrite IH by (assumption || lia).
  destruct (dparent y) as [j |] eqn:E.
  - apply Nat.ltb_lt in Hy. rewrite (bool_decide_eq_false_2 (Some j = Some i)) by (intros [= ->]; lia).
    rewrite andb_false_r. reflexivity.
  - rewrite (bool_decide_eq_false_2 (None = Some i)) by discriminate.
    rewrite andb_false_r. reflexivity.
Qed.





Lemma set_fs_set_fs os d d' : set_fs (set_fs os d) d' = set_fs os d'.
Proof. reflexivity. Qed.

Lemma writeBinCoverage_ok g os :
  faults os = [] -> runtimeNames os = true -> Os.hasSeparator (hostname g) = false ->
  writeBinCoverage g os
  = Some ((Some (length (fs os)), None),
          set_fs os (fs os ++ [mkDir None "coverage" [] false;
                               mkDir (Some (length (fs os))) (hostname g)
                                 [counterFile os; metaFile os] false])).
Proof.
  intros Hf Hn Hh. unfold runtimeNames in Hn. apply andb_prop in Hn as [Hm Hc].
  unfold writeBinCoverage.
  erewrite bind_Some by (apply MkdirTemp_ok; [exact Hf | reflexivity | reflexivity]).
  cbn [fst snd].
  erewrite bind_Some
    by (apply MkdirTemp_ok; [exact Hf | exact Hh | cbn [set_fs fs]; apply live_lookup;
        eexists; split; [apply snoc_lookup | reflexivity]]).
  cbn [fst snd].
  erewrite bind_Some
    by (apply WriteMetaDir_ok with (x := mkDir (Some (length (fs os))) (hostname g) [] false);
        [exact Hf | apply snoc_lookup | reflexivity | reflexivity]).
  cbv beta iota.
  erewrite bind_Some
    by (eapply WriteCountersDir_ok; [exact Hf | cbn [set_fs fs]; rewrite snoc_insert;
        apply snoc_lookup | reflexivity]).
  cbv beta iota.
  unfold ret. rewrite !set_fs_set_fs. cbn [set_fs fs faults metaFile counterFile clears].
  rewrite !snoc_insert. rewrite <- app_assoc. cbn [app].
  cbn [dfiles Os.withFiles dparent dpattern dremoved].
  apply HasPrefix_split in Hc as [t Ht]. apply HasPrefix_split in Hm as [u Hu].
  destruct (metaFile os) as [mn md], (counterFile os) as [cn cd]. cbn [fst snd] in *. subst mn cn.
  cbn [Os.putFile].
  replace ("covcounters" +:+ t ?= "covmeta" +:+ u) with Lt by reflexivity.
  reflexivity.
Qed.



Lemma served_answered g url script :
  forallb (served g url) script = true -> forallb (answered g url) script = true.
Proof.
  induction script as [| st script IH]; simpl; [reflexivity |].
  intros H. apply andb_prop in H as [Hs H]. rewrite (IH H), andb_true_r.
  unfold served in Hs. apply andb_prop in Hs as [Ha _]. exact Ha.
Qed.






(** ** The self-exclusion guard and the loop-back *)

Lemma Get_Set_eq (h : Header) (key value : string) :
  Http.Get (Http.Set_ h key value) key = value.
Proof. unfold Http.Get, Http.Set_. rewrite lookup_insert_eq. reflexivity. Qed.

Lemma Get_absent (h : Header) (key : string) :
  h !! Http.CanonicalMIMEHeaderKey key = None -> Http.Get h key = EmptyString.
Proof. intros H. unfold Http.Get. rewrite H. reflexivity. Qed.

(** The request of a polling loop carries the local identity. *)
Lemma pollRequest_identity g url :
  Http.Get (reqHeader (pollRequest g url)) hostnameHeader = hostname g.
Proof. apply Get_Set_eq. Qed.

(** The guard, when the identity header is the local identity. *)
Lemma guard_hit g r s :
  Http.Get (reqHeader r) hostnameHeader = hostname g ->
  CovResetHandler g r s = HVal tt (with_w s (Writer.sendHeader Http.StatusOK (hw s))) /\
  CovBinProfileHandler g r s = HVal tt (with_w s (Writer.sendHeader Http.StatusOK (hw s))).
Proof.
  intros H. unfold CovResetHandler, CovBinProfileHandler.
  rewrite H, String.eqb_refl. split; reflexivity.
Qed.

Lemma guard_miss g r :
  Http.Get (reqHeader r) hostnameHeader <> hostname g ->
  CovResetHandler g r = resetAll g r /\ CovBinProfileHandler g r = serveProfile g.
Proof.
  intros H. unfold CovResetHandler, CovBinProfileHandler.
  apply String.eqb_neq in H. rewrite H. split; reflexivity.
Qed.

(** C6. A request to the reset endpoint or to the profile endpoint
    whose identity header is the local identity gets status 200 with no
    header and no body, and nothing else happens: the counters are not
    cleared, no script of the network or of the external commands is
    used, nothing is written to the file system, logged or printed; the
    check comes before anything else the handlers do. A request whose
    identity header is another string is handled by the rest of the
    handler, and so is a request without identity header when the local
    identity is not the empty string. *)
Theorem self_exclusion_guard :
  forall (g : Globals) (r : Request) (s : HState),
    (Http.Get (reqHeader r) hostnameHeader = hostname g ->
     hw s = newWriter ->
     CovResetHandler g r s
       = HVal tt (mkHState (mkWriter ∅ (Some 200) ∅ EmptyString)
                    (hos s) (hnet s) (hexec s) (hran s) (hlog s) (hout s)) /\
     CovBinProfileHandler g r s
       = HVal tt (mkHState (mkWriter ∅ (Some 200) ∅ EmptyString)
                    (hos s) (hnet s) (hexec s) (hran s) (hlog s) (hout s))) /\
    (Http.Get (reqHeader r) hostnameHeader <> hostname g ->
     CovResetHandler g r s = resetAll g r s /\
     CovBinProfileHandler g r s = serveProfile g s) /\
    (reqHeader r !! Http.CanonicalMIMEHeaderKey hostnameHeader = None ->
     hostname g <> EmptyString ->
     CovResetHandler g r s = resetAll g r s /\
     CovBinProfileHandler g r s = serveProfile g s).
Proof.
  intros g r s. split; [| split].
  - intros Hid Hw. destruct (guard_hit g r s Hid) as [-> ->].
    unfold with_w. rewrite Hw. split; reflexivity.
  - intros Hne. destruct (guard_miss g r Hne) as [-> ->]. split; reflexivity.
  - intros Habs Hh.
    assert (Hne : Http.Get (reqHeader r) hostnameHeader <> hostname g).
    { rewrite (Get_absent _ _ Habs). congruence. }
    destruct (guard_miss g r Hne) as [-> ->]. split; reflexivity.
Qed.

(** What the process answers to its own request for a profile: status
    200 without the identity header, without the name of a file and
    without body. *)
Lemma selfResponse_empty g s url :
  selfResponse g s (pollRequest g url) = Ok (mkResponse ∅ (Ok EmptyString)).
Proof.
  unfold selfResponse.
  destruct (guard_hit g (pollRequest g url) (with_w s newWriter) (pollRequest_identity g url))
    as [_ ->].
  reflexivity.
Qed.

Lemma Create_directory i os :
  Os.live (fs os) i = true -> Os.Create (Os.PDir (Some i)) os = Some (Err Os.EISDIR, os).
Proof. intros H. unfold Os.Create, bind, get_fs, ret. rewrite H. reflexivity. Qed.

(** [write] with an empty file name: the directory and its meta-data
    are made, and the file cannot be created, because its path is the
    path of the directory. *)
Lemma write_empty_name body p dirName os :
  faults os = [] -> Os.live (fs os) p = true -> Os.hasSeparator dirName = false ->
  write body (Some p) dirName EmptyString os
  = Some (Some (Wrap "error creating file: " Os.EISDIR),
          set_fs os (fs os ++ [mkDir (Some p) dirName [metaFile os] false])).
Proof.
  intros Hf Hl Hd. unfold write.
  erewrite bind_Some by (apply MkdirTemp_ok; assumption). cbn [fst].
  erewrite bind_Some
    by (apply WriteMetaDir_ok with (x := mkDir (Some p) dirName [] false);
        [exact Hf | apply snoc_lookup | reflexivity | reflexivity]).
  cbv beta iota. rewrite set_fs_set_fs. cbn [set_fs fs]. rewrite snoc_insert.
  cbn [dfiles Os.putFile Os.withFiles dparent dpattern dremoved].
  change (Os.Join (Some (length (fs os))) EmptyString) with (Os.PDir (Some (length (fs os)))).
  erewrite bind_Some
    by (apply Create_directory; cbn [fs]; apply live_lookup; eexists;
        split; [apply snoc_lookup | reflexivity]).
  cbv beta iota. unfold ret, set_fs. cbn [fs faults metaFile counterFile clears].
  destruct (metaFile os). reflexivity.
Qed.

(** C9, as the code has it. When a request of the collector comes back
    to the process that sent it, the answer of the guard carries no
    identity; the collector reads the empty string as the identity of
    the responder, adds it to the seen hosts (which hold the local
    identity, not the empty string) and makes a sub-directory with the
    meta-data for it. No counter file is written there: the answer names
    no file either, so the path of the file is the path of the
    sub-directory, creating it fails, and the collector returns the
    error instead of going on towards the target. *)
Theorem loopback_answer_aborts_collection :
  forall (g : Globals) (p : nat) (url : string) (st : Step) (rest : list Step)
         (os : OS) (s : HState),
    hostname g <> EmptyString ->
    1 < numberPods g ->
    Base p os ->
    (sElapsed st <=? allReqTimeout)%Z = true ->
    sNewRequest st = None ->
    sDo st (pollRequest g url) = selfResponse g s (pollRequest g url) ->
    selfResponse g s (pollRequest g url) = Ok (mkResponse ∅ (Ok EmptyString)) /\
    requestOtherProfile g (Some p) url (st :: rest) os
    = Returned
        (Some (Wrap "failed to write response to file: "
                 (Wrap "error creating file: " Os.EISDIR)))
        ({[EmptyString]} ∪ {[hostname g]})
        (set_fs os (fs os ++ [mkDir (Some p) EmptyString [metaFile os] false]))
        rest.
Proof.
  intros g p url st rest os s Hh HN (Hf & Hl & _) Ht Hreq Hdo.
  split; [apply selfResponse_empty |].
  rewrite selfResponse_empty in Hdo.
  assert (Hlt : (allReqTimeout <? sElapsed st)%Z = false) by (apply Z.ltb_ge, Z.leb_le, Ht).
  unfold requestOtherProfile.
  rewrite requestLoop_step by (rewrite size_hostname_set; lia).
  unfold requestIter. rewrite Hlt, Hreq, Hdo. cbn [rHeader rBody].
  change (Http.Get ∅ hostnameHeader) with EmptyString.
  change (Http.Get ∅ filenameHeader) with EmptyString.
  rewrite bool_decide_eq_false_2 by (rewrite elem_of_singleton; congruence).
  rewrite (write_empty_name EmptyString p EmptyString os Hf Hl eq_refl). reflexivity.
Qed.

Lemma loopback_answer_aborts_collection_witness :
  requestOtherProfile demoPair (Some O) "u" [demoLoopback] demoScratch
  = Returned
      (Some (Wrap "failed to write response to file: "
               (Wrap "error creating file: " Os.EISDIR)))
      ({[EmptyString]} ∪ {[hostname demoPair]})
      (set_fs demoScratch
         (fs demoScratch ++ [mkDir (Some O) EmptyString [metaFile demoScratch] false]))
      [].
Proof.
  refine (proj2 (loopback_answer_aborts_collection demoPair O "u" demoLoopback []
                   demoScratch demoHState _ _ _ _ _ _)).
  - discriminate.
  - reflexivity.
  - repeat split; reflexivity.
  - reflexivity.
  - reflexivity.
  - reflexivity.
Defined.

(** C9, as it is stated, fails for two pods: after the loop-back the
    collector has returned an error, not gone on to meet the target, and
    the sub-directory made for the empty identity holds the meta-data
    file alone, so that the sub-directories of the scratch directory are
    not all artifact directories. *)
Lemma loopback_writes_no_counter_file :
  requestOtherProfile demoPair (Some O) "u" [demoLoopback] demoScratch
  = Returned
      (Some (Wrap "failed to write response to file: "
               (Wrap "error creating file: " (New "is a directory"))))
      ({[EmptyString]} ∪ {["pod-a"]})
      (set_fs demoScratch
         [ mkDir None "coverage" [] false;
           mkDir (Some O) "pod-a"
             [("covcounters.9f3a.17.1", "SELF"); ("covmeta.9f3a", "META")] false;
           mkDir (Some O) EmptyString [("covmeta.9f3a", "META")] false ])
      [] /\
  subdirsAreArtifacts ("covmeta.9f3a", "META")
    [ mkDir None "coverage" [] false;
      mkDir (Some O) "pod-a"
        [("covcounters.9f3a.17.1", "SELF"); ("covmeta.9f3a", "META")] false;
      mkDir (Some O) EmptyString [("covmeta.9f3a", "META")] false ] O = false.
Proof. split; vm_compute; reflexivity. Qed.

(** ** The percent endpoint *)

(** C7 fails on the code. Here the collection fails (the peer cannot be
    reached) and the handler does send status 500 and log the error, but
    it does not return: it goes on to run the merge and the percent
    command, aggregates the report of the local data alone and writes
    the result as the body of the response. *)
Theorem percent_handler_goes_on_after_failed_collection :
  forall (Sprintf_2f : float -> string),
    let r := finalState (CovPercentHandler parseFloatDecimal Sprintf_2f demoPair
                           demoRequest demoPercentState) in
    (fun s => wStatus (hw s)) <$> r = Some (Some Http.StatusInternalServerError) /\
    (fun s => wBody (hw s)) <$> r
      = Some ("Total Average Coverage: " +:+ Sprintf_2f 50%float +:+ "%" +:+ newline) /\
    hran <$> r = Some [CovdataMerge [1%nat] (Some 2%nat); CovdataPercent (Some 2%nat)] /\
    hlog <$> r = Some ["ERROR: failed to perform request: connection refused"].
Proof. intros f. repeat split; vm_compute; reflexivity. Qed.

(** ** The aggregator *)

Lemma countPackages_units (before : string) (count : Z) :
  countPackages (Split before tab) count = count + Z.of_nat (units before).
Proof.
  unfold countPackages, units. generalize (Split before tab). intros toks.
  revert count. induction toks as [| tok toks IH]; intros count; cbn [fold_left List.filter].
  - simpl. lia.
  - rewrite IH. destruct (String.eqb (TrimSpace tok) ""); cbn [negb length]; lia.
Qed.

(** One turn of the loop of the aggregator on a line that counts and
    on a line that does not. *)
Lemma scanLoop_counts ParseFloat line rest total count before after :
  coverageLine line = Some (before, after) ->
  scanLoop ParseFloat (line :: rest) total count
  = match ParseFloat (percentToken after) with
    | Err e => Err (Wrap "failed to parse coverage value: " e)
    | Ok coverage =>
        scanLoop ParseFloat rest (total + coverage)%float (count + Z.of_nat (units before))
    end.
Proof.
  unfold coverageLine. intros H. simpl.
  destruct (Contains line "coverage:"); [| discriminate].
  destruct (Split line "coverage:") as [| b [| a [| c l]]]; try discriminate.
  injection H as -> ->. simpl. fold (percentToken after).
  destruct (ParseFloat (percentToken after)); [| reflexivity].
  rewrite countPackages_units. reflexivity.
Qed.

Lemma scanLoop_skips ParseFloat line rest total count :
  coverageLine line = None ->
  scanLoop ParseFloat (line :: rest) total count = scanLoop ParseFloat rest total count.
Proof.
  unfold coverageLine. intros H. simpl.
  destruct (Contains line "coverage:"); [| reflexivity].
  destruct (Split line "coverage:") as [| b [| a [| c l]]]; try discriminate; reflexivity.
Qed.

Lemma coverageLines_cons line lines :
  coverageLines (line :: lines)
  = match coverageLine line with
    | Some cl => cl :: coverageLines lines
    | None => coverageLines lines
    end.
Proof. reflexivity. Qed.

Lemma unitCount_cons cl cls :
  unitCount (cl :: cls) = Z.of_nat (units (fst cl)) + unitCount cls.
Proof. unfold unitCount, list_sum. cbn [map fold_right]. lia. Qed.

Lemma scanLoop_mean ParseFloat lines : forall values total count,
  Forall2 (fun cl v => ParseFloat (percentToken (snd cl)) = Ok v) (coverageLines lines) values ->
  scanLoop ParseFloat lines total count
  = Ok (fold_left PrimFloat.add values total, count + unitCount (coverageLines lines)).
Proof.
  induction lines as [| line lines IH]; intros values total count Hv.
  - inversion Hv. simpl. unfold unitCount. simpl. rewrite Z.add_0_r. reflexivity.
  - rewrite coverageLines_cons in *.
    destruct (coverageLine line) as [[before after] |] eqn:E.
    + inversion Hv as [| cl v cls vs Hp Hrest]; subst. cbn [snd] in Hp.
      rewrite (scanLoop_counts _ _ _ _ _ _ _ E), Hp.
      rewrite (IH _ _ _ Hrest), unitCount_cons. cbn [fold_left fst].
      f_equal. f_equal. lia.
    + rewrite (scanLoop_skips _ _ _ _ _ E). apply IH, Hv.
Qed.

Lemma scanLoop_parse_error ParseFloat lines : forall line before after e total count,
  In line lines -> coverageLine line = Some (before, after) ->
  ParseFloat (percentToken after) = Err e ->
  exists e', scanLoop ParseFloat lines total count
             = Err (Wrap "failed to parse coverage value: " e').
Proof.
  induction lines as [| l lines IH]; intros line before after e total count Hin Hl Hp.
  - destruct Hin.
  - destruct (coverageLine l) as [[b a] |] eqn:E.
    + rewrite (scanLoop_counts _ _ _ _ _ _ _ E).
      destruct (ParseFloat (percentToken a)) as [v | e1] eqn:Ep; [| eauto].
      destruct Hin as [-> | Hin]; [congruence |]. eapply IH; eauto.
    + rewrite (scanLoop_skips _ _ _ _ _ E).
      destruct Hin as [-> | Hin]; [congruence |]. eapply IH; eauto.
Qed.

Lemma coverageLines_none lines :
  Forall (fun line => Contains line "coverage:" = false) lines -> coverageLines lines = [].
Proof.
  unfold coverageLines. induction 1 as [| line lines H _ IH]; simpl; [reflexivity |].
  unfold coverageLine at 1. rewrite H. exact IH.
Qed.

(** C5. For every [strconv.ParseFloat] that reads ["50.0"] and
    ["100.0"] as 50 and 100: the report of the description gives
    exactly 50 and no error. For a report whose lines the scanner
    delivers without error: without a line that holds the marker, the
    error is that no coverage data was found; and when every percentage
    token is a number, the result is the sum of the numbers, added in
    the order of the lines, divided by the number of units (the error
    again when there is no unit). A percentage token that is not a
    number, in any line the scanner delivers, gives the error of the
    parse wrapped in ["failed to parse coverage value: "]. *)
Theorem aggregator_mean_and_errors :
  forall (ParseFloat : string -> result float),
    ParseFloat "50.0" = Ok 50%float ->
    ParseFloat "100.0" = Ok 100%float ->
    calculateTotalCoverage ParseFloat demoReport = Ok 50%float /\
    (forall output lines,
        ScanLines output = (lines, None) ->
        Forall (fun line => Contains line "coverage:" = false) lines ->
        calculateTotalCoverage ParseFloat output = Err ErrNoCoverageData) /\
    (forall output lines scanErr line before after e,
        ScanLines output = (lines, scanErr) ->
        In line lines ->
        coverageLine line = Some (before, after) ->
        ParseFloat (percentToken after) = Err e ->
        exists e', calculateTotalCoverage ParseFloat output
                   = Err (Wrap "failed to parse coverage value: " e')) /\
    (forall output lines values,
        ScanLines output = (lines, None) ->
        Forall2 (fun cl v => ParseFloat (percentToken (snd cl)) = Ok v)
          (coverageLines lines) values ->
        calculateTotalCoverage ParseFloat output
        = if (unitCount (coverageLines lines) =? 0)%Z then Err ErrNoCoverageData
          else Ok (mean values (unitCount (coverageLines lines)))).
Proof.
  intros ParseFloat H50 H100.
  assert (Hmean : forall output lines values,
             ScanLines output = (lines, None) ->
             Forall2 (fun cl v => ParseFloat (percentToken (snd cl)) = Ok v)
               (coverageLines lines) values ->
             calculateTotalCoverage ParseFloat output
             = if (unitCount (coverageLines lines) =? 0)%Z then Err ErrNoCoverageData
               else Ok (mean values (unitCount (coverageLines lines)))).
  { intros output lines values Hscan Hv. unfold calculateTotalCoverage.
    rewrite Hscan, (scanLoop_mean _ _ _ _ _ Hv). reflexivity. }
  split; [| split; [| split; [| exact Hmean]]].
  - rewrite (Hmean demoReport
               [ "pkg/a" +:+ tab +:+ "pkg/b" +:+ tab +:+ "coverage: 50.0% of statements";
                 "pkg/c" +:+ tab +:+ "coverage: 100.0% of statements" ]
               [50%float; 100%float]).
    + reflexivity.
    + reflexivity.
    + repeat constructor; assumption.
  - intros output lines Hscan Hnone.
    rewrite (Hmean output lines [] Hscan).
    + rewrite (coverageLines_none _ Hnone). reflexivity.
    + rewrite (coverageLines_none _ Hnone). constructor.
  - intros output lines scanErr line before after e Hscan Hin Hl Hp.
    destruct (scanLoop_parse_error ParseFloat lines line before after e 0%float 0 Hin Hl Hp)
      as [e' He'].
    exists e'. unfold calculateTotalCoverage. rewrite Hscan, He'. reflexivity.
Qed.

Lemma aggregator_mean_and_errors_witness :
  calculateTotalCoverage parseFloatDecimal demoReport = Ok 50%float.
Proof.
  exact (proj1 (aggregator_mean_and_errors parseFloatDecimal eq_refl eq_refl)).
Defined.

(** ** What a pod answers to a peer *)

Lemma bindH_val {A B} (m : H A) (k : A -> H B) s a s' :
  m s = HVal a s' -> bindH m k s = k a s'.
Proof. intros E. unfold bindH. rewrite E. reflexivity. Qed.

Lemma liftM_val {A} (m : M A) s a os' :
  m (hos s) = Some (a, os') -> liftM m s = HVal a (with_os s os').
Proof. intros E. unfold liftM. rewrite E. reflexivity. Qed.

Lemma sendCounters_dirs g i l s :
  sendCounters g i (map Os.EDir l) s = HVal tt s.
Proof. induction l as [| j l IH]; simpl; [reflexivity | exact IH]. Qed.

Lemma ReadDir_ok i x os :
  faults os = [] -> fs os !! i = Some x -> dremoved x = false ->
  Os.ReadDir (Some i) os
  = Some (Ok (map (fun f => Os.EFile (fst f)) (dfiles x) ++ map Os.EDir (Os.children (fs os) i)), os).
Proof.
  intros Hf Hx Hr. unfold Os.ReadDir, bind, get_fs. rewrite Hx, Hr.
  unfold fault. rewrite Hf. reflexivity.
Qed.

Lemma ReadFile_ok i x name data os :
  faults os = [] -> fs os !! i = Some x ->
  find (fun f => String.eqb (fst f) name) (dfiles x) = Some (name, data) ->
  Os.ReadFile i name os = Some (Ok data, os).
Proof.
  intros Hf Hx Hn. unfold Os.ReadFile, bind, get_fs. rewrite Hx, Hn.
  unfold fault. rewrite Hf. reflexivity.
Qed.

Lemma find_counter cn cd mn md :
  find (fun f : string * string => String.eqb (fst f) cn) [(cn, cd); (mn, md)] = Some (cn, cd).
Proof. simpl. rewrite String.eqb_refl. reflexivity. Qed.

Lemma covmeta_not_counters name :
  HasPrefix name "covmeta" = true -> HasPrefix name "covcounters" = false.
Proof. intros H. apply HasPrefix_split in H as [t ->]. reflexivity. Qed.

(** Reduces the projections of the states a handler goes through. *)
Ltac hsimpl :=
  cbv beta iota;
  cbn [set_fs fs faults metaFile counterFile clears fst snd with_os with_w
       hw hos hnet hexec hran hlog hout
       wHeader wStatus wSent wBody
       dfiles Os.withFiles dparent dpattern dremoved].

(** Runs the next call of a handler on the operating system. *)
Ltac hstep lem :=
  erewrite bindH_val by (apply liftM_val; hsimpl; lem); hsimpl.

Lemma serveProfile_ok g s :
  faults (hos s) = [] -> runtimeNames (hos s) = true -> hw s = newWriter ->
  exists s',
    serveProfile g s = HVal tt s' /\
    Writer.deliver (hw s')
    = mkResponse (profileHeader g (hos s)) (Ok (snd (counterFile (hos s)))) /\
    clears (hos s') = clears (hos s) /\ hnet s' = hnet s.
Proof.
  intros Hf Hn Hw. unfold runtimeNames in Hn. apply andb_prop in Hn as [Hm Hc].
  destruct s as [w os net ex ran lg out]. cbn [hos hw hnet] in *. subst w.
  destruct os as [d fl [mn md] [cn cd] cl]. cbn [faults metaFile counterFile fst snd] in *.
  subst fl.
  set (os2 := mkOS (d ++ [mkDir None "coverage" [(cn, cd); (mn, md)] false]) [] (mn, md) (cn, cd) cl).
  set (hdr := profileHeader g os2).
  set (s2 := mkHState (mkWriter hdr (Some 200) hdr cd) os2 net ex ran lg
               (out ++ ["Convert the binary coverage data to text format" +:+ newline])).
  exists (with_os s2 (set_fs os2 (d ++ [mkDir None "coverage" [] true]))).
  split; [| split; [reflexivity | split; reflexivity]].
  unfold serveProfile.
  hstep ltac:(apply MkdirTemp_ok; reflexivity).
  erewrite bindH_val with (s' := s2).
  - unfold liftM, s2, os2. cbn [hos Os.RemoveAll]. unfold bind, get_fs. cbn [fs].
    rewrite snoc_lookup. unfold put_fs. cbn [dparent dpattern]. rewrite snoc_insert.
    reflexivity.
  - hstep ltac:(apply WriteMetaDir_ok with (x := mkDir None "coverage" [] false);
                [reflexivity | apply snoc_lookup | reflexivity | reflexivity]).
    rewrite snoc_insert.
    hstep ltac:(eapply WriteCountersDir_ok; [reflexivity | apply snoc_lookup | reflexivity]).
    rewrite snoc_insert.
    apply HasPrefix_split in Hc as [t Ht]. pose proof (covmeta_not_counters _ Hm) as Hmc.
    apply HasPrefix_split in Hm as [u Hu]. subst cn mn.
    cbn [Os.putFile].
    replace ("covcounters" +:+ t ?= "covmeta" +:+ u) with Lt by reflexivity.
    unfold Printf at 1. unfold bindH at 1. hsimpl.
    hstep ltac:(eapply ReadDir_ok; [reflexivity | apply snoc_lookup | reflexivity]).
    cbn [map app sendCounters fst].
    replace (HasPrefix ("covcounters" +:+ t) "covcounters") with true by reflexivity.
    cbn [negb].
    hstep ltac:(eapply ReadFile_ok; [reflexivity | apply snoc_lookup | apply find_counter]).
    rewrite Hmc. cbn [negb].
    unfold Writer.HeaderSet, Writer.Write, bindH. hsimpl.
    rewrite sendCounters_dirs. reflexivity.
Qed.

(** The profile a pod sends can be stored by the collector that asked
    for it, under the identity of the pod. *)
Lemma profile_response_storable g os data :
  Os.hasSeparator (hostname g) = false ->
  HasPrefix (fst (counterFile os)) "covcounters" = true ->
  Os.hasSeparator (fst (counterFile os)) = false ->
  identity (mkResponse (profileHeader g os) (Ok data)) = hostname g /\
  artifactName (mkResponse (profileHeader g os) (Ok data)) = fst (counterFile os) /\
  storable (mkResponse (profileHeader g os) (Ok data)) = true.
Proof.
  intros Hh Hc Hs.
  assert (Hid : identity (mkResponse (profileHeader g os) (Ok data)) = hostname g)
    by apply Get_Set_eq.
  assert (Hname : artifactName (mkResponse (profileHeader g os) (Ok data))
                  = fst (counterFile os)).
  { unfold artifactName, profileHeader, Http.Get, Http.Set_. cbn [rHeader].
    rewrite lookup_insert_ne by (vm_compute; discriminate).
    rewrite lookup_insert_eq. reflexivity. }
  split; [exact Hid |]. split; [exact Hname |].
  unfold storable. rewrite Hid, Hname, Hh, Hc, Hs. reflexivity.
Qed.

(** The reset endpoint, past the guard, when nothing fails: the
    counters are cleared, the peers are polled, and the confirmation is
    sent with status 200. *)
Lemma resetAll_ok g r s hosts os' rest :
  faults (hos s) = [] -> hw s = newWriter ->
  resetOtherProfile g (getURL r true) (hnet s)
    (mkOS (fs (hos s)) [] (metaFile (hos s)) (counterFile (hos s)) (S (clears (hos s))))
  = Returned None hosts os' rest ->
  resetAll g r s
  = HVal tt (mkHState (mkWriter ∅ (Some 200) ∅ "Coverage counters have been reset")
               os' rest (hexec s) (hran s) (hlog s) (hout s)).
Proof.
  intros Hf Hw Hloop. destruct s as [w os net ex ran lg out]. cbn [hos hw hnet] in *.
  subst w. unfold resetAll.
  erewrite bindH_val.
  2:{ apply liftM_val. cbn [hos]. unfold Coverage.ClearCounters, bind, fault.
      rewrite Hf. reflexivity. }
  hsimpl. rewrite Hf in *.
  unfold bindH at 1. unfold liftLoop. hsimpl. rewrite Hloop. reflexivity.
Qed.

(** What the process answers to its own request to reset. *)
Lemma selfResetResponse_empty g s url :
  selfResetResponse g s (pollRequest g url) = Ok (mkResponse ∅ (Ok EmptyString)).
Proof.
  unfold selfResetResponse.
  destruct (guard_hit g (pollRequest g url) (with_w s newWriter) (pollRequest_identity g url))
    as [-> _].
  reflexivity.
Qed.

(** X1. The broadcaster takes the answer of the guard to its own request
    for the answer of a peer: with two pods, it returns without error
    although no other pod was asked to reset. *)
Lemma loopback_counts_for_broadcaster g url st rest os s :
  hostname g <> EmptyString -> numberPods g = 2 ->
  (sElapsed st <=? allReqTimeout)%Z = true -> sNewRequest st = None ->
  sDo st (pollRequest g url) = selfResetResponse g s (pollRequest g url) ->
  resetOtherProfile g url (st :: rest) os
  = Returned None ({[EmptyString]} ∪ {[hostname g]}) os rest.
Proof.
  intros Hh HN Ht Hreq Hdo. rewrite selfResetResponse_empty in Hdo.
  assert (Hlt : (allReqTimeout <? sElapsed st)%Z = false) by (apply Z.ltb_ge, Z.leb_le, Ht).
  unfold resetOtherProfile.
  rewrite resetLoop_step by (rewrite size_hostname_set; lia).
  unfold resetIter. rewrite Hlt, Hreq, Hdo. cbn [rHeader].
  change (Http.Get ∅ hostnameHeader) with EmptyString.
  rewrite bool_decide_eq_false_2 by (rewrite elem_of_singleton; congruence).
  apply resetLoop_met.
  rewrite size_union by (apply disjoint_singleton_l; rewrite elem_of_singleton; congruence).
  rewrite !size_singleton. lia.
Qed.

Lemma loopback_counts_for_broadcaster_witness :
  resetOtherProfile demoPair "u" [demoResetLoopback] demoOS
  = Returned None ({[EmptyString]} ∪ {[hostname demoPair]}) demoOS [].
Proof.
  apply (loopback_counts_for_broadcaster demoPair "u" demoResetLoopback [] demoOS demoHState).
  - discriminate.
  - reflexivity.
  - reflexivity.
  - reflexivity.
  - reflexivity.
Defined.

(** ** The file system under [write] *)

Lemma store_last d x name data :
  Os.store (d ++ [x]) (length d) name data
  = d ++ [Os.withFiles x (Os.putFile name data (dfiles x))].
Proof. unfold Os.store. rewrite snoc_lookup, snoc_insert. reflexivity. Qed.

Lemma live_last d x : Os.live (d ++ [x]) (length d) = negb (dremoved x).
Proof. unfold Os.live. rewrite snoc_lookup. reflexivity. Qed.

Lemma putFile_In name data files : In (name, data) (Os.putFile name data files).
Proof.
  induction files as [| [n x] files IH]; simpl; [auto |].
  destruct (String.compare name n); simpl; auto.
Qed.

Lemma sameRuntime_refl os : sameRuntime os os.
Proof. repeat split. Qed.

Lemma sameRuntime_trans a b c : sameRuntime a b -> sameRuntime b c -> sameRuntime a c.
Proof. intros (H1 & H2 & H3) (K1 & K2 & K3). repeat split; congruence. Qed.

Lemma fault_cases os f os1 :
  fault os = Some (f, os1) -> fs os1 = fs os /\ sameRuntime os os1.
Proof.
  unfold fault. destruct (faults os) as [| f0 fl]; intros H; inversion H; subst;
    split; try reflexivity; repeat split.
Qed.

Lemma MkdirTemp_cases dir pat os r os1 :
  Os.MkdirTemp dir pat os = Some (r, os1) ->
  sameRuntime os os1 /\
  ((fst r = None /\ fs os1 = fs os) \/
   (r = (Some (length (fs os)), None) /\ fs os1 = fs os ++ [mkDir dir pat [] false])).
Proof.
  unfold Os.MkdirTemp. destruct (Os.hasSeparator pat).
  { intros H. inversion H; subst. split; [apply sameRuntime_refl | left; auto]. }
  unfold bind, get_fs.
  destruct (match dir with Some i => Os.live (fs os) i | None => true end).
  2:{ intros H. inversion H; subst. split; [apply sameRuntime_refl | left; auto]. }
  destruct (fault os) as [[f os0] |] eqn:Ef; [| discriminate].
  destruct (fault_cases _ _ _ Ef) as [Hfs Hrt].
  destruct f as [e |]; intros H; inversion H; subst.
  - split; [exact Hrt | left; auto].
  - split; [destruct Hrt as (?&?&?); repeat split; assumption | right; auto].
Qed.

Lemma WriteMetaDir_none os e os1 :
  Coverage.WriteMetaDir None os = Some (e, os1) ->
  e <> None /\ fs os1 = fs os /\ sameRuntime os os1.
Proof.
  unfold Coverage.WriteMetaDir, bind.
  destruct (fault os) as [[f os0] |] eqn:Ef; [| discriminate].
  destruct (fault_cases _ _ _ Ef) as [Hfs Hrt].
  destruct f as [e0 |]; intros H; inversion H; subst; (split; [discriminate | auto]).
Qed.

Lemma WriteMetaDir_last d parent pat os e os1 :
  lastMade d parent pat os ->
  Coverage.WriteMetaDir (Some (length d)) os = Some (e, os1) ->
  lastMade d parent pat os1 /\ sameRuntime os os1.
Proof.
  intros [files Hfs]. unfold Coverage.WriteMetaDir, bind.
  destruct (fault os) as [[f os0] |] eqn:Ef; [| discriminate].
  destruct (fault_cases _ _ _ Ef) as [Hfs0 Hrt].
  destruct f as [e0 |].
  { intros H. inversion H; subst. split; [exists files; congruence | exact Hrt]. }
  rewrite Hfs0, Hfs, live_last, snoc_lookup. cbn [dremoved negb dfiles].
  destruct (Os.hasFile _ files); intros H; inversion H; subst.
  - split; [exists files; congruence | exact Hrt].
  - split; [| destruct Hrt as (?&?&?); repeat split; assumption].
    rewrite store_last. eexists. reflexivity.
Qed.

Lemma Create_last d parent pat os name r os1 :
  lastMade d parent pat os ->
  Os.Create (Os.Join (Some (length d)) name) os = Some (r, os1) ->
  lastMade d parent pat os1 /\ sameRuntime os os1 /\
  (forall f, r = Ok f -> f = (length d, name)).
Proof.
  intros [files Hfs]. unfold Os.Join.
  destruct (String.eqb name ""); [| destruct (String.eqb name ".")];
    [| | destruct (Os.hasSeparator name || String.eqb name "..")];
    unfold Os.Create, bind, get_fs, ret; try discriminate.
  - intros H. inversion H; subst.
    split; [exists files; exact Hfs | split; [apply sameRuntime_refl | discriminate]].
  - intros H. inversion H; subst.
    split; [exists files; exact Hfs | split; [apply sameRuntime_refl | discriminate]].
  - rewrite Hfs, live_last. cbn [dremoved negb].
    destruct (fault os) as [[f os0] |] eqn:Ef; [| discriminate].
    destruct (fault_cases _ _ _ Ef) as [Hfs0 Hrt].
    destruct f as [e0 |]; intros H; inversion H; subst.
    + split; [exists files; congruence | split; [exact Hrt | discriminate]].
    + split; [| split; [destruct Hrt as (?&?&?); repeat split; assumption |]].
      * unfold put_fs in *. cbn [set_fs fs]. rewrite store_last. eexists. reflexivity.
      * intros f [= <-]. reflexivity.
Qed.

Lemma Write_last d parent pat os name p e os1 :
  lastMade d parent pat os ->
  Os.Write (length d, name) p os = Some (e, os1) ->
  sameRuntime os os1 /\
  ((e <> None /\ lastMade d parent pat os1) \/
   (e = None /\ exists files, fs os1 = d ++ [mkDir parent pat files false]
                              /\ In (name, p) files)).
Proof.
  intros [files Hfs]. unfold Os.Write, bind.
  destruct (fault os) as [[f os0] |] eqn:Ef; [| discriminate].
  destruct (fault_cases _ _ _ Ef) as [Hfs0 Hrt].
  destruct f as [e0 |]; unfold get_fs, put_fs, ret; intros H; inversion H; subst.
  - split; [exact Hrt | left; split; [discriminate | exists files; congruence]].
  - split; [destruct Hrt as (?&?&?); repeat split; assumption | right].
    split; [reflexivity |]. cbn [set_fs fs fst snd]. rewrite Hfs0, Hfs, store_last.
    eexists. split; [reflexivity | apply putFile_In].
Qed.

Lemma write_result p parent dirName fileName os err os' :
  write p parent dirName fileName os = Some (err, os') ->
  addsAtMostOne parent dirName os os' /\
  (err = None ->
   exists x, fs os' = fs os ++ [x] /\ dparent x = parent /\ dpattern x = dirName /\
             In (fileName, p) (dfiles x)).
Proof.
  unfold write, bind at 1.
  destruct (Os.MkdirTemp parent dirName os) as [[r os1] |] eqn:E1; [| discriminate].
  destruct (MkdirTemp_cases _ _ _ _ _ E1) as [Hrt1 [[Hr Hfs1] | [-> Hfs1]]].
  - rewrite Hr. unfold bind at 1.
    destruct (Coverage.WriteMetaDir None os1) as [[e os2] |] eqn:E2; [| discriminate].
    destruct (WriteMetaDir_none _ _ _ E2) as (He & Hfs2 & Hrt2).
    destruct e as [e |]; [| congruence]. intros H. inversion H; subst.
    destruct (sameRuntime_trans _ _ _ Hrt1 Hrt2) as (R1 & R2 & R3).
    split; [repeat split; auto; left; congruence | discriminate].
  - cbn [fst]. unfold bind at 1.
    assert (HL1 : lastMade (fs os) parent dirName os1) by (eexists; exact Hfs1).
    destruct (Coverage.WriteMetaDir (Some (length (fs os))) os1) as [[e os2] |] eqn:E2;
      [| discriminate].
    destruct (WriteMetaDir_last _ _ _ _ _ _ HL1 E2) as [HL2 Hrt2].
    pose proof (sameRuntime_trans _ _ _ Hrt1 Hrt2) as Hrt12.
    destruct e as [e |].
    { intros H. inversion H; subst. destruct HL2 as [files Hf], Hrt12 as (R1 & R2 & R3).
      split; [repeat split; auto; right; eexists; split; [exact Hf | auto] | discriminate]. }
    unfold bind at 1.
    destruct (Os.Create (Os.Join (Some (length (fs os))) fileName) os2) as [[r os3] |] eqn:E3;
      [| discriminate].
    destruct (Create_last _ _ _ _ _ _ _ HL2 E3) as (HL3 & Hrt3 & Hf3).
    pose proof (sameRuntime_trans _ _ _ Hrt12 Hrt3) as Hrt13.
    destruct r as [f | e].
    2:{ intros H. inversion H; subst. destruct HL3 as [files Hf], Hrt13 as (R1 & R2 & R3).
        split; [repeat split; auto; right; eexists; split; [exact Hf | auto] | discriminate]. }
    rewrite (Hf3 f eq_refl). unfold bind at 1.
    destruct (Os.Write (length (fs os), fileName) p os3) as [[e os4] |] eqn:E4; [| discriminate].
    destruct (Write_last _ _ _ _ _ _ _ _ HL3 E4) as (Hrt4 & Hcase).
    destruct (sameRuntime_trans _ _ _ Hrt13 Hrt4) as (R1 & R2 & R3).
    destruct Hcase as [[He [files Hf]] | [-> (files & Hf & Hin)]].
    + destruct e as [e |]; [| congruence]. intros H. inversion H; subst.
      split; [repeat split; auto; right; eexists; split; [exact Hf | auto] | discriminate].
    + intros H. inversion H; subst.
      split; [repeat split; auto; right; eexists; split; [exact Hf | auto] |].
      intros _. eexists. split; [exact Hf | auto].
Qed.

(** ** Where the file system is described *)

Lemma defined_ret {A} (a : A) : defined (ret a).
Proof. intros os. eexists _, _. reflexivity. Qed.

Lemma defined_bind {A B} (m : M A) (k : A -> M B) :
  defined m -> (forall a, defined (k a)) -> defined (bind m k).
Proof.
  intros Hm Hk os. destruct (Hm os) as (a & os1 & E). unfold bind. rewrite E. apply Hk.
Qed.

Lemma defined_fault : defined fault.
Proof. intros os. unfold fault. destruct (faults os); eexists _, _; reflexivity. Qed.

Lemma defined_get_fs : defined get_fs.
Proof. intros os. eexists _, _. reflexivity. Qed.

Lemma defined_put_fs d : defined (put_fs d).
Proof. intros os. eexists _, _. reflexivity. Qed.

Ltac defined_step :=
  first
    [ apply defined_ret | apply defined_fault | apply defined_get_fs | apply defined_put_fs
    | apply defined_bind; [| intros ?]
    | match goal with
      | |- defined (match ?x with _ => _ end) => destruct x
      | |- defined (if ?b then _ else _) => destruct b
      end ].

Lemma MkdirTemp_defined dir pat : defined (Os.MkdirTemp dir pat).
Proof. unfold Os.MkdirTemp. repeat defined_step. Qed.

Lemma WriteMetaDir_defined dir : defined (Coverage.WriteMetaDir dir).
Proof.
  unfold Coverage.WriteMetaDir. repeat defined_step.
  intros os. cbv zeta. destruct (Os.live (fs os) _); [| eauto].
  destruct (fs os !! _); [| eauto]. destruct (Os.hasFile _ _); eauto.
Qed.

Lemma WriteCountersDir_defined dir : defined (Coverage.WriteCountersDir dir).
Proof.
  unfold Coverage.WriteCountersDir. repeat defined_step.
  intros os. cbv zeta. destruct (Os.live (fs os) _); eauto.
Qed.

Lemma Write_defined f p : defined (Os.Write f p).
Proof. unfold Os.Write. repeat defined_step. Qed.

Lemma ReadDir_defined dir : defined (Os.ReadDir dir).
Proof. unfold Os.ReadDir. repeat defined_step. Qed.

Lemma Join_plain i name :
  plainName name = true ->
  Os.Join (Some i) name = Os.PDir (Some i) \/ Os.Join (Some i) name = Os.PFile i name.
Proof.
  unfold plainName, Os.Join. intros H. apply andb_true_iff in H as [H1 H2].
  apply negb_true_iff in H1, H2. rewrite H1, H2.
  destruct (String.eqb name ""); [auto |]. destruct (String.eqb name "."); auto.
Qed.

Lemma Create_defined i name : plainName name = true -> defined (Os.Create (Os.Join (Some i) name)).
Proof.
  intros H. destruct (Join_plain i name H) as [-> | ->]; unfold Os.Create; repeat defined_step.
Qed.

(** [write] with a plain file name stays in the directories described
    here. *)
Lemma write_defined p parent dirName fileName :
  plainName fileName = true -> defined (write p parent dirName fileName).
Proof.
  intros Hp os. unfold write, bind at 1.
  destruct (MkdirTemp_defined parent dirName os) as (r & os1 & E1). rewrite E1.
  cbv zeta. destruct (fst r) as [i |] eqn:Er.
  - clear E1. revert os1. apply defined_bind; [apply WriteMetaDir_defined |].
    intros [e |]; [apply defined_ret |].
    apply defined_bind; [apply Create_defined, Hp |].
    intros [f | e]; [| apply defined_ret].
    apply defined_bind; [apply Write_defined |]. intros [e |]; apply defined_ret.
  - unfold bind at 1. destruct (WriteMetaDir_defined None os1) as (e & os2 & E2). rewrite E2.
    destruct (WriteMetaDir_none _ _ _ E2) as (He & _).
    destruct e as [e |]; [| congruence]. eexists _, _. reflexivity.
Qed.

(** X2. [write] with a file name that holds no path separator and is
    not [".."] changes nothing that was there, whatever the operating
    system does: it returns, the files of the runtime and the count of
    clearings are the same, the directories that existed are as they
    were, and at most one directory is new, made in [parentDir] with
    the pattern [dirName]. When [write] returns nil that directory was
    made and holds the file [fileName] with the contents [p]. (With a
    separator or [".."] the file is created outside the new directory,
    which is not described here.) *)
Theorem write_effect p parent dirName fileName os :
  plainName fileName = true ->
  exists err os',
    write p parent dirName fileName os = Some (err, os') /\
    addsAtMostOne parent dirName os os' /\
    (err = None ->
     exists x, fs os' = fs os ++ [x] /\ dparent x = parent /\ dpattern x = dirName /\
               In (fileName, p) (dfiles x)).
Proof.
  intros Hp. destruct (write_defined p parent dirName fileName Hp os) as (err & os' & E).
  exists err, os'. split; [exact E |]. exact (write_result _ _ _ _ _ _ _ E).
Qed.

Lemma write_effect_witness :
  exists err os',
    write "B" None "pod-b" "covcounters.b" demoOS = Some (err, os') /\
    addsAtMostOne None "pod-b" demoOS os' /\
    (err = None ->
     exists x, fs os' = fs demoOS ++ [x] /\ dparent x = None /\ dpattern x = "pod-b" /\
               In ("covcounters.b", "B") (dfiles x)).
Proof.
  apply (write_effect "B" None "pod-b" "covcounters.b" demoOS). reflexivity.
Defined.

(** ** The polling loops on every script *)

Lemma grew_refl parent hosts os : grew parent hosts os hosts os.
Proof.
  split; [set_solver |]. split; [apply sameRuntime_refl |].
  exists []. rewrite app_nil_r. split; [reflexivity |]. split; [constructor | simpl; lia].
Qed.

Lemma grew_trans parent h1 o1 h2 o2 h3 o3 :
  grew parent h1 o1 h2 o2 -> grew parent h2 o2 h3 o3 -> grew parent h1 o1 h3 o3.
Proof.
  intros (S1 & R1 & m1 & F1 & A1 & L1) (S2 & R2 & m2 & F2 & A2 & L2).
  split; [set_solver |]. split; [eapply sameRuntime_trans; eauto |].
  exists (m1 ++ m2). split; [rewrite F2, F1, app_assoc; reflexivity |].
  split; [apply Forall_app; auto |]. rewrite length_app. lia.
Qed.

Lemma grew_new_host parent hosts os id os' :
  id ∉ hosts -> addsAtMostOne parent id os os' ->
  grew parent hosts os ({[id]} ∪ hosts) os'.
Proof.
  intros Hin (R1 & R2 & R3 & Hfs).
  split; [set_solver |]. split; [repeat split; assumption |].
  rewrite size_union by set_solver. rewrite size_singleton.
  destruct Hfs as [Hfs | (x & Hfs & Hp & _ & Hr)].
  - exists []. rewrite app_nil_r. split; [exact Hfs |]. split; [constructor | simpl; lia].
  - exists [x]. split; [exact Hfs |]. split; [repeat constructor; assumption | simpl; lia].
Qed.

(** What one turn of the collector does. *)
Lemma requestIter_cases g parent url st hosts os :
  match requestIter g parent url st hosts os with
  | Continue h' os' => grew parent hosts os h' os' /\ (size h' <= S (size hosts))%nat
  | Return err h' os' => err <> None /\ grew parent hosts os h' os'
  | IterOutside => True
  end.
Proof.
  unfold requestIter.
  destruct (allReqTimeout <? sElapsed st)%Z; [split; [discriminate | apply grew_refl] |].
  destruct (sNewRequest st); [split; [discriminate | apply grew_refl] |].
  destruct (sDo st (pollRequest g url)) as [resp | e];
    [| split; [discriminate | apply grew_refl]].
  destruct (decide (Http.Get (rHeader resp) hostnameHeader ∈ hosts)) as [Hin | Hin].
  { rewrite bool_decide_eq_true_2 by exact Hin. split; [apply grew_refl | lia]. }
  rewrite bool_decide_eq_false_2 by exact Hin.
  assert (Hsz : size ({[Http.Get (rHeader resp) hostnameHeader]} ∪ hosts) = S (size hosts)).
  { rewrite size_union by set_solver. rewrite size_singleton. reflexivity. }
  destruct (rBody resp) as [body | e].
  2:{ split; [discriminate |]. apply grew_new_host; [exact Hin |].
      repeat split; auto. }
  destruct (write body parent _ _ os) as [[[e |] os'] |] eqn:Ew; [| | exact I].
  - split; [discriminate |]. apply grew_new_host; [exact Hin |].
    apply (write_result _ _ _ _ _ _ _ Ew).
  - split; [| lia]. apply grew_new_host; [exact Hin |].
    apply (write_result _ _ _ _ _ _ _ Ew).
Qed.

Lemma resetIter_cases g url st hosts os :
  match resetIter g url st hosts os with
  | Continue h' os' => hosts ⊆ h' /\ os' = os /\ (size h' <= S (size hosts))%nat
  | Return err h' os' => err <> None /\ h' = hosts /\ os' = os
  | IterOutside => False
  end.
Proof.
  unfold resetIter.
  destruct (allReqTimeout <? sElapsed st)%Z; [split; [discriminate | auto] |].
  destruct (sNewRequest st); [split; [discriminate | auto] |].
  destruct (sDo st (pollRequest g url)) as [resp | e]; [| split; [discriminate | auto]].
  destruct (decide (Http.Get (rHeader resp) hostnameHeader ∈ hosts)) as [Hin | Hin].
  { rewrite bool_decide_eq_true_2 by exact Hin. split; [set_solver | split; [reflexivity | lia]]. }
  rewrite bool_decide_eq_false_2 by exact Hin.
  split; [set_solver |]. split; [reflexivity |].
  rewrite size_union by set_solver. rewrite size_singleton. lia.
Qed.

Lemma requestLoop_grew g parent url script : forall hosts os,
  endsIn (requestLoop g parent url script hosts os)
    (fun _ h' os' rest => grew parent hosts os h' os' /\ exists used, script = used ++ rest).
Proof.
  induction script as [| st script IH]; intros hosts os.
  - simpl. destruct (bool_decide _); simpl; (split; [apply grew_refl | exists []; reflexivity]).
  - destruct (decide (Z.of_nat (size hosts) < numberPods g)) as [Hlt | Hge].
    2:{ rewrite requestLoop_met by lia. simpl. split; [apply grew_refl | exists []; reflexivity]. }
    rewrite requestLoop_step by exact Hlt.
    pose proof (requestIter_cases g parent url st hosts os) as Hc.
    destruct (requestIter g parent url st hosts os) as [h1 o1 | err h1 o1 |]; [| | exact I].
    + destruct Hc as [Hg _]. specialize (IH h1 o1).
      destruct (requestLoop g parent url script h1 o1) as [e h2 o2 rest | h2 o2 |]; simpl in *;
        [| | exact I].
      * destruct IH as [Hg2 [used ->]].
        split; [eapply grew_trans; eauto | exists (st :: used); reflexivity].
      * destruct IH as [Hg2 [used Hu]].
        split; [eapply grew_trans; eauto | exists (st :: script); rewrite app_nil_r; reflexivity].
    + simpl. split; [apply Hc | exists [st]; reflexivity].
Qed.

(** A loop returns without error only with the target met, and met
    exactly when the target is at least one. *)
Lemma requestLoop_success g parent url script : forall hosts os h' os' rest,
  (1 <= size hosts)%nat -> Z.of_nat (size hosts) <= Z.max 1 (numberPods g) ->
  requestLoop g parent url script hosts os = Returned None h' os' rest ->
  Z.of_nat (size h') = Z.max 1 (numberPods g).
Proof.
  induction script as [| st script IH]; intros hosts os h' os' rest H1 Hle.
  - simpl. destruct (bool_decide _) eqn:E; [discriminate |].
    apply bool_decide_eq_false_1 in E. intros [= <- <- <-]. lia.
  - destruct (decide (Z.of_nat (size hosts) < numberPods g)) as [Hlt | Hge].
    2:{ rewrite requestLoop_met by lia. intros [= <- <- <-]. lia. }
    rewrite requestLoop_step by exact Hlt.
    pose proof (requestIter_cases g parent url st hosts os) as Hc.
    destruct (requestIter g parent url st hosts os) as [h1 o1 | err h1 o1 |]; [| | discriminate].
    + destruct Hc as [(Hsub & _) Hsz]. apply IH; [| lia].
      apply subseteq_size in Hsub. lia.
    + intros [= -> <- <- <-]. destruct Hc as [Hne _]. congruence.
Qed.

Lemma resetLoop_success g url script : forall hosts os h' os' rest,
  (1 <= size hosts)%nat -> Z.of_nat (size hosts) <= Z.max 1 (numberPods g) ->
  resetLoop g url script hosts os = Returned None h' os' rest ->
  Z.of_nat (size h') = Z.max 1 (numberPods g).
Proof.
  induction script as [| st script IH]; intros hosts os h' os' rest H1 Hle.
  - simpl. destruct (bool_decide _) eqn:E; [discriminate |].
    apply bool_decide_eq_false_1 in E. intros [= <- <- <-]. lia.
  - destruct (decide (Z.of_nat (size hosts) < numberPods g)) as [Hlt | Hge].
    2:{ rewrite resetLoop_met by lia. intros [= <- <- <-]. lia. }
    rewrite resetLoop_step by exact Hlt.
    pose proof (resetIter_cases g url st hosts os) as Hc.
    destruct (resetIter g url st hosts os) as [h1 o1 | err h1 o1 |]; [| | discriminate].
    + destruct Hc as (Hsub & _ & Hsz). apply IH; [| lia].
      apply subseteq_size in Hsub. lia.
    + intros [= -> <- <- <-]. destruct Hc as [Hne _]. congruence.
Qed.

(** The broadcaster leaves the system as it found it and does not leave
    the model. *)
Lemma resetLoop_pure g url script : forall hosts os,
  match resetLoop g url script hosts os with
  | Returned _ h' os' rest => hosts ⊆ h' /\ os' = os /\ exists used, script = used ++ rest
  | Blocked h' os' => hosts ⊆ h' /\ os' = os
  | Outside => False
  end.
Proof.
  induction script as [| st script IH]; intros hosts os.
  - simpl. destruct (bool_decide _); (split; [set_solver |]); auto.
    split; [reflexivity | exists []; reflexivity].
  - destruct (decide (Z.of_nat (size hosts) < numberPods g)) as [Hlt | Hge].
    2:{ rewrite resetLoop_met by lia. split; [set_solver |].
        split; [reflexivity | exists []; reflexivity]. }
    rewrite resetLoop_step by exact Hlt.
    pose proof (resetIter_cases g url st hosts os) as Hc.
    destruct (resetIter g url st hosts os) as [h1 o1 | err h1 o1 |]; [| | exact Hc].
    + destruct Hc as (Hsub & -> & _). specialize (IH h1 os).
      destruct (resetLoop g url script h1 os) as [e h2 o2 rest | h2 o2 |]; [| | exact IH].
      * destruct IH as (Hs2 & -> & used & ->).
        split; [set_solver |]. split; [reflexivity | exists (st :: used); reflexivity].
      * destruct IH as (Hs2 & ->). split; [set_solver | reflexivity].
    + destruct Hc as (_ & -> & ->). split; [set_solver |].
      split; [reflexivity | exists [st]; reflexivity].
Qed.

(** ** The handlers on every environment *)

Lemma sameResponse_refl s : sameResponse s s.
Proof. repeat split. Qed.

Lemma sameResponse_trans a b c : sameResponse a b -> sameResponse b c -> sameResponse a c.
Proof. intros (H1 & H2 & H3) (K1 & K2 & K3). repeat split; congruence. Qed.

Lemma liftM_frame {A} (m : M A) s a s' :
  liftM m s = HVal a s' ->
  m (hos s) = Some (a, hos s') /\ sameResponse s s' /\
  hnet s' = hnet s /\ hexec s' = hexec s /\ hran s' = hran s.
Proof.
  unfold liftM. destruct (m (hos s)) as [[a0 os] |]; [| discriminate].
  intros [= <- <-]. repeat split.
Qed.

Lemma liftLoop_frame loop s err s' :
  liftLoop loop s = HVal err s' ->
  (exists hosts, loop (hnet s) (hos s) = Returned err hosts (hos s') (hnet s')) /\
  sameResponse s s' /\ hexec s' = hexec s /\ hran s' = hran s.
Proof.
  unfold liftLoop. destruct (loop (hnet s) (hos s)) as [e h os rest | |]; try discriminate.
  intros [= <- <-]. split; [eexists; reflexivity | repeat split].
Qed.

Lemma CombinedOutput_frame cmd s r s' :
  CombinedOutput cmd s = HVal r s' ->
  hexec s = r :: hexec s' /\ hran s' = hran s ++ [cmd] /\
  sameResponse s s' /\ hos s' = hos s /\ hnet s' = hnet s.
Proof.
  unfold CombinedOutput. destruct (hexec s) as [| r0 rest]; [discriminate |].
  intros [= <- <-]. repeat split.
Qed.

(** A bind returns only if its first computation did. *)
Lemma bindH_inv {A B} (m : H A) (k : A -> H B) s b s' :
  bindH m k s = HVal b s' -> exists a s1, m s = HVal a s1 /\ k a s1 = HVal b s'.
Proof.
  unfold bindH. destruct (m s) as [a s1 | |]; try discriminate. eauto.
Qed.

(** X3. All the outcomes of the reset endpoint. A request that carries
    the local identity is answered 200 without body and changes
    nothing. Any other request is answered 200 with the confirmation
    after the counters were cleared once and nothing was logged, or 500
    without body after one message was logged; when the answer is 500
    and the counters were not cleared, no request was sent to the peers. *)
Theorem CovResetHandler_result g r s s' :
  hw s = newWriter ->
  CovResetHandler g r s = HVal tt s' ->
  (Http.Get (reqHeader r) hostnameHeader = hostname g /\
   hw s' = mkWriter ∅ (Some 200) ∅ EmptyString /\
   hos s' = hos s /\ hnet s' = hnet s /\ hlog s' = hlog s) \/
  (Http.Get (reqHeader r) hostnameHeader <> hostname g /\
   ((hw s' = mkWriter ∅ (Some 200) ∅ "Coverage counters have been reset" /\
     clears (hos s') = S (clears (hos s)) /\ hlog s' = hlog s) \/
    (hw s' = mkWriter ∅ (Some 500) ∅ EmptyString /\
     (exists msg, hlog s' = hlog s ++ [msg]) /\
     (clears (hos s') = clears (hos s) -> hnet s' = hnet s)))).
Proof.
  intros Hw. unfold CovResetHandler.
  destruct (String.eqb_spec (Http.Get (reqHeader r) hostnameHeader) (hostname g)) as [Heq | Hne].
  - intros [= <-]. left. unfold with_w. cbn. rewrite Hw. auto.
  - intros H. right. split; [exact Hne |]. unfold resetAll in H.
    apply bindH_inv in H as (err & s1 & Hc & H).
    apply liftM_frame in Hc as (Hm & (Hw1 & Hl1 & _) & Hn1 & _).
    unfold Coverage.ClearCounters, bind in Hm.
    destruct (fault (hos s)) as [[f os0] |] eqn:Ef; [| discriminate].
    destruct (fault_cases _ _ _ Ef) as [_ (_ & _ & Hcl)].
    destruct f as [e |].
    + inversion Hm; subst. right.
      unfold bindH, Errorf, Writer.WriteHeader in H. inversion H; subst. cbn.
      rewrite Hw1, Hw, Hl1. split; [reflexivity |]. split; [eauto |]. intros _. exact Hn1.
    + inversion Hm as [[He Hos]]. subst err.
      apply bindH_inv in H as (err & s2 & Hloop & H).
      apply liftLoop_frame in Hloop as ((hosts & Hloop) & (Hw2 & Hl2 & _) & _).
      pose proof (resetLoop_pure g (getURL r true) (hnet s1) {[hostname g]} (hos s1)) as Hp.
      unfold resetOtherProfile in Hloop. rewrite Hloop in Hp. destruct Hp as (_ & Hos2 & _).
      assert (Hcl2 : clears (hos s2) = S (clears (hos s))).
      { rewrite Hos2, <- Hos. cbn. rewrite Hcl. reflexivity. }
      destruct err as [e |].
      * right. unfold bindH, Errorf, Writer.WriteHeader in H. inversion H; subst. cbn.
        rewrite Hw2, Hw1, Hw, Hl2, Hl1. split; [reflexivity |]. split; [eauto |].
        intros Hc. cbn in Hc. lia.
      * left. unfold Writer.Write in H. inversion H; subst. cbn.
        rewrite Hw2, Hw1, Hw, Hl2, Hl1. auto.
Qed.

Lemma CovResetHandler_result_witness :
  exists s',
    CovResetHandler demoPair demoRequest demoResetState = HVal tt s' /\
    ((Http.Get (reqHeader demoRequest) hostnameHeader = hostname demoPair /\
      hw s' = mkWriter ∅ (Some 200) ∅ EmptyString /\
      hos s' = hos demoResetState /\ hnet s' = hnet demoResetState /\
      hlog s' = hlog demoResetState) \/
     (Http.Get (reqHeader demoRequest) hostnameHeader <> hostname demoPair /\
      ((hw s' = mkWriter ∅ (Some 200) ∅ "Coverage counters have been reset" /\
        clears (hos s') = S (clears (hos demoResetState)) /\ hlog s' = hlog demoResetState) \/
       (hw s' = mkWriter ∅ (Some 500) ∅ EmptyString /\
        (exists msg, hlog s' = hlog demoResetState ++ [msg]) /\
        (clears (hos s') = clears (hos demoResetState) -> hnet s' = hnet demoResetState))))).
Proof.
  eexists. split; [vm_compute; reflexivity |].
  apply (CovResetHandler_result demoPair demoRequest demoResetState);
    [reflexivity | vm_compute; reflexivity].
Defined.

Lemma subdirs_listing (files : list (string * string)) (l : list nat) :
  subdirs (map (fun f => Os.EFile (fst f)) files ++ map Os.EDir l) = l.
Proof.
  unfold subdirs. rewrite flat_map_app.
  replace (flat_map _ (map (fun f => Os.EFile (fst f)) files)) with (@nil nat)
    by (induction files; simpl; auto).
  simpl. induction l as [| i l IH]; simpl; [reflexivity | f_equal; exact IH].
Qed.

Lemma ReadDir_cases dir os r os' :
  Os.ReadDir dir os = Some (r, os') ->
  fs os' = fs os /\ sameRuntime os os' /\
  (forall entries, r = Ok entries ->
     exists p x, dir = Some p /\ fs os !! p = Some x /\ dremoved x = false /\
                 entries = map (fun f => Os.EFile (fst f)) (dfiles x)
                           ++ map Os.EDir (Os.children (fs os) p)).
Proof.
  unfold Os.ReadDir. destruct dir as [p |].
  2:{ intros [= <- <-]. split; [reflexivity |]. split; [apply sameRuntime_refl | discriminate]. }
  unfold bind, get_fs. destruct (fs os !! p) as [x |] eqn:Ex.
  2:{ intros [= <- <-]. split; [reflexivity |]. split; [apply sameRuntime_refl | discriminate]. }
  destruct (dremoved x) eqn:Er.
  { intros [= <- <-]. split; [reflexivity |]. split; [apply sameRuntime_refl | discriminate]. }
  destruct (fault os) as [[f os0] |] eqn:Ef; [| discriminate].
  destruct (fault_cases _ _ _ Ef) as [Hfs Hrt].
  destruct f as [e |]; intros [= <- <-]; (split; [exact Hfs |]); (split; [exact Hrt |]).
  - discriminate.
  - intros entries [= <-]. exists p, x. auto.
Qed.

(** All the outcomes of [mergeProfiles]. *)
Lemma mergeProfiles_cases tmpDir s r s' :
  mergeProfiles tmpDir s = HVal r s' ->
  sameResponse s s' /\ hnet s' = hnet s /\ sameRuntime (hos s) (hos s') /\
  ((snd r <> None /\ fst r = None) \/
   (snd r = None /\
    exists p, tmpDir = Some p /\ Os.live (fs (hos s)) p = true /\
              fst r = Some (length (fs (hos s))) /\
              fs (hos s') = fs (hos s) ++ [mkDir (Some p) "merged" [] false] /\
              hran s' = hran s ++ [CovdataMerge (Os.children (fs (hos s)) p)
                                     (Some (length (fs (hos s))))])).
Proof.
  unfold mergeProfiles. intros H.
  apply bindH_inv in H as (rd & s1 & Hrd & H).
  apply liftM_frame in Hrd as (Hrd & HR1 & Hn1 & He1 & Hr1).
  destruct (ReadDir_cases _ _ _ _ Hrd) as (Hfs1 & Hrt1 & Hent).
  destruct rd as [entries | e].
  2:{ inversion H; subst. split; [exact HR1 |]. split; [exact Hn1 |]. split; [exact Hrt1 |].
      left. split; [discriminate | reflexivity]. }
  destruct (Hent entries eq_refl) as (p & x & -> & Hx & Hlive & ->).
  rewrite subdirs_listing in H.
  apply bindH_inv in H as (mk & s2 & Hmk & H).
  apply liftM_frame in Hmk as (Hmk & HR2 & Hn2 & He2 & Hr2).
  destruct (MkdirTemp_cases _ _ _ _ _ Hmk) as [Hrt2 Hcase].
  pose proof (sameResponse_trans _ _ _ HR1 HR2) as HR12.
  pose proof (sameRuntime_trans _ _ _ Hrt1 Hrt2) as Hrt12.
  destruct Hcase as [[Hnone Hfs2] | [-> Hfs2]].
  - destruct mk as [d [e |]]; cbn [fst snd] in *.
    + inversion H; subst. split; [exact HR12 |]. split; [congruence |].
      split; [exact Hrt12 |]. left. split; [discriminate | reflexivity].
    + (* the directory is not made only with an error *)
      exfalso. unfold Os.MkdirTemp in Hmk.
      destruct (Os.hasSeparator "merged"); [discriminate |].
      unfold bind, get_fs in Hmk.
      destruct (Os.live (fs (hos s1)) p); [| discriminate].
      destruct (fault (hos s1)) as [[[e |] os0] |]; try discriminate.
      unfold put_fs, ret in Hmk. inversion Hmk. congruence.
  - cbn [fst snd] in H.
    apply bindH_inv in H as (out & s3 & Hout & H).
    apply CombinedOutput_frame in Hout as (Hex & Hran & HR3 & Hos3 & Hn3).
    pose proof (sameResponse_trans _ _ _ HR12 HR3) as HR13.
    assert (Hrt13 : sameRuntime (hos s) (hos s3)) by (rewrite Hos3; exact Hrt12).
    destruct (snd out) as [e |] eqn:Eo; inversion H; subst.
    + split; [exact HR13 |]. split; [congruence |]. split; [exact Hrt13 |].
      left. split; [discriminate | reflexivity].
    + split; [exact HR13 |]. split; [congruence |]. split; [exact Hrt13 |].
      right. split; [reflexivity |]. exists p.
      split; [reflexivity |]. split; [apply live_lookup; rewrite <- Hfs1 in Hx |- *; eauto|].
      rewrite Hos3, Hfs2, Hran, Hr2, Hr1, Hfs1. cbn [fst]. auto.
Qed.

(** X4. All the outcomes of [mergeProfiles]: it writes nothing to the
    response and the log and does not use the network; with an error no
    path is returned; without error [tmpDir] is a live directory, the
    path returned is that of a new, empty directory [merged] made in
    it, and the one command run merges the sub-directories [tmpDir] had
    before into that directory. *)
Theorem mergeProfiles_outcomes tmpDir s r s' :
  mergeProfiles tmpDir s = HVal r s' ->
  sameResponse s s' /\ hnet s' = hnet s /\ sameRuntime (hos s) (hos s') /\
  ((snd r <> None /\ fst r = None) \/
   (snd r = None /\
    exists p, tmpDir = Some p /\ Os.live (fs (hos s)) p = true /\
              fst r = Some (length (fs (hos s))) /\
              fs (hos s') = fs (hos s) ++ [mkDir (Some p) "merged" [] false] /\
              hran s' = hran s ++ [CovdataMerge (Os.children (fs (hos s)) p)
                                     (Some (length (fs (hos s))))])).
Proof. apply mergeProfiles_cases. Qed.

Lemma mergeProfiles_outcomes_witness :
  exists r s',
    mergeProfiles (Some O) demoMergeState = HVal r s' /\
    sameResponse demoMergeState s' /\ hnet s' = hnet demoMergeState /\
    sameRuntime (hos demoMergeState) (hos s') /\
    ((snd r <> None /\ fst r = None) \/
     (snd r = None /\
      exists p, Some O = Some p /\ Os.live (fs (hos demoMergeState)) p = true /\
                fst r = Some (length (fs (hos demoMergeState))) /\
                fs (hos s') = fs (hos demoMergeState) ++ [mkDir (Some p) "merged" [] false] /\
                hran s' = hran demoMergeState
                          ++ [CovdataMerge (Os.children (fs (hos demoMergeState)) p)
                                (Some (length (fs (hos demoMergeState))))])).
Proof.
  eexists _, _. split; [vm_compute; reflexivity |].
  apply (mergeProfiles_outcomes (Some O) demoMergeState). vm_compute. reflexivity.
Defined.

Lemma WriteCountersDir_last d parent pat os e os1 :
  lastMade d parent pat os ->
  Coverage.WriteCountersDir (Some (length d)) os = Some (e, os1) ->
  sameRuntime os os1 /\
  ((e <> None /\ lastMade d parent pat os1) \/
   (e = None /\ exists files, fs os1 = d ++ [mkDir parent pat files false]
                              /\ In (counterFile os) files)).
Proof.
  intros [files Hfs]. unfold Coverage.WriteCountersDir, bind.
  destruct (fault os) as [[f os0] |] eqn:Ef; [| discriminate].
  destruct (fault_cases _ _ _ Ef) as [Hfs0 Hrt].
  destruct f as [e0 |].
  { intros H. inversion H; subst. split; [exact Hrt |]. left.
    split; [discriminate | exists files; congruence]. }
  rewrite Hfs0, Hfs, live_last. cbn [dremoved negb].
  intros H. inversion H; subst.
  split; [destruct Hrt as (R1 & R2 & R3); repeat split; assumption |]. right.
  split; [reflexivity |]. cbn [set_fs fs]. rewrite store_last. eexists.
  split; [reflexivity |]. cbn [dfiles Os.withFiles].
  destruct Hrt as (_ & -> & _). destruct (counterFile os) as [cn cd]. apply putFile_In.
Qed.

(** All the outcomes of [writeBinCoverage]. *)
Lemma writeBinCoverage_cases g os dir err os' :
  writeBinCoverage g os = Some ((dir, err), os') ->
  sameRuntime os os' /\
  (exists more, fs os' = fs os ++ more /\ Forall (fun x => dremoved x = false) more) /\
  ((err <> None /\ dir = None) \/
   (err = None /\ dir = Some (length (fs os)) /\
    exists files,
      fs os' = fs os ++ [mkDir None "coverage" [] false;
                         mkDir (Some (length (fs os))) (hostname g) files false] /\
      In (counterFile os) files)).
Proof.
  unfold writeBinCoverage, bind at 1.
  destruct (Os.MkdirTemp None "coverage" os) as [[r1 os1] |] eqn:E1; [| discriminate].
  destruct (MkdirTemp_cases _ _ _ _ _ E1) as [Hrt1 [[Hr Hfs1] | [-> Hfs1]]].
  { destruct r1 as [d1 [e1 |]]; cbn [fst snd] in *.
    - intros H. inversion H; subst. split; [exact Hrt1 |].
      split; [exists []; rewrite app_nil_r; split; [exact Hfs1 | constructor] |]. left. split; [discriminate | reflexivity].
    - exfalso. unfold Os.MkdirTemp in E1.
      destruct (Os.hasSeparator "coverage"); [discriminate |].
      unfold bind, get_fs in E1.
      destruct (fault os) as [[[e |] os0] |]; try discriminate.
      unfold put_fs, ret in E1. inversion E1. congruence. }
  cbn [fst snd]. unfold bind at 1.
  destruct (Os.MkdirTemp (Some (length (fs os))) (hostname g) os1) as [[r2 os2] |] eqn:E2;
    [| discriminate].
  destruct (MkdirTemp_cases _ _ _ _ _ E2) as [Hrt2 [[Hr Hfs2] | [-> Hfs2]]].
  { pose proof (sameRuntime_trans _ _ _ Hrt1 Hrt2) as Hrt12.
    destruct r2 as [d2 [e2 |]]; cbn [fst snd] in *.
    - intros H. inversion H; subst. split; [exact Hrt12 |].
      split; [eexists; split; [rewrite Hfs2, Hfs1; reflexivity | repeat constructor] |]. left. split; [discriminate | reflexivity].
    - exfalso. unfold Os.MkdirTemp in E2.
      destruct (Os.hasSeparator (hostname g)); [discriminate |].
      unfold bind, get_fs in E2.
      destruct (Os.live (fs os1) (length (fs os))); [| discriminate].
      destruct (fault os1) as [[[e |] os0] |]; try discriminate.
      unfold put_fs, ret in E2. inversion E2. congruence. }
  cbn [fst snd]. pose proof (sameRuntime_trans _ _ _ Hrt1 Hrt2) as Hrt12.
  assert (HL2 : lastMade (fs os1) (Some (length (fs os))) (hostname g) os2)
    by (eexists; exact Hfs2).
  unfold bind at 1.
  destruct (Coverage.WriteMetaDir (Some (length (fs os1))) os2) as [[e3 os3] |] eqn:E3;
    [| discriminate].
  destruct (WriteMetaDir_last _ _ _ _ _ _ HL2 E3) as [HL3 Hrt3].
  pose proof (sameRuntime_trans _ _ _ Hrt12 Hrt3) as Hrt13.
  destruct e3 as [e3 |].
  { intros H. inversion H; subst. split; [exact Hrt13 |]. destruct HL3 as [files Hf].
    split; [eexists; split; [rewrite Hf, Hfs1, <- app_assoc; reflexivity | repeat constructor] |].
    left. split; [discriminate | reflexivity]. }
  unfold bind at 1.
  destruct (Coverage.WriteCountersDir (Some (length (fs os1))) os3) as [[e4 os4] |] eqn:E4;
    [| discriminate].
  destruct (WriteCountersDir_last _ _ _ _ _ _ HL3 E4) as [Hrt4 Hcase].
  pose proof (sameRuntime_trans _ _ _ Hrt13 Hrt4) as Hrt14.
  destruct Hcase as [[He [files Hf]] | [-> (files & Hf & Hin)]].
  - destruct e4 as [e4 |]; [| congruence]. intros H. inversion H; subst.
    split; [exact Hrt14 |]. split; [eexists; split; [rewrite Hf, Hfs1, <- app_assoc; reflexivity | repeat constructor] |].
    left. split; [discriminate | reflexivity].
  - intros H. inversion H; subst. split; [exact Hrt14 |].
    split; [eexists; split; [rewrite Hf, Hfs1, <- app_assoc; reflexivity | repeat constructor] |].
    right. split; [reflexivity |]. split; [reflexivity |]. exists files.
    split; [rewrite Hf, Hfs1, <- app_assoc; reflexivity |].
    destruct Hrt13 as (_ & <- & _). exact Hin.
Qed.

(** X5. All the outcomes of [writeBinCoverage]: the runtime is
    untouched and the directories that existed are as they were; with an
    error no path is returned (directories made before the failure
    stay); without error the path returned is that of a new directory
    [coverage] that holds one new directory, named after the local
    identity, with the counter file of the runtime in it. *)
Theorem writeBinCoverage_effect g os dir err os' :
  writeBinCoverage g os = Some ((dir, err), os') ->
  sameRuntime os os' /\
  (exists more, fs os' = fs os ++ more /\ Forall (fun x => dremoved x = false) more) /\
  ((err <> None /\ dir = None) \/
   (err = None /\ dir = Some (length (fs os)) /\
    exists files,
      fs os' = fs os ++ [mkDir None "coverage" [] false;
                         mkDir (Some (length (fs os))) (hostname g) files false] /\
      In (counterFile os) files)).
Proof. apply writeBinCoverage_cases. Qed.

Lemma writeBinCoverage_effect_witness :
  exists dir err os',
    writeBinCoverage demoGlobals demoOS = Some ((dir, err), os') /\
    sameRuntime demoOS os' /\
    (exists more, fs os' = fs demoOS ++ more /\ Forall (fun x => dremoved x = false) more) /\
    ((err <> None /\ dir = None) \/
     (err = None /\ dir = Some (length (fs demoOS)) /\
      exists files,
        fs os' = fs demoOS ++ [mkDir None "coverage" [] false;
                               mkDir (Some (length (fs demoOS))) (hostname demoGlobals)
                                 files false] /\
        In (counterFile demoOS) files)).
Proof.
  eexists _, _, _. split; [vm_compute; reflexivity |].
  apply (writeBinCoverage_effect demoGlobals demoOS). vm_compute. reflexivity.
Defined.



Ltac hproj_in H := cbn [hw hos hnet hexec hran hlog hout with_w with_os wHeader wStatus wSent wBody] in H.
Ltac hproj := cbn [hw hos hnet hexec hran hlog hout with_w with_os
                   wHeader wStatus wSent wBody].

Lemma standing_frame s0 s s' : standing s0 s -> sameResponse s s' -> standing s0 s'.
Proof. intros [[H1 H2] | [H1 H2]] (K1 & K2 & _); [left | right]; split; congruence. Qed.

(** The report of a failure in [CovPercentHandler], which does not
    return. *)
Lemma standing_report s0 s (err : option error) s' :
  standing s0 s ->
  match err with
  | Some err =>
      _ <~ Writer.WriteHeader Http.StatusInternalServerError ;; Errorf (Error err)
  | None => retH tt
  end s = HVal tt s' ->
  standing s0 s' /\ hos s' = hos s /\ hnet s' = hnet s /\ hexec s' = hexec s /\
  hran s' = hran s /\ (err <> None -> hw s' = failedWriter).
Proof.
  intros Hst. destruct err as [e |].
  - unfold bindH, Writer.WriteHeader, Errorf. intros [= <-]. hproj.
    assert (Hw : Writer.sendHeader Http.StatusInternalServerError (hw s) = failedWriter).
    { destruct Hst as [[-> _] | [-> _]]; reflexivity. }
    rewrite Hw. split; [| auto]. right. split; [reflexivity |]. hproj.
    rewrite length_app. simpl. destruct Hst as [[_ ->] | [_ H]]; lia.
  - intros [= <-]. split; [exact Hst |]. repeat split; auto. congruence.
Qed.

(** X7. All the outcomes of the percent endpoint: either nothing was
    logged, and the answer is status 200 with the content type
    [text/plain] and the line of the total; or something was logged, and
    the answer is status 500 sent without any header. *)
Theorem CovPercentHandler_status ParseFloat Sprintf_2f g r s s' :
  hw s = newWriter ->
  CovPercentHandler ParseFloat Sprintf_2f g r s = HVal tt s' ->
  (hlog s' = hlog s /\ wStatus (hw s') = Some 200 /\
   wSent (hw s') = Http.Set_ ∅ "Content-Type" "text/plain" /\
   exists x, wBody (hw s') = "Total Average Coverage: " +:+ Sprintf_2f x +:+ "%" +:+ newline) \/
  ((length (hlog s) < length (hlog s'))%nat /\ wStatus (hw s') = Some 500 /\
   wSent (hw s') = ∅).
Proof.
  intros Hw H. unfold CovPercentHandler in H.
  assert (S0 : standing s s) by (left; auto).
  apply bindH_inv in H as ([tmpDir e1] & s1 & H1 & H).
  apply liftM_frame in H1 as (_ & HR1 & _). pose proof (standing_frame _ _ _ S0 HR1) as S1.
  cbn [fst snd] in H.
  apply bindH_inv in H as ([] & s2 & H2 & H).
  apply (standing_report s) in H2 as (S2 & _); [| exact S1].
  apply bindH_inv in H as (e3 & s3 & H3 & H).
  apply liftLoop_frame in H3 as (_ & HR3 & _). pose proof (standing_frame _ _ _ S2 HR3) as S3.
  apply bindH_inv in H as ([] & s4 & H4 & H).
  apply (standing_report s) in H4 as (S4 & _); [| exact S3].
  apply bindH_inv in H as ([mergedDir e5] & s5 & H5 & H).
  apply mergeProfiles_cases in H5 as (HR5 & _). pose proof (standing_frame _ _ _ S4 HR5) as S5.
  cbn [fst snd] in H.
  apply bindH_inv in H as ([] & s6 & H6 & H).
  apply (standing_report s) in H6 as (S6 & _); [| exact S5].
  apply bindH_inv in H as ([output e7] & s7 & H7 & H).
  apply CombinedOutput_frame in H7 as (_ & _ & HR7 & _).
  pose proof (standing_frame _ _ _ S6 HR7) as S7. cbn [fst snd] in H.
  assert (Hfail : forall msg s8,
             (_ <~ Errorf msg ;; Writer.WriteHeader Http.StatusInternalServerError) s7
             = HVal tt s8 ->
             (length (hlog s) < length (hlog s8))%nat /\ wStatus (hw s8) = Some 500 /\
             wSent (hw s8) = ∅).
  { intros msg s8. unfold bindH, Errorf, Writer.WriteHeader. intros [= <-]. hproj.
    rewrite length_app. simpl length.
    destruct S7 as [[-> Hl] | [-> Hl]]; (split; [| auto]); [rewrite Hl |]; lia. }
  destruct e7 as [e7 |]; [right; eapply Hfail; exact H |].
  destruct (calculateTotalCoverage ParseFloat output) as [x | e8];
    [| right; eapply Hfail; exact H].
  unfold bindH, Writer.HeaderSet, Writer.Write in H. inversion H; subst. hproj.
  destruct S7 as [[-> Hl] | [-> Hl]]; cbn.
  - left. split; [exact Hl |]. split; [reflexivity |]. split; [reflexivity |]. eauto.
  - right. auto.
Qed.

Lemma CovPercentHandler_status_witness :
  exists s',
    CovPercentHandler parseFloatDecimal demoSprintf demoPair demoRequest demoPercentState
    = HVal tt s' /\
    ((hlog s' = hlog demoPercentState /\ wStatus (hw s') = Some 200 /\
      wSent (hw s') = Http.Set_ ∅ "Content-Type" "text/plain" /\
      exists x, wBody (hw s')
                = "Total Average Coverage: " +:+ demoSprintf x +:+ "%" +:+ newline) \/
     ((length (hlog demoPercentState) < length (hlog s'))%nat /\
      wStatus (hw s') = Some 500 /\ wSent (hw s') = ∅)).
Proof.
  eexists. split; [vm_compute; reflexivity |].
  apply (CovPercentHandler_status parseFloatDecimal demoSprintf demoPair demoRequest
           demoPercentState); [reflexivity | vm_compute; reflexivity].
Defined.

Lemma ReadFile_cases i name os r os' :
  Os.ReadFile i name os = Some (r, os') -> fs os' = fs os /\ sameRuntime os os'.
Proof.
  unfold Os.ReadFile, bind, get_fs.
  destruct (fs os !! i) as [x |];
    [| intros [= <- <-]; split; [reflexivity | apply sameRuntime_refl]].
  destruct (find _ (dfiles x)) as [[n data] |];
    [| intros [= <- <-]; split; [reflexivity | apply sameRuntime_refl]].
  destruct (fault os) as [[f os0] |] eqn:Ef; [| discriminate].
  destruct (fault_cases _ _ _ Ef) as [Hfs Hrt].
  destruct f; intros [= <- <-]; auto.
Qed.

(** The loop that sends the counters reads files and writes to the
    response; it never sends status 500. *)
Lemma sendCounters_cases g i files : forall s s',
  sendCounters g i files s = HVal tt s' ->
  fs (hos s') = fs (hos s) /\ sameRuntime (hos s) (hos s') /\
  hnet s' = hnet s /\ hexec s' = hexec s /\ hran s' = hran s /\ hlog s' = hlog s /\
  (wStatus (hw s) <> Some 500 -> wStatus (hw s') <> Some 500).
Proof.
  induction files as [| [name | j] files IH]; intros s s'; cbn [sendCounters].
  - intros [= <-]. repeat split; auto.
  - destruct (negb (HasPrefix name "covcounters")); [apply IH |].
    intros H. apply bindH_inv in H as (r & s1 & Hr & H).
    apply liftM_frame in Hr as (Hr & (Hw1 & Hl1 & _) & Hn1 & He1 & Hr1).
    destruct (ReadFile_cases _ _ _ _ _ Hr) as [Hfs1 Hrt1].
    destruct r as [data | e].
    + apply bindH_inv in H as ([] & s2 & H2 & H). apply bindH_inv in H as ([] & s3 & H3 & H).
      apply bindH_inv in H as ([] & s4 & H4 & H). apply bindH_inv in H as ([] & s5 & H5 & H).
      unfold Writer.HeaderSet in H2, H3, H4. unfold Writer.Write in H5.
      inversion H2; subst s2. inversion H3; subst s3. inversion H4; subst s4.
      inversion H5; subst s5. clear H2 H3 H4 H5.
      apply IH in H as (Kfs & Krt & Kn & Ke & Kr & Kl & Kw). hproj_in Kfs. hproj_in Krt.
      hproj_in Kn. hproj_in Ke. hproj_in Kr. hproj_in Kl. hproj_in Kw.
      split; [congruence |]. split; [eapply sameRuntime_trans; eauto |].
      split; [congruence |]. split; [congruence |]. split; [congruence |].
      split; [congruence |]. intros Hs. apply Kw. rewrite Hw1.
      unfold Writer.sendHeader. cbn [wStatus].
      destruct (wStatus (hw s)) eqn:E; cbn [wStatus]; [exact Hs | discriminate].
    + apply bindH_inv in H as ([] & s2 & H2 & H). unfold Printf in H2. inversion H2; subst s2.
      apply IH in H as (Kfs & Krt & Kn & Ke & Kr & Kl & Kw). hproj_in Kfs. hproj_in Krt.
      hproj_in Kn. hproj_in Ke. hproj_in Kr. hproj_in Kl. hproj_in Kw.
      split; [congruence |]. split; [eapply sameRuntime_trans; eauto |].
      split; [congruence |]. split; [congruence |]. split; [congruence |].
      split; [congruence |]. intros Hs. apply Kw. rewrite Hw1. exact Hs.
  - apply IH.
Qed.

Lemma RemoveAll_last d x os u os' :
  fs os = d ++ [x] ->
  Os.RemoveAll (Some (length d)) os = Some (u, os') ->
  fs os' = d ++ [mkDir (dparent x) (dpattern x) [] true] /\ sameRuntime os os'.
Proof.
  intros Hfs H. unfold Os.RemoveAll, bind, get_fs in H. cbv beta iota in H.
  rewrite Hfs, snoc_lookup in H. unfold put_fs in H. inversion H; subst u os'.
  cbn [set_fs fs]. rewrite snoc_insert. split; [reflexivity | repeat split].
Qed.

(** All the outcomes of the profile endpoint past the guard. *)
Lemma serveProfile_cases g s s' :
  hw s = newWriter ->
  serveProfile g s = HVal tt s' ->
  hnet s' = hnet s /\ hexec s' = hexec s /\ hran s' = hran s /\
  sameRuntime (hos s) (hos s') /\
  (fs (hos s') = fs (hos s) \/
   fs (hos s') = fs (hos s) ++ [mkDir None "coverage" [] true]) /\
  ((hw s' = failedWriter /\ exists msg, hlog s' = hlog s ++ [msg]) \/
   (wStatus (hw s') <> Some 500 /\ hlog s' = hlog s)).
Proof.
  intros Hw H. unfold serveProfile in H.
  apply bindH_inv in H as (r1 & s1 & H1 & H).
  apply liftM_frame in H1 as (H1 & (Hw1 & Hl1 & _) & Hn1 & He1 & Hr1).
  destruct (MkdirTemp_cases _ _ _ _ _ H1) as [Hrt1 Hcase].
  assert (Hfail : forall msg s0 s9,
             hw s0 = newWriter ->
             (_ <~ Errorf msg ;; Writer.WriteHeader Http.StatusInternalServerError) s0
             = HVal tt s9 ->
             hw s9 = failedWriter /\ hlog s9 = hlog s0 ++ ["ERROR: " +:+ msg] /\
             hos s9 = hos s0 /\ hnet s9 = hnet s0 /\ hexec s9 = hexec s0 /\ hran s9 = hran s0).
  { intros msg s0 s9 Hn. unfold bindH, Errorf, Writer.WriteHeader. intros [= <-]. hproj.
    rewrite Hn. repeat split. }
  destruct Hcase as [[Hnone Hfs1] | [-> Hfs1]].
  - destruct r1 as [d1 [e1 |]]; cbn [fst snd] in *.
    + apply Hfail in H as (K1 & K2 & K3 & K4 & K5 & K6); [| congruence].
      split; [congruence |]. split; [congruence |]. split; [congruence |].
      split; [rewrite K3; exact Hrt1 |]. split; [left; congruence |].
      left. split; [exact K1 |]. rewrite K2, Hl1. eauto.
    + exfalso. unfold Os.MkdirTemp in H1.
      destruct (Os.hasSeparator "coverage"); [discriminate |].
      unfold bind, get_fs in H1.
      destruct (fault (hos s)) as [[[e |] os0] |]; try discriminate.
      unfold put_fs, ret in H1. inversion H1. congruence.
  - cbn [fst snd] in H.
    apply bindH_inv in H as ([] & s8 & Hblock & H).
    apply liftM_frame in H as (Hrm & (Hw9 & Hl9 & _) & Hn9 & He9 & Hr9).
    assert (HL1 : lastMade (fs (hos s)) None "coverage" (hos s1)) by (eexists; exact Hfs1).
    assert (Hblock' :
      hnet s8 = hnet s /\ hexec s8 = hexec s /\ hran s8 = hran s /\
      sameRuntime (hos s) (hos s8) /\ lastMade (fs (hos s)) None "coverage" (hos s8) /\
      ((hw s8 = failedWriter /\ exists msg, hlog s8 = hlog s ++ [msg]) \/
       (wStatus (hw s8) <> Some 500 /\ hlog s8 = hlog s))).
    { apply bindH_inv in Hblock as (e2 & s2 & H2 & Hblock).
      apply liftM_frame in H2 as (H2 & (Hw2 & Hl2 & _) & Hn2 & He2 & Hr2).
      destruct (WriteMetaDir_last _ _ _ _ _ _ HL1 H2) as [HL2 Hrt2].
      pose proof (sameRuntime_trans _ _ _ Hrt1 Hrt2) as Hrt12.
      destruct e2 as [e2 |].
      { apply Hfail in Hblock as (K1 & K2 & K3 & K4 & K5 & K6); [| congruence].
        split; [congruence |]. split; [congruence |]. split; [congruence |].
        split; [rewrite K3; exact Hrt12 |]. split; [rewrite K3; exact HL2 |].
        left. split; [exact K1 |]. rewrite K2, Hl2, Hl1. eauto. }
      apply bindH_inv in Hblock as (e3 & s3 & H3 & Hblock).
      apply liftM_frame in H3 as (H3 & (Hw3 & Hl3 & _) & Hn3 & He3 & Hr3).
      destruct (WriteCountersDir_last _ _ _ _ _ _ HL2 H3) as [Hrt3 Hc3].
      pose proof (sameRuntime_trans _ _ _ Hrt12 Hrt3) as Hrt13.
      assert (HL3 : lastMade (fs (hos s)) None "coverage" (hos s3)).
      { destruct Hc3 as [[_ HL] | [_ (files & Hf & _)]]; [exact HL | eexists; exact Hf]. }
      destruct e3 as [e3 |].
      { apply Hfail in Hblock as (K1 & K2 & K3 & K4 & K5 & K6); [| congruence].
        split; [congruence |]. split; [congruence |]. split; [congruence |].
        split; [rewrite K3; exact Hrt13 |]. split; [rewrite K3; exact HL3 |].
        left. split; [exact K1 |]. rewrite K2, Hl3, Hl2, Hl1. eauto. }
      apply bindH_inv in Hblock as ([] & s4 & H4 & Hblock).
      unfold Printf in H4. inversion H4; subst s4. clear H4.
      apply bindH_inv in Hblock as (r5 & s5 & H5 & Hblock).
      apply liftM_frame in H5 as (H5 & (Hw5 & Hl5 & _) & Hn5 & He5 & Hr5).
      hproj_in H5. hproj_in Hw5. hproj_in Hl5. hproj_in Hn5. hproj_in He5. hproj_in Hr5.
      destruct (ReadDir_cases _ _ _ _ H5) as (Hfs5 & Hrt5 & _).
      pose proof (sameRuntime_trans _ _ _ Hrt13 Hrt5) as Hrt15.
      assert (HL5 : lastMade (fs (hos s)) None "coverage" (hos s5)).
      { destruct HL3 as [files Hf]. exists files. congruence. }
      destruct r5 as [files | e5].
      2:{ apply Hfail in Hblock as (K1 & K2 & K3 & K4 & K5 & K6); [| congruence].
          split; [congruence |]. split; [congruence |]. split; [congruence |].
          split; [rewrite K3; exact Hrt15 |]. split; [rewrite K3; exact HL5 |].
          left. split; [exact K1 |]. rewrite K2, Hl5, Hl3, Hl2, Hl1. eauto. }
      apply sendCounters_cases in Hblock as (Kfs & Krt & Kn & Ke & Kr & Kl & Kw).
      split; [congruence |]. split; [congruence |]. split; [congruence |].
      split; [eapply sameRuntime_trans; eauto |].
      split; [destruct HL5 as [fl Hf]; exists fl; congruence |].
      right. split; [| congruence]. apply Kw. rewrite Hw5, Hw3, Hw2, Hw1, Hw. discriminate. }
    destruct Hblock' as (B1 & B2 & B3 & B4 & [files B5] & B6).
    destruct (RemoveAll_last _ _ _ _ _ B5 Hrm) as [Hfs9 Hrt9].
    split; [congruence |]. split; [congruence |]. split; [congruence |].
    split; [eapply sameRuntime_trans; eauto |]. split; [right; exact Hfs9 |].
    rewrite Hw9, Hl9. exact B6.
Qed.

(** ** The collector and the broadcaster, from start to end *)

Lemma requestIter_inside g parent url st hosts os :
  plainAnswer g url st = true -> requestIter g parent url st hosts os <> IterOutside.
Proof.
  unfold plainAnswer, requestIter. intros Hp.
  destruct (allReqTimeout <? sElapsed st)%Z; [discriminate |].
  destruct (sNewRequest st); [discriminate |].
  destruct (sDo st (pollRequest g url)) as [resp | e]; [| discriminate].
  destruct (bool_decide _); [discriminate |].
  destruct (rBody resp) as [body | e]; [| discriminate].
  destruct (write_defined body parent (Http.Get (rHeader resp) hostnameHeader)
              (Http.Get (rHeader resp) filenameHeader) Hp os) as ([e |] & os' & ->);
    discriminate.
Qed.

(** The collector stays in the directories described here when the
    responses announce plain file names. *)
Lemma requestLoop_inside g parent url script : forall hosts os,
  forallb (plainAnswer g url) script = true ->
  requestLoop g parent url script hosts os <> Outside.
Proof.
  induction script as [| st script IH]; intros hosts os Hall.
  - simpl. destruct (bool_decide _); discriminate.
  - cbn [forallb] in Hall. apply andb_true_iff in Hall as [Hst Hall].
    destruct (decide (Z.of_nat (size hosts) < numberPods g)) as [Hlt | Hge].
    2:{ rewrite requestLoop_met by lia. discriminate. }
    rewrite requestLoop_step by exact Hlt.
    pose proof (requestIter_inside g parent url st hosts os Hst) as Hi.
    destruct (requestIter g parent url st hosts os) as [h1 o1 | err h1 o1 |];
      [apply IH; exact Hall | discriminate | congruence].
Qed.

(** X8. The collector on every script whose responses announce file
    names without path separator other than [".."], whatever else the
    network and the operating system do, returning or still polling:
    it stays in the directories described here, the local identity is
    among the seen hosts, the runtime is untouched, the directories
    that existed are as they were, every new directory was made in
    [parentDir] and none is removed, and there are fewer new
    directories than seen hosts (at most one for each host other than
    the local one). The steps not used are the end of the script. *)
Theorem collector_only_adds_artifacts g parent url script os :
  forallb (plainAnswer g url) script = true ->
  requestOtherProfile g parent url script os <> Outside /\
  endsIn (requestOtherProfile g parent url script os)
    (fun _ hosts os' rest =>
       hostname g ∈ hosts /\ sameRuntime os os' /\
       (exists used, script = used ++ rest) /\
       exists more, fs os' = fs os ++ more /\
                    Forall (fun x => dparent x = parent /\ dremoved x = false) more /\
                    (length more < size hosts)%nat).
Proof.
  intros Hp. split; [apply requestLoop_inside; exact Hp |].
  unfold requestOtherProfile.
  pose proof (requestLoop_grew g parent url script {[hostname g]} os) as H.
  destruct (requestLoop g parent url script {[hostname g]} os) as [e h o rest | h o |];
    cbn [endsIn] in *; [| | exact I].
  - destruct H as [(Hsub & Hrt & more & Hfs & Hall & Hlen) Hused].
    rewrite size_singleton in Hlen.
    split; [set_solver |]. split; [exact Hrt |]. split; [exact Hused |].
    exists more. split; [exact Hfs |]. split; [exact Hall | lia].
  - destruct H as [(Hsub & Hrt & more & Hfs & Hall & Hlen) Hused].
    rewrite size_singleton in Hlen.
    split; [set_solver |]. split; [exact Hrt |]. split; [exact Hused |].
    exists more. split; [exact Hfs |]. split; [exact Hall | lia].
Qed.

Lemma collector_only_adds_artifacts_witness :
  requestOtherProfile demoGlobals None "u" demoScript demoOS <> Outside /\
  endsIn (requestOtherProfile demoGlobals None "u" demoScript demoOS)
    (fun _ hosts os' rest =>
       hostname demoGlobals ∈ hosts /\ sameRuntime demoOS os' /\
       (exists used, demoScript = used ++ rest) /\
       exists more, fs os' = fs demoOS ++ more /\
                    Forall (fun x => dparent x = None /\ dremoved x = false) more /\
                    (length more < size hosts)%nat).
Proof.
  apply (collector_only_adds_artifacts demoGlobals None "u" demoScript demoOS). reflexivity.
Defined.

Lemma requestLoop_keeps_hosts g parent url script hosts os e h' os' rest :
  requestLoop g parent url script hosts os = Returned e h' os' rest -> hosts ⊆ h'.
Proof.
  intros H. pose proof (requestLoop_grew g parent url script hosts os) as K.
  rewrite H in K. cbn [endsIn] in K. apply K.
Qed.

(** X9. The collector returns nil only when the seen hosts, the local
    identity among them, number exactly [max(1, numberPods)]. *)
Theorem collector_success_means_target g parent url script os hosts os' rest :
  requestOtherProfile g parent url script os = Returned None hosts os' rest ->
  Z.of_nat (size hosts) = Z.max 1 (numberPods g) /\ hostname g ∈ hosts.
Proof.
  unfold requestOtherProfile. intros H. split.
  - eapply requestLoop_success; [| | exact H]; rewrite size_singleton; lia.
  - apply requestLoop_keeps_hosts in H. set_solver.
Qed.

Lemma collector_success_means_target_witness :
  exists hosts os' rest,
    requestOtherProfile demoGlobals None "u" demoScript demoOS = Returned None hosts os' rest /\
    Z.of_nat (size hosts) = Z.max 1 (numberPods demoGlobals) /\ hostname demoGlobals ∈ hosts.
Proof.
  eexists _, _, _. split; [vm_compute; reflexivity |].
  refine (collector_success_means_target demoGlobals None "u" demoScript demoOS _ _ _ _).
  vm_compute. reflexivity.
Defined.

(** X10. The broadcaster, whatever the network does (on every script,
    returning or still polling): the file system and the runtime are
    exactly as they were, the local identity is among the seen hosts,
    the steps not used are the end of the script, and it returns nil
    only when the seen hosts number exactly [max(1, numberPods)]. *)
Theorem broadcaster_leaves_system g url script os :
  match resetOtherProfile g url script os with
  | Returned err hosts os' rest =>
      os' = os /\ hostname g ∈ hosts /\ (exists used, script = used ++ rest) /\
      (err = None -> Z.of_nat (size hosts) = Z.max 1 (numberPods g))
  | Blocked hosts os' => os' = os /\ hostname g ∈ hosts
  | Outside => False
  end.
Proof.
  unfold resetOtherProfile.
  pose proof (resetLoop_pure g url script {[hostname g]} os) as H.
  destruct (resetLoop g url script {[hostname g]} os) as [e h o rest | h o |] eqn:E;
    [| | exact H].
  - destruct H as (Hsub & -> & Hused). split; [reflexivity |]. split; [set_solver |].
    split; [exact Hused |]. intros ->.
    eapply resetLoop_success; [| | exact E]; rewrite size_singleton; lia.
  - destruct H as (Hsub & ->). split; [reflexivity | set_solver].
Qed.

(** X11. An identity with a path separator cannot name a directory:
    [write] drops the error of [os.MkdirTemp], hands the empty path to
    [coverage.WriteMetaDir] and reports the failure of that call as an
    error of writing the meta-data; no directory is made. *)
Theorem write_separator_in_identity p parent dirName fileName os :
  Os.hasSeparator dirName = true ->
  exists e os',
    write p parent dirName fileName os
    = Some (Some (Wrap "error writing meta coverage data: " e), os') /\
    fs os' = fs os /\
    (faults os = [] -> e = Coverage.ErrInaccessible /\ os' = os).
Proof.
  intros Hs. unfold write, bind at 1, Os.MkdirTemp. rewrite Hs. unfold ret at 1.
  cbn [fst]. unfold bind at 1, Coverage.WriteMetaDir, bind at 1, fault.
  destruct os as [d fl mf cf cl]. cbn [faults fs metaFile counterFile clears].
  destruct fl as [| [e |] fl]; cbn.
  - eexists _, _. split; [reflexivity |]. split; [reflexivity | auto].
  - eexists _, _. split; [reflexivity |]. split; [reflexivity | discriminate].
  - eexists _, _. split; [reflexivity |]. split; [reflexivity | discriminate].
Qed.

Lemma write_separator_in_identity_witness :
  exists e os',
    write "B" None "rack/pod-b" "covcounters.b" demoOS
    = Some (Some (Wrap "error writing meta coverage data: " e), os') /\
    fs os' = fs demoOS /\
    (faults demoOS = [] -> e = Coverage.ErrInaccessible /\ os' = demoOS).
Proof.
  apply (write_separator_in_identity "B" None "rack/pod-b" "covcounters.b" demoOS).
  reflexivity.
Defined.

(** ** The generated identity as a directory name *)

Lemma digits_no_separator s :
  forallb_string isDigit s = true -> Os.hasSeparator s = false.
Proof.
  unfold Os.hasSeparator. induction s as [| c s IH]; [reflexivity |].
  cbn [forallb_string existsb_string]. intros H. apply andb_true_iff in H as [Hc Hs].
  rewrite (IH Hs), orb_false_r.
  destruct (Ascii.eqb_spec "/" c) as [<- |]; [discriminate Hc | reflexivity].
Qed.

Lemma integer_no_separator s : isInteger s = true -> Os.hasSeparator s = false.
Proof.
  destruct s as [| c s]; [discriminate |]. unfold isInteger.
  destruct (Ascii.eqb_spec c "-") as [-> | Hc].
  - destruct s as [| c' s']; [discriminate |]. intros H.
    apply digits_no_separator in H. unfold Os.hasSeparator in *.
    cbn [existsb_string] in *. exact H.
  - intros H. assert (K : forallb_string isDigit (String c s) = true).
    { destruct c as [[] [] [] [] [] [] [] []]; try exact H; destruct s; try exact H;
        exfalso; apply Hc; reflexivity. }
    apply digits_no_separator. exact K.
Qed.

Lemma hasSeparator_app s t :
  Os.hasSeparator (s +:+ t) = Os.hasSeparator s || Os.hasSeparator t.
Proof.
  unfold Os.hasSeparator. induction s as [| c s IH]; [reflexivity |].
  simpl. rewrite IH. apply orb_assoc.
Qed.

(** X12. The identity generated when [os.Hostname] fails is not empty
    and holds no path separator, so that it names a directory: on a
    system that reports no failure [writeBinCoverage] succeeds with it. *)
Theorem generated_identity_names_a_directory e rnd os :
  faults os = [] -> runtimeNames os = true ->
  Os.hasSeparator (hostname (init (Err e) rnd)) = false /\
  hostname (init (Err e) rnd) <> EmptyString /\
  writeBinCoverage (init (Err e) rnd) os
  = Some ((Some (length (fs os)), None),
          set_fs os (fs os ++ [mkDir None "coverage" [] false;
                               mkDir (Some (length (fs os))) (hostname (init (Err e) rnd))
                                 [counterFile os; metaFile os] false])).
Proof.
  intros Hf Hn.
  assert (Hs : Os.hasSeparator (hostname (init (Err e) rnd)) = false).
  { cbn [init hostname hostname_init]. rewrite hasSeparator_app.
    rewrite (integer_no_separator _ (Sprintf_d_integer rnd)). reflexivity. }
  split; [exact Hs |]. split; [discriminate |].
  apply writeBinCoverage_ok; assumption.
Qed.

Lemma generated_identity_names_a_directory_witness :
  Os.hasSeparator (hostname (init (Err (New "hostname: not set")) 42)) = false /\
  hostname (init (Err (New "hostname: not set")) 42) <> EmptyString /\
  writeBinCoverage (init (Err (New "hostname: not set")) 42) demoOS
  = Some ((Some (length (fs demoOS)), None),
          set_fs demoOS
            (fs demoOS ++ [mkDir None "coverage" [] false;
                           mkDir (Some (length (fs demoOS)))
                             (hostname (init (Err (New "hostname: not set")) 42))
                             [counterFile demoOS; metaFile demoOS] false])).
Proof.
  apply (generated_identity_names_a_directory (New "hostname: not set") 42 demoOS); reflexivity.
Defined.

(** ** What the endpoints leave behind *)

Lemma mergeProfiles_fs tmpDir s r s' :
  mergeProfiles tmpDir s = HVal r s' ->
  exists more, fs (hos s') = fs (hos s) ++ more /\
               Forall (fun x => dremoved x = false) more /\
               (snd r = None -> length more = 1%nat).
Proof.
  intros H. pose proof (mergeProfiles_cases _ _ _ _ H) as (_ & _ & _ & Hc).
  destruct Hc as [[He _] | (Hn & p & _ & _ & _ & Hfs & _)].
  2:{ eexists. split; [exact Hfs |]. split; [repeat constructor | reflexivity]. }
  unfold mergeProfiles in H.
  apply bindH_inv in H as (rd & s1 & Hrd & H).
  apply liftM_frame in Hrd as (Hrd & _).
  destruct (ReadDir_cases _ _ _ _ Hrd) as (Hfs1 & _ & _).
  destruct rd as [entries | e].
  2:{ inversion H; subst. exists []. rewrite app_nil_r.
      split; [exact Hfs1 |]. split; [constructor | discriminate]. }
  apply bindH_inv in H as (mk & s2 & Hmk & H).
  apply liftM_frame in Hmk as (Hmk & _).
  destruct (MkdirTemp_cases _ _ _ _ _ Hmk) as [_ Hcase].
  assert (Hfs2 : exists more, fs (hos s2) = fs (hos s) ++ more /\
                              Forall (fun x => dremoved x = false) more).
  { destruct Hcase as [[_ Hfs2] | [_ Hfs2]]; rewrite Hfs2, Hfs1.
    - exists []. rewrite app_nil_r. split; [reflexivity | constructor].
    - eexists. split; [reflexivity | repeat constructor]. }
  destruct Hfs2 as (more & Hfs2 & Hall). exists more.
  destruct (snd mk) as [e |].
  { inversion H; subst. split; [exact Hfs2 |]. split; [exact Hall | congruence]. }
  apply bindH_inv in H as (out & s3 & Hout & H).
  apply CombinedOutput_frame in Hout as (_ & _ & _ & Hos3 & _).
  destruct (snd out) as [e |]; inversion H; subst; rewrite Hos3;
    (split; [exact Hfs2 |]); (split; [exact Hall | congruence]).
Qed.

Lemma report_frame s (err : option error) s' :
  match err with
  | Some err =>
      _ <~ Writer.WriteHeader Http.StatusInternalServerError ;; Errorf (Error err)
  | None => retH tt
  end s = HVal tt s' ->
  hos s' = hos s /\ hnet s' = hnet s /\
  (hw s = failedWriter -> hw s' = failedWriter) /\
  (err <> None -> hw s = newWriter -> hw s' = failedWriter) /\
  (err = None -> hw s' = hw s).
Proof.
  destruct err as [e |].
  - unfold bindH, Writer.WriteHeader, Errorf. intros [= <-]. hproj.
    split; [reflexivity |]. split; [reflexivity |].
    split; [intros ->; reflexivity |]. split; [intros _ ->; reflexivity | discriminate].
  - intros [= <-]. repeat split; auto. congruence.
Qed.

(** What the percent endpoint leaves of the file system when it
    returns. *)
Lemma CovPercentHandler_keeps ParseFloat Sprintf_2f g r s s' :
  hw s = newWriter ->
  CovPercentHandler ParseFloat Sprintf_2f g r s = HVal tt s' ->
  sameRuntime (hos s) (hos s') /\
  exists more, fs (hos s') = fs (hos s) ++ more /\
               Forall (fun x => dremoved x = false) more /\
               (wStatus (hw s') = Some 200 -> (3 <= length more)%nat).
Proof.
  intros Hw H. unfold CovPercentHandler in H.
  apply bindH_inv in H as ([tmpDir e1] & s1 & H1 & H).
  apply liftM_frame in H1 as (H1 & (Hw1 & _) & _).
  apply writeBinCoverage_cases in H1 as (Hrt1 & (m1 & Hfs1 & Hall1) & Hc1).
  cbn [fst snd] in H.
  apply bindH_inv in H as ([] & s2 & H2 & H).
  apply report_frame in H2 as (Hos2 & _ & Hk2 & Hf2 & Hn2).
  apply bindH_inv in H as (e3 & s3 & H3 & H).
  apply liftLoop_frame in H3 as ((hosts & H3) & (Hw3 & _) & _).
  pose proof (requestLoop_grew g tmpDir (getURL r false) (hnet s2) {[hostname g]} (hos s2)) as G.
  unfold requestOtherProfile in H3. rewrite H3 in G. cbn [endsIn] in G.
  destruct G as [(_ & Hrt3 & m3 & Hfs3 & Hall3 & _) _].
  apply bindH_inv in H as ([] & s4 & H4 & H).
  apply report_frame in H4 as (Hos4 & _ & Hk4 & Hf4 & Hn4).
  apply bindH_inv in H as ([mergedDir e5] & s5 & H5 & H).
  pose proof (mergeProfiles_fs _ _ _ _ H5) as (m5 & Hfs5 & Hall5 & Hlen5).
  apply mergeProfiles_cases in H5 as ((Hw5 & _) & _ & Hrt5 & _).
  cbn [fst snd] in H, Hlen5.
  apply bindH_inv in H as ([] & s6 & H6 & H).
  apply report_frame in H6 as (Hos6 & _ & Hk6 & Hf6 & Hn6).
  apply bindH_inv in H as ([output e7] & s7 & H7 & H).
  apply CombinedOutput_frame in H7 as (_ & _ & (Hw7 & _) & Hos7 & _).
  cbn [fst snd] in H.
  assert (Hend : hos s' = hos s7 /\ (hw s7 = failedWriter -> wStatus (hw s') = Some 500)).
  { destruct e7 as [e7 |]; [| destruct (calculateTotalCoverage ParseFloat output) as [x | e8]];
      unfold bindH, Errorf, Writer.WriteHeader, Writer.HeaderSet, Writer.Write in H;
      inversion H; subst; hproj; (split; [reflexivity |]); intros ->; reflexivity. }
  destruct Hend as [Hos8 Hend].
  split.
  { rewrite Hos8, Hos7, Hos6. eapply sameRuntime_trans; [| exact Hrt5].
    rewrite Hos4. eapply sameRuntime_trans; [| exact Hrt3]. rewrite Hos2. exact Hrt1. }
  exists (m1 ++ m3 ++ m5).
  split.
  { rewrite Hos8, Hos7, Hos6, Hfs5, Hos4, Hfs3, Hos2, Hfs1. rewrite <- !app_assoc. reflexivity. }
  split; [repeat apply Forall_app_2; try assumption;
          eapply Forall_impl; [exact Hall3 | intros x [_ Hx]; exact Hx] |].
  intros H200.
  assert (N7 : hw s7 <> failedWriter) by (intros K; rewrite (Hend K) in H200; discriminate).
  assert (N6 : hw s6 <> failedWriter) by congruence.
  assert (N5 : hw s5 <> failedWriter) by (intros K; apply N6, Hk6, K).
  assert (N4 : hw s4 <> failedWriter) by congruence.
  assert (N3 : hw s3 <> failedWriter) by (intros K; apply N4, Hk4, K).
  assert (N2 : hw s2 <> failedWriter) by congruence.
  assert (E1 : e1 = None).
  { destruct e1 as [e |]; [| reflexivity]. exfalso. apply N2, Hf2; [discriminate | congruence]. }
  assert (E5 : e5 = None).
  { destruct e5 as [e |]; [| reflexivity]. exfalso. apply N6, Hf6; [discriminate |].
    rewrite Hw5. destruct e3 as [e' |].
    - exfalso. apply N4, Hf4; [discriminate |]. rewrite Hw3, (Hn2 E1). congruence.
    - rewrite (Hn4 eq_refl), Hw3, (Hn2 E1). congruence. }
  destruct Hc1 as [[He _] | (_ & _ & files & Hfs1' & _)]; [congruence |].
  rewrite Hfs1 in Hfs1'. apply app_inv_head in Hfs1'. subst m1.
  rewrite !length_app, (Hlen5 E5). simpl. lia.
Qed.

Lemma bindH_outside {A B} (m : H A) (k : A -> H B) s :
  bindH m k s = HOutside ->
  m s = HOutside \/ exists a s1, m s = HVal a s1 /\ k a s1 = HOutside.
Proof. unfold bindH. destruct (m s) as [a s1 | |]; [eauto | discriminate | auto]. Qed.

Lemma liftM_inside {A} (m : M A) s : defined m -> liftM m s <> HOutside.
Proof.
  intros Hm. unfold liftM. destruct (Hm (hos s)) as (a & os' & ->). discriminate.
Qed.

Lemma writeBinCoverage_defined g : defined (writeBinCoverage g).
Proof.
  unfold writeBinCoverage.
  apply defined_bind; [apply MkdirTemp_defined |]. intros r1.
  destruct (snd r1); [apply defined_ret |]. cbv zeta.
  apply defined_bind; [apply MkdirTemp_defined |]. intros r2.
  destruct (snd r2); [apply defined_ret |]. cbv zeta.
  apply defined_bind; [apply WriteMetaDir_defined |]. intros [e |]; [apply defined_ret |].
  apply defined_bind; [apply WriteCountersDir_defined |]. intros [e |]; apply defined_ret.
Qed.

Lemma mergeProfiles_inside tmpDir s : mergeProfiles tmpDir s <> HOutside.
Proof.
  unfold mergeProfiles. intros H.
  apply bindH_outside in H as [H | (rd & s1 & _ & H)];
    [exact (liftM_inside _ _ (ReadDir_defined tmpDir) H) |].
  destruct rd as [entries | e]; [| discriminate].
  apply bindH_outside in H as [H | (mk & s2 & _ & H)];
    [exact (liftM_inside _ _ (MkdirTemp_defined _ _) H) |].
  destruct (snd mk); [discriminate |].
  apply bindH_outside in H as [H | (out & s3 & _ & H)].
  - unfold CombinedOutput in H. destruct (hexec s2); discriminate.
  - destruct (snd out); discriminate.
Qed.

(** The percent endpoint stays in the directories described here when
    the responses announce plain file names. *)
Lemma CovPercentHandler_inside ParseFloat Sprintf_2f g r s :
  forallb (plainAnswer g (getURL r false)) (hnet s) = true ->
  CovPercentHandler ParseFloat Sprintf_2f g r s <> HOutside.
Proof.
  intros Hp H. unfold CovPercentHandler in H.
  apply bindH_outside in H as [H | ([tmpDir e1] & s1 & H1 & H)];
    [exact (liftM_inside _ _ (writeBinCoverage_defined g) H) |].
  apply liftM_frame in H1 as (_ & _ & Hn1 & _). cbn [fst snd] in H.
  apply bindH_outside in H as [H | ([] & s2 & H2 & H)].
  { destruct e1; discriminate. }
  apply report_frame in H2 as (_ & Hn2 & _).
  apply bindH_outside in H as [H | (e3 & s3 & _ & H)].
  { unfold liftLoop in H.
    pose proof (requestLoop_inside g tmpDir (getURL r false) (hnet s2) {[hostname g]} (hos s2))
      as Hin.
    rewrite Hn2, Hn1 in Hin at 1. specialize (Hin Hp). unfold requestOtherProfile in H.
    destruct (requestLoop g tmpDir (getURL r false) (hnet s2) {[hostname g]} (hos s2));
      [discriminate | discriminate | congruence]. }
  apply bindH_outside in H as [H | ([] & s4 & _ & H)].
  { destruct e3; discriminate. }
  apply bindH_outside in H as [H | ([mergedDir e5] & s5 & _ & H)];
    [exact (mergeProfiles_inside _ _ H) |].
  cbn [fst snd] in H.
  apply bindH_outside in H as [H | ([] & s6 & _ & H)].
  { destruct e5; discriminate. }
  apply bindH_outside in H as [H | ([output e7] & s7 & _ & H)].
  { unfold CombinedOutput in H. destruct (hexec s6); discriminate. }
  cbn [fst snd] in H.
  destruct e7 as [e7 |]; [discriminate |].
  destruct (calculateTotalCoverage ParseFloat output); discriminate.
Qed.

(** X13. The percent endpoint removes nothing. On every script whose
    responses announce file names without path separator other than
    [".."] it stays in the directories described here, and when it
    returns, the runtime is untouched, the directories that existed are
    as they were, and the directories it made are all still there; with
    status 200 they are three or more (the scratch directory, the
    directory of the local data and the merged directory). *)
Theorem CovPercentHandler_removes_nothing ParseFloat Sprintf_2f g r s :
  hw s = newWriter ->
  forallb (plainAnswer g (getURL r false)) (hnet s) = true ->
  CovPercentHandler ParseFloat Sprintf_2f g r s <> HOutside /\
  forall s',
    CovPercentHandler ParseFloat Sprintf_2f g r s = HVal tt s' ->
    sameRuntime (hos s) (hos s') /\
    exists more, fs (hos s') = fs (hos s) ++ more /\
                 Forall (fun x => dremoved x = false) more /\
                 (wStatus (hw s') = Some 200 -> (3 <= length more)%nat).
Proof.
  intros Hw Hp. split; [apply CovPercentHandler_inside; exact Hp |].
  intros s'. apply CovPercentHandler_keeps. exact Hw.
Qed.

Lemma CovPercentHandler_removes_nothing_witness :
  exists s',
    CovPercentHandler parseFloatDecimal demoSprintf demoPair demoRequest demoCollectState
    = HVal tt s' /\
    wStatus (hw s') = Some 200 /\
    CovPercentHandler parseFloatDecimal demoSprintf demoPair demoRequest demoCollectState
    <> HOutside /\
    sameRuntime (hos demoCollectState) (hos s') /\
    exists more, fs (hos s') = fs (hos demoCollectState) ++ more /\
                 Forall (fun x => dremoved x = false) more /\
                 (wStatus (hw s') = Some 200 -> (3 <= length more)%nat).
Proof.
  eexists. split; [vm_compute; reflexivity |]. split; [vm_compute; reflexivity |].
  destruct (CovPercentHandler_removes_nothing parseFloatDecimal demoSprintf demoPair
              demoRequest demoCollectState eq_refl eq_refl) as [Hin Hall].
  split; [exact Hin |]. apply Hall. vm_compute. reflexivity.
Defined.

(** X14. All the outcomes of the profile endpoint: it does not use the
    network, runs no command and leaves the runtime untouched; of the
    file system it leaves what was there and at most the scratch
    directory it made, emptied and removed; the answer is status 500
    without header and body after exactly one logged message, or
    another status with nothing logged. *)
Theorem CovBinProfileHandler_cleans_up g r s s' :
  hw s = newWriter ->
  CovBinProfileHandler g r s = HVal tt s' ->
  hnet s' = hnet s /\ hexec s' = hexec s /\ hran s' = hran s /\
  sameRuntime (hos s) (hos s') /\
  (fs (hos s') = fs (hos s) \/
   fs (hos s') = fs (hos s) ++ [mkDir None "coverage" [] true]) /\
  ((hw s' = failedWriter /\ exists msg, hlog s' = hlog s ++ [msg]) \/
   (wStatus (hw s') <> Some 500 /\ hlog s' = hlog s)).
Proof.
  intros Hw. unfold CovBinProfileHandler.
  destruct (String.eqb _ _); [| apply serveProfile_cases; exact Hw].
  unfold Writer.WriteHeader. intros [= <-]. hproj. rewrite Hw.
  split; [reflexivity |]. split; [reflexivity |]. split; [reflexivity |].
  split; [apply sameRuntime_refl |]. split; [left; reflexivity |].
  right. split; [discriminate | reflexivity].
Qed.

Lemma CovBinProfileHandler_cleans_up_witness :
  exists s',
    CovBinProfileHandler demoGlobals demoRequest demoHState = HVal tt s' /\
    hnet s' = hnet demoHState /\ hexec s' = hexec demoHState /\ hran s' = hran demoHState /\
    sameRuntime (hos demoHState) (hos s') /\
    (fs (hos s') = fs (hos demoHState) \/
     fs (hos s') = fs (hos demoHState) ++ [mkDir None "coverage" [] true]) /\
    ((hw s' = failedWriter /\ exists msg, hlog s' = hlog demoHState ++ [msg]) \/
     (wStatus (hw s') <> Some 500 /\ hlog s' = hlog demoHState)).
Proof.
  eexists. split; [vm_compute; reflexivity |].
  apply (CovBinProfileHandler_cleans_up demoGlobals demoRequest demoHState);
    [reflexivity | vm_compute; reflexivity].
Defined.

(** ** The aggregator and the buffer of the scanner *)

Lemma scan_from_short s : forall cur n,
  (n + N.of_nat (String.length s) < MaxScanTokenSize)%N -> snd (scan_from cur n s) = None.
Proof.
  induction s as [| c s IH]; intros cur n Hn; cbn [scan_from].
  - destruct cur; [reflexivity |].
    destruct (N.leb_spec MaxScanTokenSize n) as [Hle | _]; [| reflexivity].
    cbn [String.length] in Hn. lia.
  - cbn [String.length] in Hn. rewrite Nat2N.inj_succ in Hn.
    destruct (Ascii.eqb c "010").
    + destruct (N.leb_spec MaxScanTokenSize n) as [Hle | _]; [lia |].
      specialize (IH EmptyString 0%N).
      destruct (scan_from EmptyString 0 s) as [ls e]. cbn [snd] in *. apply IH. lia.
    + apply IH. lia.
Qed.

Lemma scanLoop_error ParseFloat lines : forall total count e,
  scanLoop ParseFloat lines total count = Err e ->
  exists e', e = Wrap "failed to parse coverage value: " e'.
Proof.
  induction lines as [| line lines IH]; intros total count e; cbn [scanLoop]; [discriminate |].
  destruct (Contains line "coverage:"); [| apply IH].
  destruct (negb _); [apply IH |].
  destruct (ParseFloat _) as [x | e0]; [apply IH |].
  intros [= <-]. eauto.
Qed.

(** X15. A report shorter than the buffer of the scanner (65536 bytes)
    is read to its end: the aggregator decides on the lines alone, and
    never reports an error of reading the output. *)
Theorem short_report_is_read_whole ParseFloat output :
  (N.of_nat (String.length output) < MaxScanTokenSize)%N ->
  calculateTotalCoverage ParseFloat output
  = match scanLoop ParseFloat (fst (ScanLines output)) 0%float 0 with
    | Err e => Err e
    | Ok (total, count) =>
        if (count =? 0)%Z then Err ErrNoCoverageData
        else Ok (total / float64_of_int count)%float
    end /\
  forall e, calculateTotalCoverage ParseFloat output <> Err (Wrap "error reading output: " e).
Proof.
  intros Hn. unfold calculateTotalCoverage.
  pose proof (scan_from_short output EmptyString 0%N Hn) as Hs. fold (ScanLines output) in Hs.
  destruct (ScanLines output) as [lines scanErr]. cbn [fst snd] in *. subst scanErr.
  split; [reflexivity |]. intros e.
  destruct (scanLoop ParseFloat lines 0%float 0) as [[total count] | e0] eqn:E.
  - destruct (count =? 0)%Z; discriminate.
  - apply scanLoop_error in E as [e' ->]. discriminate.
Qed.

Lemma short_report_is_read_whole_witness :
  calculateTotalCoverage parseFloatDecimal demoReport
  = match scanLoop parseFloatDecimal (fst (ScanLines demoReport)) 0%float 0 with
    | Err e => Err e
    | Ok (total, count) =>
        if (count =? 0)%Z then Err ErrNoCoverageData
        else Ok (total / float64_of_int count)%float
    end /\
  forall e, calculateTotalCoverage parseFloatDecimal demoReport
            <> Err (Wrap "error reading output: " e).
Proof.
  apply (short_report_is_read_whole parseFloatDecimal demoReport). vm_compute. reflexivity.
Defined.

Lemma append_cons c s t : String c s +:+ t = String c (s +:+ t).
Proof. reflexivity. Qed.

Lemma append_nil t : EmptyString +:+ t = t.
Proof. reflexivity. Qed.

Lemma scan_from_full post : forall cur n,
  (MaxScanTokenSize <= n)%N -> cur <> EmptyString ->
  snd (scan_from cur n post) = Some ErrTooLong.
Proof.
  induction post as [| c post IH]; intros cur n Hn Hc; cbn [scan_from].
  - destruct cur; [congruence |].
    destruct (N.leb_spec MaxScanTokenSize n) as [_ | Hlt]; [reflexivity | lia].
  - destruct (Ascii.eqb c "010").
    + destruct (N.leb_spec MaxScanTokenSize n) as [_ | Hlt]; [reflexivity | lia].
    + apply IH; [lia | discriminate].
Qed.

Lemma scan_from_long long post : forall cur n,
  oneLine long = true ->
  (MaxScanTokenSize <= n + N.of_nat (String.length long))%N ->
  (long = EmptyString -> cur <> EmptyString) ->
  snd (scan_from cur n (long +:+ post)) = Some ErrTooLong.
Proof.
  induction long as [| c long IH]; intros cur n Hl Hn Hc.
  - cbn [String.length] in Hn. apply scan_from_full; [lia | auto].
  - cbn [String.length] in Hn. rewrite Nat2N.inj_succ in Hn.
    unfold oneLine in Hl. cbn [forallb_string] in Hl. apply andb_true_iff in Hl as [Hc1 Hl].
    apply negb_true_iff in Hc1. rewrite append_cons. cbn [scan_from]. rewrite Hc1.
    apply IH; [exact Hl | lia | discriminate].
Qed.

Lemma scan_from_later pre long post : forall cur n,
  oneLine long = true ->
  (MaxScanTokenSize <= N.of_nat (String.length long))%N ->
  snd (scan_from cur n (pre +:+ long +:+ post)) = Some ErrTooLong.
Proof.
  induction pre as [| c pre IH]; intros cur n Hl Hn.
  - rewrite append_nil. apply scan_from_long; [exact Hl | lia |].
    intros ->. cbn [String.length] in Hn. unfold MaxScanTokenSize in Hn. lia.
  - rewrite append_cons. cbn [scan_from]. destruct (Ascii.eqb c "010").
    + destruct (MaxScanTokenSize <=? n)%N; [reflexivity |].
      specialize (IH EmptyString 0%N Hl Hn).
      destruct (scan_from EmptyString 0 (pre +:+ long +:+ post)) as [ls e]. exact IH.
    + apply IH; assumption.
Qed.

Lemma fill_succ n : fill (N.succ n) = String "x" (fill n).
Proof. unfold fill. apply N.iter_succ. Qed.

Lemma fill_length n : N.of_nat (String.length (fill n)) = n.
Proof.
  induction n as [| n IH] using N.peano_ind; [reflexivity |].
  rewrite fill_succ. cbn [String.length]. rewrite Nat2N.inj_succ, IH. reflexivity.
Qed.

Lemma fill_oneLine n : oneLine (fill n) = true.
Proof.
  induction n as [| n IH] using N.peano_ind; [reflexivity |].
  rewrite fill_succ. unfold oneLine in *. cbn [forallb_string]. rewrite IH. reflexivity.
Qed.

(** X16. A report with 65536 bytes or more without a line feed gives an
    error and never a percentage, whatever stands before and after:
    the error of the scanner, unless a line before it does not parse. *)
Theorem long_line_is_an_error ParseFloat pre long post :
  oneLine long = true ->
  (MaxScanTokenSize <= N.of_nat (String.length long))%N ->
  calculateTotalCoverage ParseFloat (pre +:+ long +:+ post)
  = Err (Wrap "error reading output: " ErrTooLong) \/
  exists e, calculateTotalCoverage ParseFloat (pre +:+ long +:+ post)
            = Err (Wrap "failed to parse coverage value: " e).
Proof.
  intros Hl Hn. unfold calculateTotalCoverage.
  pose proof (scan_from_later pre long post EmptyString 0%N Hl Hn) as Hs.
  fold (ScanLines (pre +:+ long +:+ post)) in Hs.
  destruct (ScanLines (pre +:+ long +:+ post)) as [lines scanErr]. cbn [snd] in Hs. subst scanErr.
  destruct (scanLoop ParseFloat lines 0%float 0) as [[total count] | e0] eqn:E.
  - left. reflexivity.
  - right. apply scanLoop_error in E as [e' ->]. eauto.
Qed.

Lemma long_line_is_an_error_witness :
  calculateTotalCoverage parseFloatDecimal (demoReport +:+ fill 65536 +:+ newline)
  = Err (Wrap "error reading output: " ErrTooLong) \/
  exists e, calculateTotalCoverage parseFloatDecimal (demoReport +:+ fill 65536 +:+ newline)
            = Err (Wrap "failed to parse coverage value: " e).
Proof.
  apply (long_line_is_an_error parseFloatDecimal demoReport (fill 65536) newline).
  - apply fill_oneLine.
  - rewrite fill_length. unfold MaxScanTokenSize. lia.
Defined.

(** ** A pod that serves and a pod that collects *)

(** X17. The two ends fit: what the profile endpoint of a pod answers
    to the request of a collector on another pod (on a system that
    reports no failure, with an identity and a counter file name that
    hold no path separator) makes the collector go on with the identity
    of the pod among its hosts and one new directory in its scratch
    directory, named after the pod, that holds the counter file of the
    pod and the meta-data file of the collector. *)
Theorem peer_profile_is_collected g gp sp url st hosts os p :
  faults (hos sp) = [] -> runtimeNames (hos sp) = true ->
  Os.hasSeparator (hostname gp) = false ->
  Os.hasSeparator (fst (counterFile (hos sp))) = false ->
  hostname gp <> hostname g ->
  Base p os ->
  (sElapsed st <=? allReqTimeout)%Z = true -> sNewRequest st = None ->
  sDo st (pollRequest g url) = peerResponse gp sp (pollRequest g url) ->
  hostname gp ∉ hosts ->
  requestIter g (Some p) url st hosts os
  = Continue ({[hostname gp]} ∪ hosts)
      (set_fs os (fs os ++ [mkDir (Some p) (hostname gp)
                              [counterFile (hos sp); metaFile os] false])).
Proof.
  intros Hf Hn Hs1 Hs2 Hne HB Ht Hq Hdo Hnew.
  assert (Hc : HasPrefix (fst (counterFile (hos sp))) "covcounters" = true).
  { unfold runtimeNames in Hn. apply andb_true_iff in Hn as [_ Hn]. exact Hn. }
  destruct (serveProfile_ok gp (with_w sp newWriter) Hf Hn eq_refl) as (s' & Hrun & Hd & _).
  assert (Hresp : peerResponse gp sp (pollRequest g url)
                  = Ok (mkResponse (profileHeader gp (hos sp))
                          (Ok (snd (counterFile (hos sp)))))).
  { unfold peerResponse, selfResponse.
    destruct (guard_miss gp (pollRequest g url)) as [_ ->].
    - rewrite pollRequest_identity. congruence.
    - rewrite Hrun, Hd. reflexivity. }
  rewrite Hresp in Hdo.
  destruct (profile_response_storable gp (hos sp) (snd (counterFile (hos sp))) Hs1 Hc Hs2)
    as (Hid & Han & Hst).
  assert (Hserved : served g url st = true).
  { unfold served, answered. rewrite Ht, Hq, Hdo, Hst. reflexivity. }
  destruct (requestIter_served g p url st hosts os _ HB Hserved Hdo)
    as [[Hin _] | (_ & body & Hb & ->)].
  - rewrite Hid in Hin. contradiction.
  - cbn [rBody] in Hb. injection Hb as <-. unfold stored. rewrite Hid, Han.
    destruct (counterFile (hos sp)) as [cn cd]. reflexivity.
Qed.

Lemma peer_profile_is_collected_witness :
  requestIter demoGlobals (Some O) "u" demoAnswer {[hostname demoGlobals]} demoScratch
  = Continue ({[hostname demoPeer]} ∪ {[hostname demoGlobals]})
      (set_fs demoScratch
         (fs demoScratch ++ [mkDir (Some O) (hostname demoPeer)
                               [counterFile (hos demoPeerState); metaFile demoScratch] false])).
Proof.
  apply (peer_profile_is_collected demoGlobals demoPeer demoPeerState "u" demoAnswer
           {[hostname demoGlobals]} demoScratch O).
  - reflexivity.
  - reflexivity.
  - reflexivity.
  - reflexivity.
  - discriminate.
  - repeat split; reflexivity.
  - reflexivity.
  - reflexivity.
  - reflexivity.
  - vm_compute. discriminate.
Defined.

(** ** A pod that is alone *)

Lemma bindH_ret {A B} (a : A) (k : A -> H B) s : bindH (retH a) k s = k a s.
Proof. reflexivity. Qed.

Lemma liftLoop_val loop s err hosts os rest :
  loop (hnet s) (hos s) = Returned err hosts os rest ->
  liftLoop loop s = HVal err (mkHState (hw s) os rest (hexec s) (hran s) (hlog s) (hout s)).
Proof. intros E. unfold liftLoop. rewrite E. reflexivity. Qed.

Lemma mergeProfiles_ok p x s out rest :
  faults (hos s) = [] -> fs (hos s) !! p = Some x -> dremoved x = false ->
  hexec s = (out, None) :: rest ->
  mergeProfiles (Some p) s
  = HVal (Some (length (fs (hos s))), None)
      (mkHState (hw s)
         (set_fs (hos s) (fs (hos s) ++ [mkDir (Some p) "merged" [] false]))
         (hnet s) rest
         (hran s ++ [CovdataMerge (Os.children (fs (hos s)) p) (Some (length (fs (hos s))))])
         (hlog s) (hout s)).
Proof.
  intros Hf Hx Hr Hex. unfold mergeProfiles.
  destruct s as [w os net ex ran lg out0]. cbn [hos hexec hw hnet hran hlog hout] in *. subst ex.
  hstep ltac:(eapply ReadDir_ok; eassumption).
  rewrite subdirs_listing.
  hstep ltac:(apply MkdirTemp_ok; [assumption | reflexivity | apply live_lookup; eauto]).
  unfold bindH, CombinedOutput. hsimpl. reflexivity.
Qed.

Lemma children_fresh d host files :
  wf d = true ->
  Os.children (d ++ [mkDir None "coverage" [] false;
                     mkDir (Some (length d)) host files false]) (length d)
  = [S (length d)].
Proof.
  intros Hwf. unfold Os.children.
  change (d ++ [mkDir None "coverage" [] false; mkDir (Some (length d)) host files false])
    with (d ++ [mkDir None "coverage" [] false] ++ [mkDir (Some (length d)) host files false]).
  rewrite app_assoc, !children_from_app.
  rewrite (children_from_wf (length d) O d Hwf) by lia.
  cbn [dremoved dparent negb andb].
  rewrite bool_decide_eq_false_2 by discriminate.
  rewrite bool_decide_eq_true_2 by reflexivity.
  rewrite length_app. cbn [length app]. f_equal. lia.
Qed.

(** X18. A pod that is alone ([numberPods] at most one) answers with
    the percentage of its own data: when the operating system reports
    no failure and the two commands succeed, the handler sends no
    request, merges exactly the directory of the local data, asks for
    the percentages of the merged directory and answers 200 with the
    total the aggregator computes from the report, logging nothing. *)
Theorem lone_pod_percentage ParseFloat Sprintf_2f g r s out1 out2 rest x :
  numberPods g <= 1 -> hw s = newWriter ->
  faults (hos s) = [] -> wf (fs (hos s)) = true -> runtimeNames (hos s) = true ->
  Os.hasSeparator (hostname g) = false ->
  hexec s = (out1, None) :: (out2, None) :: rest ->
  calculateTotalCoverage ParseFloat out2 = Ok x ->
  CovPercentHandler ParseFloat Sprintf_2f g r s
  = HVal tt
      (mkHState
         (mkWriter (Http.Set_ ∅ "Content-Type" "text/plain") (Some 200)
            (Http.Set_ ∅ "Content-Type" "text/plain")
            ("Total Average Coverage: " +:+ Sprintf_2f x +:+ "%" +:+ newline))
         (set_fs (hos s)
            (fs (hos s)
             ++ [mkDir None "coverage" [] false;
                 mkDir (Some (length (fs (hos s)))) (hostname g)
                   [counterFile (hos s); metaFile (hos s)] false;
                 mkDir (Some (length (fs (hos s)))) "merged" [] false]))
         (hnet s) rest
         (hran s ++ [CovdataMerge [S (length (fs (hos s)))] (Some (S (S (length (fs (hos s))))));
                     CovdataPercent (Some (S (S (length (fs (hos s))))))])
         (hlog s) (hout s)).
Proof.
  intros HN Hw Hf Hwf Hn Hs Hex Hcalc.
  destruct s as [w os net ex ran lg out]. cbn [hos hexec hw hnet hran hlog hout] in *.
  subst w ex. unfold CovPercentHandler.
  hstep ltac:(apply writeBinCoverage_ok; assumption).
  rewrite bindH_ret.
  erewrite bindH_val
    by (eapply liftLoop_val; hsimpl; unfold requestOtherProfile; apply requestLoop_met;
        rewrite size_singleton; lia).
  hsimpl. rewrite bindH_ret.
  erewrite bindH_val.
  2:{ eapply mergeProfiles_ok with (out := out1).
      - hsimpl. exact Hf.
      - hsimpl. rewrite lookup_app_r by lia. rewrite Nat.sub_diag. reflexivity.
      - reflexivity.
      - reflexivity. }
  hsimpl. rewrite bindH_ret. rewrite children_fresh by exact Hwf.
  unfold bindH at 1. unfold CombinedOutput at 1. hsimpl. rewrite Hcalc.
  unfold bindH, Writer.HeaderSet, Writer.Write. hsimpl.
  rewrite length_app. cbn [length]. rewrite Nat.add_comm. cbn [Nat.add].
  rewrite set_fs_set_fs, <- !app_assoc. reflexivity.
Qed.

Lemma lone_pod_percentage_witness :
  CovPercentHandler parseFloatDecimal demoSprintf demoSingle demoRequest demoAloneState
  = HVal tt
      (mkHState
         (mkWriter (Http.Set_ ∅ "Content-Type" "text/plain") (Some 200)
            (Http.Set_ ∅ "Content-Type" "text/plain")
            ("Total Average Coverage: " +:+ demoSprintf 50%float +:+ "%" +:+ newline))
         (set_fs demoOS
            [mkDir None "coverage" [] false;
             mkDir (Some O) "pod-a" [counterFile demoOS; metaFile demoOS] false;
             mkDir (Some O) "merged" [] false])
         [] []
         [CovdataMerge [1%nat] (Some 2%nat); CovdataPercent (Some 2%nat)]
         [] []).
Proof.
  apply (lone_pod_percentage parseFloatDecimal demoSprintf demoSingle demoRequest
           demoAloneState EmptyString demoReport [] 50%float).
  - vm_compute. discriminate.
  - reflexivity.
  - reflexivity.
  - reflexivity.
  - reflexivity.
  - reflexivity.
  - reflexivity.
  - vm_compute. reflexivity.
Defined.
